(** * Asynchronous SQLAlchemy demo: a shallow embedding

    The development embeds the three modules of [talk_async_sqlalchemy]
    ([helpers.py], [models.py], [async.py]) as state-passing functions over
    a small model of the objects they manipulate: the Python built-ins they
    call (string formatting, [repr], [print]), the database behind the
    engine, and the part of the SQLAlchemy session API they use (unit of
    work, identity map, attribute loading, the greenlet bridge of the
    asyncio extension).

    Layout: [Py] holds the Python built-ins; [Runtime] the objects, the
    console and the monad of computations; [Database] and [Sqlalchemy] the
    model of the server and of the library; [Models] (with [Representable]),
    [Helpers] and [Async] the three source modules; [Spec] the predicates
    the statements are written with.  The theorems follow the
    definitions. *)

From stdpp Require Import gmap strings list fin_maps pretty.
From Stdlib Require Import ZArith Ascii String.

Local Open Scope string_scope.
Local Open Scope Z_scope.

(* ===================================================================== *)
(** * Python built-ins *)
(* ===================================================================== *)

Module Py.

(** Exception classes that can surface in the program.  Each exception
    carries its message, which [repr] shows. *)
Inductive exn_class :=
  | ValueError | TypeError | AttributeError | KeyError | RecursionError
  | SystemError | MemoryError
  | MissingGreenlet | DetachedInstanceError | InvalidRequestError
  | DBAPIError | IntegrityError | ProgrammingError | StatementError.

Record exn := Exn { exn_cls : exn_class; exn_msg : string }.

#[global] Instance exn_class_eq_dec : EqDecision exn_class.
Proof. solve_decision. Defined.

Definition exn_class_name (c : exn_class) : string :=
  match c with
  | ValueError => "ValueError" | TypeError => "TypeError"
  | AttributeError => "AttributeError" | KeyError => "KeyError"
  | RecursionError => "RecursionError"
  | SystemError => "SystemError"
  | MemoryError => "MemoryError"
  | DBAPIError => "DBAPIError"
  | MissingGreenlet => "MissingGreenlet"
  | DetachedInstanceError => "DetachedInstanceError"
  | InvalidRequestError => "InvalidRequestError"
  | IntegrityError => "IntegrityError"
  | ProgrammingError => "ProgrammingError"
  | StatementError => "StatementError"
  end.

(** A Python [str] is a [string]; every character stands for one code
    point below 256, so [String.length] is Python's [len]. *)

Fixpoint repeat_char (c : ascii) (n : nat) : string :=
  match n with
  | O => EmptyString
  | S n' => String c (repeat_char c n')
  end.

Fixpoint str_mem (c : ascii) (s : string) : bool :=
  match s with
  | EmptyString => false
  | String d s' => if Ascii.eqb c d then true else str_mem c s'
  end.

Definition hex_digit (n : N) : ascii :=
  ascii_of_N (if (n <? 10)%N then 48 + n else 87 + n)%N.

(** Code points that [repr] shows as they are: the printable ones.  Below
    256 the non-printable ones are the C0 and C1 controls, DEL, the
    no-break space and the soft hyphen. *)
Definition isprintable (c : ascii) : bool :=
  let n := N_of_ascii c in
  ((32 <=? n)%N && (n <? 127)%N)
  || ((161 <=? n)%N && negb (n =? 173)%N).

Definition repr_char (quote : ascii) (c : ascii) : string :=
  let n := N_of_ascii c in
  if Ascii.eqb c quote || Ascii.eqb c "\"%char then String "\"%char (String c EmptyString)
  else if (n =? 9)%N then "\t"
  else if (n =? 10)%N then "\n"
  else if (n =? 13)%N then "\r"
  else if isprintable c then String c EmptyString
  else String "\"%char (String "x"%char
         (String (hex_digit (n / 16)) (String (hex_digit (n mod 16)) EmptyString))).

Fixpoint repr_body (quote : ascii) (s : string) : string :=
  match s with
  | EmptyString => EmptyString
  | String c s' => repr_char quote c +:+ repr_body quote s'
  end.

(** [repr(s)] for a [str]: single quotes, unless the text has a single
    quote and no double quote. *)
Definition repr_str (s : string) : string :=
  let quote : ascii :=
    if str_mem "'"%char s && negb (str_mem "034"%char s)
    then "034"%char else "'"%char in
  String quote (repr_body quote s) +:+ String quote EmptyString.

(** [repr(e)]; the empty message stands for an exception raised without
    argument. *)
Definition repr_exn (e : exn) : string :=
  match exn_msg e with
  | EmptyString => exn_class_name (exn_cls e) +:+ "()"
  | msg => exn_class_name (exn_cls e) +:+ "(" +:+ repr_str msg +:+ ")"
  end.

(** [str(n)] for an [int]. *)
Definition str_int (n : Z) : string := pretty n.

(** Decimal digits of [n], zero-padded on the left to at least [w]
    characters: the ["%0wd"] conversion for a non-negative [n]. *)
Definition zero_pad (w : nat) (n : N) : string :=
  let d := pretty n in
  repeat_char "0"%char (w - String.length d) +:+ d.

(** A naive [datetime.datetime]. *)
Record datetime := Datetime {
  dt_year : N; dt_month : N; dt_day : N;
  dt_hour : N; dt_minute : N; dt_second : N; dt_microsecond : N }.

#[global] Instance datetime_eq_dec : EqDecision datetime.
Proof. solve_decision. Defined.

(** [str(d)]: [isoformat] with a space separator; the fraction is shown
    only when it is not zero. *)
Definition str_datetime (d : datetime) : string :=
  zero_pad 4 (dt_year d) +:+ "-" +:+ zero_pad 2 (dt_month d) +:+ "-"
  +:+ zero_pad 2 (dt_day d) +:+ " " +:+ zero_pad 2 (dt_hour d) +:+ ":"
  +:+ zero_pad 2 (dt_minute d) +:+ ":" +:+ zero_pad 2 (dt_second d)
  +:+ (if (dt_microsecond d =? 0)%N then EmptyString
       else "." +:+ zero_pad 6 (dt_microsecond d)).

(** [repr(d)]: trailing zero fields (microsecond, then second) are left
    out. *)
Definition repr_datetime (d : datetime) : string :=
  "datetime.datetime(" +:+ pretty (dt_year d) +:+ ", " +:+ pretty (dt_month d)
  +:+ ", " +:+ pretty (dt_day d) +:+ ", " +:+ pretty (dt_hour d)
  +:+ ", " +:+ pretty (dt_minute d)
  +:+ (if (dt_microsecond d =? 0)%N
       then (if (dt_second d =? 0)%N then EmptyString else ", " +:+ pretty (dt_second d))
       else ", " +:+ pretty (dt_second d) +:+ ", " +:+ pretty (dt_microsecond d))
  +:+ ")".

(** Largest width a format specification may carry ([sys.maxsize]). *)
Definition PY_SSIZE_T_MAX : Z := 9223372036854775807.

(** The longest [str] there can be: the object has a header of 48 bytes
    and a terminator, so no [str] has [sys.maxsize] characters. *)
Definition MAX_STR_LENGTH : Z := PY_SSIZE_T_MAX - 49.

(** [format(s, f"{fill}^{width}")] for a [str]: the width is a minimum.
    The text is never cut; the padding is split with the smaller half on
    the left.  A negative width puts a sign in the specification, which
    the [str] formatter rejects, and so does a width with too many
    digits.  A width no [str] can have is refused by the allocator with
    [MemoryError]; for a shorter one the model takes the machine to have
    the memory the result needs. *)
Definition format_center (fill : ascii) (s : string) (width : Z) : exn + string :=
  if width <? 0 then
    inl (Exn ValueError "Sign not allowed in string format specifier")
  else if PY_SSIZE_T_MAX <? width then
    inl (Exn ValueError "Too many decimal digits in format string")
  else if MAX_STR_LENGTH <? width then
    inl (Exn MemoryError EmptyString)
  else
    let total := Z.to_nat width in
    let pad := (total - String.length s)%nat in
    let left := (pad / 2)%nat in
    inr (repeat_char fill left +:+ s +:+ repeat_char fill (pad - left)).

(** [needle in hay]. *)
Definition contains (needle hay : string) : Prop :=
  exists pre post : string, hay = pre +:+ needle +:+ post.

End Py.

(* ===================================================================== *)
(** * models.py: the declared tables *)
(* ===================================================================== *)

Module Models.

(** The four mapped classes. *)
Inductive Model := LazyTraveler | EagerTraveler | TravelerWithDestination | Country.

#[global] Instance Model_eq_dec : EqDecision Model.
Proof. solve_decision. Defined.

Inductive coltype := Integer | String_ (n : nat) | DateTime.

(** [Column(type, primary_key=..., server_default=func.now())], possibly
    with a [ForeignKey("table.id")]. *)
Record Column := {
  col_key : string;
  col_type : coltype;
  col_primary_key : bool;
  col_server_default : bool;
  col_foreign_key : option string }.

(** [orm.relationship(target)]: a many-to-one reference that is joined
    on the local foreign-key column. *)
Record Relationship := {
  rel_key : string;
  rel_target : Model;
  rel_fk : string }.

(** [Base.id] *)
Definition id_column : Column :=
  {| col_key := "id"; col_type := Integer; col_primary_key := true;
     col_server_default := false; col_foreign_key := None |}.

(** [TravelerMixin]: [created_at], [name], [age] *)
Definition created_at_column : Column :=
  {| col_key := "created_at"; col_type := DateTime; col_primary_key := false;
     col_server_default := true; col_foreign_key := None |}.
Definition name_column : Column :=
  {| col_key := "name"; col_type := String_ 128; col_primary_key := false;
     col_server_default := false; col_foreign_key := None |}.
Definition age_column : Column :=
  {| col_key := "age"; col_type := Integer; col_primary_key := false;
     col_server_default := false; col_foreign_key := None |}.

(** [TravelerWithDestination.destination_id] and [.destination] *)
Definition destination_id_column : Column :=
  {| col_key := "destination_id"; col_type := Integer; col_primary_key := false;
     col_server_default := false; col_foreign_key := Some "country" |}.
Definition destination_relationship : Relationship :=
  {| rel_key := "destination"; rel_target := Country; rel_fk := "destination_id" |}.

Definition cls_name (m : Model) : string :=
  match m with
  | LazyTraveler => "LazyTraveler"
  | EagerTraveler => "EagerTraveler"
  | TravelerWithDestination => "TravelerWithDestination"
  | Country => "Country"
  end.

Definition tablename (m : Model) : string :=
  match m with
  | LazyTraveler => "lazy_traveler"
  | EagerTraveler => "eager_traveler"
  | TravelerWithDestination => "traveler_with_destination"
  | Country => "country"
  end.

(** [__mapper_args__ = {"eager_defaults": ...}]; [Country] keeps the
    default, which is off. *)
Definition eager_defaults (m : Model) : bool :=
  match m with
  | LazyTraveler => false
  | EagerTraveler => true
  | TravelerWithDestination => true
  | Country => false
  end.

(** Table columns, in creation order. *)
Definition columns (m : Model) : list Column :=
  match m with
  | LazyTraveler | EagerTraveler =>
      [id_column; created_at_column; name_column; age_column]
  | TravelerWithDestination =>
      [id_column; created_at_column; name_column; age_column; destination_id_column]
  | Country => [id_column; name_column]
  end.

Definition relationships (m : Model) : list Relationship :=
  match m with
  | TravelerWithDestination => [destination_relationship]
  | _ => []
  end.

(** The mapped attributes in the order the mapper lists them
    ([inspect(obj).attrs]): the relationship, which is configured from the
    class itself, then one attribute per column of the table, in the order
    of the table. *)
Definition attr_keys (m : Model) : list string :=
  match m with
  | LazyTraveler | EagerTraveler => ["id"; "created_at"; "name"; "age"]
  | TravelerWithDestination =>
      ["destination"; "id"; "created_at"; "name"; "age"; "destination_id"]
  | Country => ["id"; "name"]
  end.

(** [Base.metadata]: every declared table. *)
Definition metadata : list Model :=
  [LazyTraveler; EagerTraveler; TravelerWithDestination; Country].

End Models.

(* ===================================================================== *)
(** * The run-time world: objects, database, sessions, console *)
(* ===================================================================== *)

Module Runtime.
Import Py Models.

Definition addr := nat.

(** The Python objects the program handles.  [VRef a] is a reference to
    the mapped instance stored at address [a]: instances are shared and
    mutated in place by the session. *)
Inductive value :=
  | VNone
  | VInt (n : Z)
  | VStr (s : string)
  | VDateTime (d : datetime)
  | VRef (a : addr).

#[global] Instance value_eq_dec : EqDecision value.
Proof. solve_decision. Defined.

(** A mapped instance with its [InstanceState]: the loaded attributes
    ([__dict__]), the attributes marked as expired, the identity key once
    the row exists, and the session the instance is attached to. *)
Record Instance := {
  inst_class : Model;
  inst_dict : gmap string value;
  inst_expired : list string;
  inst_key : option Z;
  inst_session : option nat }.

(** ** The database *)

Abbreviation RowT := (gmap string value).

(** A table: its rows by primary key, and the next value of the sequence
    behind the [id] column. *)
Record Table := { rows : gmap Z RowT; seq : Z }.

(** The tables by name, and the server clock: [clock n] is what [now()]
    answers in the [n]-th transaction. *)
Record Database := {
  tables : gmap string Table;
  clock : nat -> datetime;
  tick : nat }.

(** ** Sessions *)

(** An [orm.Session]: the pending instances, the instances inserted by the
    transaction in progress, the identity map, the configuration, and the
    tables as they were when the transaction began (absent outside a
    transaction). *)
Record Session := {
  sess_new : list addr;
  sess_tx_new : list addr;
  sess_identity : list ((Model * Z) * addr);
  sess_expire_on_commit : bool;
  sess_snapshot : option (gmap string Table) }.

(** What the engine and the sessions did, in order. *)
Inductive event :=
  | EvConstruct (a : addr) (m : Model)
  | EvSessionOpen (sid : nat)
  | EvBegin (sid : nat)
  | EvAdd (sid : nat) (a : addr)
  | EvInsert (sid : nat) (m : Model) (pk : Z)
  | EvCommit (sid : nat)
  | EvRollback (sid : nat)
  | EvSessionClose (sid : nat)
  | EvSelect (sid : nat) (m : Model)
  | EvConnect
  | EvExecuteText
  | EvDisconnect
  | EvDispose
  | EvRead (a : addr) (key : string)
  | EvLoad (a : addr) (key : string).

Record World := {
  environ : gmap string string;
  db : Database;
  heap : gmap addr Instance;
  next_addr : addr;
  sessions : gmap nat Session;
  next_session : nat;
  greenlet : bool;
  stdout : list string;
  trace : list event }.

Definition set_db (d : Database) (w : World) : World :=
  {| environ := environ w; db := d; heap := heap w; next_addr := next_addr w;
     sessions := sessions w; next_session := next_session w;
     greenlet := greenlet w; stdout := stdout w; trace := trace w |}.

Definition set_heap (h : gmap addr Instance) (w : World) : World :=
  {| environ := environ w; db := db w; heap := h; next_addr := next_addr w;
     sessions := sessions w; next_session := next_session w;
     greenlet := greenlet w; stdout := stdout w; trace := trace w |}.

Definition set_next_addr (n : addr) (w : World) : World :=
  {| environ := environ w; db := db w; heap := heap w; next_addr := n;
     sessions := sessions w; next_session := next_session w;
     greenlet := greenlet w; stdout := stdout w; trace := trace w |}.

Definition set_sessions (s : gmap nat Session) (w : World) : World :=
  {| environ := environ w; db := db w; heap := heap w; next_addr := next_addr w;
     sessions := s; next_session := next_session w;
     greenlet := greenlet w; stdout := stdout w; trace := trace w |}.

Definition set_next_session (n : nat) (w : World) : World :=
  {| environ := environ w; db := db w; heap := heap w; next_addr := next_addr w;
     sessions := sessions w; next_session := n;
     greenlet := greenlet w; stdout := stdout w; trace := trace w |}.

Definition set_greenlet (g : bool) (w : World) : World :=
  {| environ := environ w; db := db w; heap := heap w; next_addr := next_addr w;
     sessions := sessions w; next_session := next_session w;
     greenlet := g; stdout := stdout w; trace := trace w |}.

Definition set_stdout (o : list string) (w : World) : World :=
  {| environ := environ w; db := db w; heap := heap w; next_addr := next_addr w;
     sessions := sessions w; next_session := next_session w;
     greenlet := greenlet w; stdout := o; trace := trace w |}.

Definition set_trace (t : list event) (w : World) : World :=
  {| environ := environ w; db := db w; heap := heap w; next_addr := next_addr w;
     sessions := sessions w; next_session := next_session w;
     greenlet := greenlet w; stdout := stdout w; trace := t |}.

(** ** Computations: state and exceptions *)

Inductive Res (A : Type) :=
  | Ok (a : A)
  | Raise (e : exn).
Arguments Ok {A} a.
Arguments Raise {A} e.

Definition M (A : Type) : Type := World -> Res A * World.

Definition ret {A} (a : A) : M A := fun w => (Ok a, w).

Definition bind {A B} (c : M A) (k : A -> M B) : M B :=
  fun w => match c w with
           | (Ok a, w') => k a w'
           | (Raise e, w') => (Raise e, w')
           end.

Definition raise {A} (e : exn) : M A := fun w => (Raise e, w).

Definition get_world : M World := fun w => (Ok w, w).

Definition modify (f : World -> World) : M unit := fun w => (Ok tt, f w).

Definition lift {A} (r : exn + A) : M A :=
  match r with
  | inl e => raise e
  | inr a => ret a
  end.

(** [try: c  except cls as e: h e] *)
Definition try_except {A} (c : M A) (cls : exn_class) (h : exn -> M A) : M A :=
  fun w => match c w with
           | (Raise e, w') =>
               if decide (exn_cls e = cls) then h e w' else (Raise e, w')
           | r => r
           end.

(** [try: c  finally: f] *)
Definition try_finally {A} (c : M A) (f : M unit) : M A :=
  fun w => match c w with
           | (r, w') =>
               match f w' with
               | (Ok _, w'') => (r, w'')
               | (Raise e, w'') => (Raise e, w'')
               end
           end.

(** Any exception: what a context manager's exit sees. *)
Definition on_error {A} (c : M A) (h : M unit) : M A :=
  fun w => match c w with
           | (Raise e, w') =>
               match h w' with
               | (Ok _, w'') => (Raise e, w'')
               | (Raise e', w'') => (Raise e', w'')
               end
           | r => r
           end.

Notation "'let*' x := c 'in' k" := (bind c (fun x => k))
  (at level 10, x name, c at level 100, k at level 200).
Notation "c ;;; k" := (bind c (fun _ => k))
  (at level 100, k at level 200, right associativity).

Fixpoint for_each {A} (f : A -> M unit) (l : list A) : M unit :=
  match l with
  | [] => ret tt
  | x :: l' => f x ;;; for_each f l'
  end.

Fixpoint map_m {A B} (f : A -> M B) (l : list A) : M (list B) :=
  match l with
  | [] => ret []
  | x :: l' => let* y := f x in let* ys := map_m f l' in ret (y :: ys)
  end.

Fixpoint fold_m {A B} (f : B -> A -> M B) (b : B) (l : list A) : M B :=
  match l with
  | [] => ret b
  | x :: l' => let* b' := f b x in fold_m f b' l'
  end.

Definition emit (e : event) : M unit :=
  modify (fun w => set_trace (trace w ++ [e]) w).

Definition newline : string := String "010"%char EmptyString.

(** [print(s, end=end_)]: one entry of [stdout] per call. *)
Definition print (s : string) (end_ : string) : M unit :=
  modify (fun w => set_stdout (stdout w ++ [s +:+ end_]) w).

(** [os.environ[name]] *)
Definition environ_get (name : string) : M string :=
  fun w => match environ w !! name with
           | Some v => (Ok v, w)
           | None => (Raise (Exn KeyError name), w)
           end.

(** Objects live on the heap.  An address that holds nothing cannot be
    reached from a running program; the model answers with [SystemError]
    to stay total. *)
Definition get_instance (a : addr) : M Instance :=
  fun w => match heap w !! a with
           | Some i => (Ok i, w)
           | None => (Raise (Exn SystemError "dangling reference"), w)
           end.

Definition put_instance (a : addr) (i : Instance) : M unit :=
  modify (fun w => set_heap (<[a := i]> (heap w)) w).

Definition alloc (i : Instance) : M addr :=
  fun w => let a := next_addr w in
           (Ok a, set_next_addr (S a) (set_heap (<[a := i]> (heap w)) w)).

Definition get_session (sid : nat) : M Session :=
  fun w => match sessions w !! sid with
           | Some s => (Ok s, w)
           | None => (Raise (Exn SystemError "dangling session"), w)
           end.

Definition put_session (sid : nat) (s : Session) : M unit :=
  modify (fun w => set_sessions (<[sid := s]> (sessions w)) w).

Definition set_inst_dict (d : gmap string value) (i : Instance) : Instance :=
  {| inst_class := inst_class i; inst_dict := d; inst_expired := inst_expired i;
     inst_key := inst_key i; inst_session := inst_session i |}.

Definition set_inst_expired (e : list string) (i : Instance) : Instance :=
  {| inst_class := inst_class i; inst_dict := inst_dict i; inst_expired := e;
     inst_key := inst_key i; inst_session := inst_session i |}.

Definition set_inst_key (k : option Z) (i : Instance) : Instance :=
  {| inst_class := inst_class i; inst_dict := inst_dict i;
     inst_expired := inst_expired i; inst_key := k;
     inst_session := inst_session i |}.

Definition set_inst_session (s : option nat) (i : Instance) : Instance :=
  {| inst_class := inst_class i; inst_dict := inst_dict i;
     inst_expired := inst_expired i; inst_key := inst_key i;
     inst_session := s |}.

End Runtime.

(* ===================================================================== *)
(** * The database *)
(* ===================================================================== *)

Module Database.
Import Py Models Runtime.

(** What the driver encodes for a column of the given type: [None] for
    any, an [int] of 32 bits for an [INTEGER], a [str] for a [VARCHAR], a
    [datetime] for a [TIMESTAMP]. *)
Definition encodable (ty : coltype) (v : value) : bool :=
  match ty, v with
  | _, VNone => true
  | Integer, VInt n => (-2147483648 <=? n) && (n <=? 2147483647)
  | String_ _, VStr _ => true
  | DateTime, VDateTime _ => true
  | _, _ => false
  end.

(** Text the server takes as a parameter: it holds no NUL character. *)
Definition acceptable_text (v : value) : bool :=
  match v with
  | VStr s => negb (str_mem "000"%char s)
  | _ => true
  end.

(** The parameters of an [INSERT] reach the executor: the driver encodes
    each of them and the server parses each of them. *)
Definition sent (m : Model) (params : gmap string value) : bool :=
  forallb (fun c => match params !! col_key c with
                    | Some v => encodable (col_type c) v && acceptable_text v
                    | None => true
                    end) (columns m).

(** PostgreSQL's column typing: [NULL] fits every nullable column, an
    [INTEGER] holds 32 bits, a [VARCHAR(n)] at most [n] characters. *)
Definition value_fits (ty : coltype) (v : value) : bool :=
  match ty, v with
  | _, VNone => true
  | Integer, VInt n => (-2147483648 <=? n) && (n <=? 2147483647)
  | String_ k, VStr s => (String.length s <=? k)%nat
  | DateTime, VDateTime _ => true
  | _, _ => false
  end.

(** A parameter that is absent or [None] is left out of the [INSERT]. *)
Definition present (params : gmap string value) (k : string) : option value :=
  match params !! k with
  | Some VNone | None => None
  | Some v => Some v
  end.

(** The value stored for column [c]: the parameter, else the next value
    of the sequence for the primary key, else [now()] for a column with
    that server default, else [NULL]. *)
Definition insert_value (t : Table) (now : datetime)
    (params : gmap string value) (c : Column) : value :=
  match present params (col_key c) with
  | Some v => v
  | None =>
      if col_primary_key c then VInt (seq t)
      else if col_server_default c then VDateTime now
      else VNone
  end.

Definition build_row (t : Table) (now : datetime)
    (params : gmap string value) (cols : list Column) : RowT :=
  list_to_map (map (fun c => (col_key c, insert_value t now params c)) cols).

Definition column_value (row : RowT) (k : string) : value :=
  default VNone (row !! k).

(** A foreign key that is not [NULL] must name an existing row. *)
Definition fk_ok (d : Database) (row : RowT) (c : Column) : bool :=
  match col_foreign_key c, column_value row (col_key c) with
  | Some target, VInt k =>
      match tables d !! target with
      | Some t => bool_decide (is_Some (rows t !! k))
      | None => false
      end
  | _, _ => true
  end.

(** [INSERT INTO table (...) VALUES (...) RETURNING *].  The errors are
    those the caller sees: what the driver or the server reports outside
    the classes the dialect translates comes as [DBAPIError]; a violated
    constraint as [IntegrityError]; a missing table as
    [ProgrammingError]. *)
Definition db_insert (m : Model) (params : gmap string value) (d : Database)
    : exn + (Z * RowT * Database) :=
  match tables d !! tablename m with
  | None => inl (Exn ProgrammingError ("relation does not exist: " +:+ tablename m))
  | Some t =>
      let row := build_row t (clock d (tick d)) params (columns m) in
      if negb (sent m params)
      then inl (Exn DBAPIError "invalid input for query argument")
      else if negb (forallb (fun c => value_fits (col_type c) (column_value row (col_key c)))
                            (columns m))
      then inl (Exn DBAPIError "value out of range for the type of the column")
      else
        match column_value row "id" with
        | VInt pk =>
            if bool_decide (is_Some (rows t !! pk))
            then inl (Exn IntegrityError "duplicate key value violates unique constraint")
            else if negb (forallb (fk_ok d row) (columns m))
            then inl (Exn IntegrityError "insert violates foreign key constraint")
            else
              let seq' := match present params "id" with
                          | Some _ => seq t
                          | None => seq t + 1
                          end in
              inr (pk, row,
                   {| tables := <[tablename m :=
                                    {| rows := <[pk := row]> (rows t); seq := seq' |}]>
                                (tables d);
                      clock := clock d; tick := tick d |})
        | _ => inl (Exn IntegrityError "null value in column id violates not-null constraint")
        end
  end.

(** The database after an [INSERT] was refused.  A statement whose
    parameters do not reach the executor changes nothing.  One that runs
    and fails has taken its key from the sequence before, and a sequence
    does not give a value back. *)
Definition db_refused (m : Model) (params : gmap string value) (d : Database) : Database :=
  match tables d !! tablename m with
  | None => d
  | Some t =>
      if sent m params then
        match present params "id" with
        | Some _ => d
        | None =>
            {| tables := <[tablename m := {| rows := rows t; seq := seq t + 1 |}]> (tables d);
               clock := clock d; tick := tick d |}
        end
      else d
  end.

(** [SELECT ... WHERE k1 = v1 AND ...]: the criteria are equalities between
    a column and a value; a comparison with [None] is rendered [IS NULL]. *)
Definition where_ok (row : RowT) (crit : string * value) : bool :=
  bool_decide (column_value row (fst crit) = snd crit).

Definition pk_criterion (crits : list (string * value)) : option value :=
  snd <$> List.find (fun c => String.eqb (fst c) "id") crits.

(** The rows that satisfy the criteria.  An equality on the primary key is
    answered through the key; otherwise the table is scanned. *)
Definition select_rows (t : Table) (crits : list (string * value)) : list (Z * RowT) :=
  match pk_criterion crits with
  | Some (VInt k) =>
      match rows t !! k with
      | Some row => if forallb (where_ok row) crits then [(k, row)] else []
      | None => []
      end
  | Some _ => []
  | None => filter (fun kr => forallb (where_ok (snd kr)) crits = true)
                   (map_to_list (rows t))
  end.

(** [metadata.drop_all] and [metadata.create_all] *)
Definition drop_all (ms : list Model) (d : Database) : Database :=
  {| tables := foldr (fun m ts => delete (tablename m) ts) (tables d) ms;
     clock := clock d; tick := tick d |}.

Definition empty_table : Table := {| rows := ∅; seq := 1 |}.

Definition create_all (ms : list Model) (d : Database) : Database :=
  {| tables := foldr (fun m ts => match ts !! tablename m with
                                  | Some _ => ts
                                  | None => <[tablename m := empty_table]> ts
                                  end) (tables d) ms;
     clock := clock d; tick := tick d |}.

(** The end of a transaction: the next one sees a later [now()]. *)
Definition end_transaction (d : Database) : Database :=
  {| tables := tables d; clock := clock d; tick := S (tick d) |}.

(** [ROLLBACK]: the rows are those of the snapshot; sequences keep their
    value. *)
Definition restore_tables (snap : gmap string Table) (d : Database) : Database :=
  {| tables := merge (fun cur old =>
                        match cur, old with
                        | Some c, Some o => Some {| rows := rows o; seq := seq c |}
                        | Some c, None => Some c
                        | None, _ => None
                        end) (tables d) snap;
     clock := clock d; tick := tick d |}.

End Database.

(* ===================================================================== *)
(** * The session API of the ORM *)
(* ===================================================================== *)

Module Sqlalchemy.
Import Py Models Runtime Database.

(** ** Engine and session factory *)

Record Engine := { eng_url : string; eng_echo : bool; eng_future : bool }.

Record SessionMaker := {
  sm_bind : Engine;
  sm_expire_on_commit : bool;
  sm_async : bool }.

Definition create_async_engine (url : string) (echo future : bool) : Engine :=
  {| eng_url := url; eng_echo := echo; eng_future := future |}.

Definition sessionmaker (e : Engine) (expire_on_commit async : bool) : SessionMaker :=
  {| sm_bind := e; sm_expire_on_commit := expire_on_commit; sm_async := async |}.

(** ** The greenlet bridge

    Database I/O of the synchronous core goes through [await_only], which
    works only inside [greenlet_spawn].  The awaitable methods of the
    asyncio extension run their synchronous counterpart under
    [greenlet_spawn]; plain attribute access in the caller's code does
    not. *)

Definition missing_greenlet : exn :=
  Exn MissingGreenlet
    "greenlet_spawn has not been called; can't call await_only() here. Was IO attempted in an unexpected place?".

Definition await_only : M unit :=
  fun w => if greenlet w then (Ok tt, w) else (Raise missing_greenlet, w).

Definition greenlet_spawn {A} (f : M A) : M A :=
  fun w => match f (set_greenlet true w) with
           | (r, w') => (r, set_greenlet (greenlet w) w')
           end.

(** ** Mapper look-ups *)

Definition is_some {A} (o : option A) : bool :=
  match o with Some _ => true | None => false end.

Definition is_column (m : Model) (k : string) : bool :=
  existsb (fun c => String.eqb (col_key c) k) (columns m).

Definition find_relationship (m : Model) (k : string) : option Relationship :=
  List.find (fun r => String.eqb (rel_key r) k) (relationships m).

Definition is_attr (m : Model) (k : string) : bool :=
  existsb (String.eqb k) (attr_keys m).

(** [inspect(obj).unloaded]: the mapped attributes without a loaded
    value. *)
Definition unloaded (i : Instance) : list string :=
  List.filter (fun k => negb (is_some (inst_dict i !! k))) (attr_keys (inst_class i)).

(** ** The declarative constructor

    Calling the class with keyword arguments sets every keyword as an
    attribute.  The model covers keywords that name mapped attributes; any
    other keyword is answered with the [TypeError] of an unknown name.  A
    relationship takes [None] or an instance of its target class. *)
Definition check_kwarg (m : Model) (kv : string * value) : M unit :=
  let (k, v) := kv in
  if is_column m k then ret tt
  else match find_relationship m k with
       | Some r =>
           match v with
           | VNone => ret tt
           | VRef c =>
               let* ci := get_instance c in
               if decide (inst_class ci = rel_target r) then ret tt
               else raise (Exn TypeError "incompatible object for relationship")
           | _ => raise (Exn AttributeError "object has no attribute '_sa_instance_state'")
           end
       | None =>
           raise (Exn TypeError (repr_str k +:+ " is an invalid keyword argument for "
                                 +:+ cls_name m))
       end.

Definition construct (m : Model) (kwargs : gmap string value) : M addr :=
  for_each (check_kwarg m) (map_to_list kwargs) ;;;
  let* a := alloc {| inst_class := m; inst_dict := kwargs; inst_expired := [];
                     inst_key := None; inst_session := None |} in
  emit (EvConstruct a m) ;;;
  ret a.

(** ** Sessions *)

Fixpoint identity_lookup (k : Model * Z) (l : list ((Model * Z) * addr)) : option addr :=
  match l with
  | [] => None
  | (k', a) :: l' => if decide (k = k') then Some a else identity_lookup k l'
  end.

Definition set_sess_new (l : list addr) (s : Session) : Session :=
  {| sess_new := l; sess_tx_new := sess_tx_new s; sess_identity := sess_identity s;
     sess_expire_on_commit := sess_expire_on_commit s;
     sess_snapshot := sess_snapshot s |}.

Definition set_sess_tx_new (l : list addr) (s : Session) : Session :=
  {| sess_new := sess_new s; sess_tx_new := l; sess_identity := sess_identity s;
     sess_expire_on_commit := sess_expire_on_commit s;
     sess_snapshot := sess_snapshot s |}.

Definition set_sess_identity (l : list ((Model * Z) * addr)) (s : Session) : Session :=
  {| sess_new := sess_new s; sess_tx_new := sess_tx_new s; sess_identity := l;
     sess_expire_on_commit := sess_expire_on_commit s;
     sess_snapshot := sess_snapshot s |}.

Definition set_sess_snapshot (o : option (gmap string Table)) (s : Session) : Session :=
  {| sess_new := sess_new s; sess_tx_new := sess_tx_new s;
     sess_identity := sess_identity s;
     sess_expire_on_commit := sess_expire_on_commit s;
     sess_snapshot := o |}.

(** [session_maker()] *)
Definition new_session (sm : SessionMaker) : M nat :=
  fun w =>
    let sid := next_session w in
    let s := {| sess_new := []; sess_tx_new := []; sess_identity := [];
                sess_expire_on_commit := sm_expire_on_commit sm;
                sess_snapshot := None |} in
    (Ok sid,
     set_trace (trace w ++ [EvSessionOpen sid])
       (set_next_session (S sid) (set_sessions (<[sid := s]> (sessions w)) w))).

(** A transaction begins on demand: the tables are remembered for a
    later rollback. *)
Definition autobegin (sid : nat) : M unit :=
  let* s := get_session sid in
  match sess_snapshot s with
  | Some _ => ret tt
  | None =>
      let* w := get_world in
      put_session sid (set_sess_snapshot (Some (tables (db w))) s)
  end.

(** [Session.begin()] *)
Definition Session_begin (sid : nat) : M unit :=
  let* s := get_session sid in
  match sess_snapshot s with
  | Some _ => raise (Exn InvalidRequestError "A transaction is already begun on this Session.")
  | None => autobegin sid ;;; emit (EvBegin sid)
  end.

(** Attaching one instance: a transient one becomes pending, a detached
    one becomes persistent again. *)
Definition attach (sid : nat) (a : addr) : M unit :=
  let* i := get_instance a in
  match inst_session i with
  | Some sid' =>
      if decide (sid' = sid) then ret tt
      else raise (Exn InvalidRequestError "Object is already attached to session")
  | None =>
      let* s := get_session sid in
      match inst_key i with
      | None =>
          put_instance a (set_inst_session (Some sid) i) ;;;
          put_session sid (set_sess_new (sess_new s ++ [a]) s)
      | Some pk =>
          match identity_lookup (inst_class i, pk) (sess_identity s) with
          | Some _ =>
              raise (Exn InvalidRequestError
                       "Can't attach instance; another instance with this key is already present in this session.")
          | None =>
              put_instance a (set_inst_session (Some sid) i) ;;;
              put_session sid
                (set_sess_identity (sess_identity s ++ [((inst_class i, pk), a)]) s)
          end
      end
  end.

(** [session.add(obj)], with the save-update cascade along the
    relationships of [obj]. *)
Definition Session_add (sid : nat) (a : addr) : M unit :=
  attach sid a ;;;
  let* i := get_instance a in
  for_each (fun r => match inst_dict i !! rel_key r with
                     | Some (VRef c) => attach sid c
                     | _ => ret tt
                     end) (relationships (inst_class i)) ;;;
  emit (EvAdd sid a).

(** ** The unit of work *)

(** A many-to-one relationship that was assigned fills its foreign-key
    column from the primary key of the referenced instance. *)
Definition sync_fk (d : gmap string value) (r : Relationship) : M (gmap string value) :=
  match d !! rel_key r with
  | Some (VRef c) =>
      let* ci := get_instance c in
      ret (<[rel_fk r := default VNone (inst_dict ci !! "id")]> d)
  | Some _ => ret (<[rel_fk r := VNone]> d)
  | None => ret d
  end.

(** After the [INSERT]: the primary key is always fetched; a column the
    server filled is fetched when [eager_defaults] is on and is marked
    expired otherwise. *)
Definition postfetch_column (m : Model) (params : gmap string value) (row : RowT)
    (acc : gmap string value * list string) (c : Column)
    : gmap string value * list string :=
  let (d, expired) := acc in
  match present params (col_key c) with
  | Some _ => acc
  | None =>
      if col_primary_key c then
        (<[col_key c := column_value row (col_key c)]> d, expired)
      else if col_server_default c then
        if eager_defaults m
        then (<[col_key c := column_value row (col_key c)]> d, expired)
        else (delete (col_key c) d, (expired ++ [col_key c])%list)
      else acc
  end.

Definition postfetch (m : Model) (params : gmap string value) (row : RowT)
    (expired : list string) : gmap string value * list string :=
  fold_left (postfetch_column m params row) (columns m) (params, expired).

Definition flush_instance (sid : nat) (a : addr) : M unit :=
  let* i := get_instance a in
  let m := inst_class i in
  let* params := fold_m sync_fk (inst_dict i) (relationships m) in
  await_only ;;;
  let* w := get_world in
  match db_insert m params (db w) with
  | inl e => modify (fun w => set_db (db_refused m params (db w)) w) ;;; raise e
  | inr (pk, row, db') =>
      modify (set_db db') ;;;
      let (d, expired) := postfetch m params row (inst_expired i) in
      put_instance a {| inst_class := m; inst_dict := d; inst_expired := expired;
                        inst_key := Some pk; inst_session := Some sid |} ;;;
      let* s := get_session sid in
      put_session sid
        (set_sess_tx_new (sess_tx_new s ++ [a])
           (set_sess_identity (sess_identity s ++ [((m, pk), a)]) s)) ;;;
      emit (EvInsert sid m pk)
  end.

(** Rows that others refer to are inserted first: instances of classes
    without relationships, then the rest. *)
Definition flush_order (l : list addr) : M (list addr) :=
  let* tagged := map_m (fun a => let* i := get_instance a in
                                 ret (a, relationships (inst_class i))) l in
  ret (map fst (List.filter (fun p => match snd p with [] => true | _ => false end) tagged
                ++ List.filter (fun p => match snd p with [] => false | _ => true end) tagged)).

Definition Session_flush (sid : nat) : M unit :=
  let* s := get_session sid in
  match sess_new s with
  | [] => ret tt
  | pending =>
      autobegin sid ;;;
      let* ordered := flush_order pending in
      for_each (flush_instance sid) ordered ;;;
      let* s' := get_session sid in
      put_session sid (set_sess_new [] s')
  end.

Definition detach (a : addr) : M unit :=
  modify (fun w => set_heap (alter (set_inst_session None) a (heap w)) w).

Definition make_transient (a : addr) : M unit :=
  modify (fun w => set_heap
    (alter (fun i => set_inst_key None (set_inst_session None i)) a (heap w)) w).

Definition expire (a : addr) : M unit :=
  modify (fun w => set_heap
    (alter (fun i => set_inst_expired (attr_keys (inst_class i)) (set_inst_dict ∅ i))
       a (heap w)) w).

(** [Session.rollback()]: the rows go back to the snapshot, the instances
    added or inserted by the transaction leave the session as transient
    ones, and what stays in the identity map is expired. *)
Definition Session_rollback (sid : nat) : M unit :=
  let* s := get_session sid in
  for_each make_transient (sess_tx_new s ++ sess_new s) ;;;
  let kept := List.filter (fun ka => negb (existsb (Nat.eqb (snd ka)) (sess_tx_new s)))
                          (sess_identity s) in
  for_each expire (map snd kept) ;;;
  match sess_snapshot s with
  | Some snap => modify (fun w => set_db (end_transaction (restore_tables snap (db w))) w)
  | None => ret tt
  end ;;;
  put_session sid
    (set_sess_snapshot None (set_sess_new [] (set_sess_tx_new []
       (set_sess_identity kept s)))) ;;;
  emit (EvRollback sid).

(** [Session.commit()]: flush, [COMMIT], and expire everything when the
    session was made with [expire_on_commit]; a failing flush rolls the
    transaction back. *)
Definition Session_commit (sid : nat) : M unit :=
  autobegin sid ;;;
  on_error (Session_flush sid) (Session_rollback sid) ;;;
  modify (fun w => set_db (end_transaction (db w)) w) ;;;
  let* s := get_session sid in
  (if sess_expire_on_commit s then for_each expire (map snd (sess_identity s))
   else ret tt) ;;;
  put_session sid (set_sess_snapshot None (set_sess_tx_new [] s)) ;;;
  emit (EvCommit sid).

(** [Session.close()]: every instance is expunged with its loaded state
    as it is, then a transaction in progress is rolled back in the
    database. *)
Definition Session_close (sid : nat) : M unit :=
  let* s := get_session sid in
  for_each detach (map snd (sess_identity s) ++ sess_new s) ;;;
  match sess_snapshot s with
  | Some snap => modify (fun w => set_db (end_transaction (restore_tables snap (db w))) w)
  | None => ret tt
  end ;;;
  put_session sid
    (set_sess_snapshot None (set_sess_new [] (set_sess_tx_new []
       (set_sess_identity [] s)))) ;;;
  emit (EvSessionClose sid).

(** ** Statements *)

(** [select(entity).where(col == v, ...).options(joinedload(cls.key), ...)] *)
Record Select := {
  sel_entity : Model;
  sel_where : list (string * value);
  sel_options : list (Model * string) }.

Definition select (m : Model) : Select :=
  {| sel_entity := m; sel_where := []; sel_options := [] |}.

Definition where_ (sel : Select) (col : string) (v : value) : Select :=
  {| sel_entity := sel_entity sel; sel_where := sel_where sel ++ [(col, v)];
     sel_options := sel_options sel |}.

Definition options (sel : Select) (attr : Model * string) : Select :=
  {| sel_entity := sel_entity sel; sel_where := sel_where sel;
     sel_options := sel_options sel ++ [attr] |}.

Definition joinedload (m : Model) (key : string) : Model * string := (m, key).

(** ** Loading *)

(** An instance for a fetched row: the one the identity map already has
    for that key, completed with the columns it had not loaded, or a new
    one with every column loaded and no relationship loaded. *)
Definition load_instance (sid : nat) (m : Model) (pk : Z) (row : RowT) : M addr :=
  let* s := get_session sid in
  match identity_lookup (m, pk) (sess_identity s) with
  | Some a =>
      let* i := get_instance a in
      put_instance a
        (set_inst_expired (List.filter (fun k => negb (is_column m k)) (inst_expired i))
           (set_inst_dict (inst_dict i ∪ row) i)) ;;;
      ret a
  | None =>
      let* a := alloc {| inst_class := m; inst_dict := row; inst_expired := [];
                         inst_key := Some pk; inst_session := Some sid |} in
      put_session sid (set_sess_identity (sess_identity s ++ [((m, pk), a)]) s) ;;;
      ret a
  end.

Definition lookup_row (m : Model) (pk : Z) (d : Database) : option RowT :=
  match tables d !! tablename m with
  | Some t => rows t !! pk
  | None => None
  end.

Definition set_attr (a : addr) (key : string) (v : value) : M unit :=
  let* i := get_instance a in
  put_instance a (set_inst_dict (<[key := v]> (inst_dict i)) i).

(** The row that relationship [r] of instance [a] refers to comes with
    the same statement (a left outer join). *)
Definition load_joined (sid : nat) (a : addr) (r : Relationship) : M unit :=
  let* i := get_instance a in
  match inst_dict i !! rel_key r with
  | Some _ => ret tt
  | None =>
      let* w := get_world in
      let* target :=
        match inst_dict i !! rel_fk r with
        | Some (VInt k) =>
            match lookup_row (rel_target r) k (db w) with
            | Some row' =>
                let* c := load_instance sid (rel_target r) k row' in ret (VRef c)
            | None => ret VNone
            end
        | _ => ret VNone
        end in
      set_attr a (rel_key r) target
  end.

Definition apply_option (sid : nat) (entity : Model) (a : addr) (opt : Model * string)
    : M unit :=
  let (m, key) := opt in
  match (if decide (m = entity) then find_relationship m key else None) with
  | Some r => load_joined sid a r
  | None => raise (Exn InvalidRequestError "Mapped attribute does not apply to the entity of the statement")
  end.

Definition sendable (v : value) : bool :=
  match v with VRef _ => false | _ => true end.

(** [Session.execute(statement)]: pending changes are flushed first, the
    statement runs, and every row becomes an instance. *)
Definition Session_execute (sid : nat) (sel : Select) : M (list value) :=
  Session_flush sid ;;;
  if negb (forallb (fun c => sendable (snd c)) (sel_where sel))
  then raise (Exn StatementError "cannot adapt a mapped instance to a bound parameter")
  else
    await_only ;;;
    autobegin sid ;;;
    emit (EvSelect sid (sel_entity sel)) ;;;
    let* w := get_world in
    match tables (db w) !! tablename (sel_entity sel) with
    | None => raise (Exn ProgrammingError
                       ("relation does not exist: " +:+ tablename (sel_entity sel)))
    | Some t =>
        map_m (fun kr =>
                 let* a := load_instance sid (sel_entity sel) (fst kr) (snd kr) in
                 for_each (apply_option sid (sel_entity sel) a) (sel_options sel) ;;;
                 ret (VRef a))
              (select_rows t (sel_where sel))
    end.

(** [result.scalar()]: the first column of the first row, or [None]. *)
Definition scalar (result : list value) : value :=
  match result with
  | [] => VNone
  | v :: _ => v
  end.

(** ** Attribute access *)

(** Refreshing expired columns needs the session of the instance and a
    round trip to the database. *)
Definition load_expired (a : addr) : M unit :=
  let* i := get_instance a in
  match inst_session i with
  | None => raise (Exn DetachedInstanceError
              "Instance is not bound to a Session; attribute refresh operation cannot proceed")
  | Some sid =>
      await_only ;;;
      autobegin sid ;;;
      let* w := get_world in
      match inst_key i with
      | Some pk =>
          match lookup_row (inst_class i) pk (db w) with
          | Some row =>
              put_instance a
                (set_inst_expired
                   (List.filter (fun k => negb (is_column (inst_class i) k)) (inst_expired i))
                   (set_inst_dict (inst_dict i ∪ row) i))
          | None => raise (Exn InvalidRequestError "Instance has been deleted, or its row is otherwise not present.")
          end
      | None => ret tt
      end
  end.

Definition get_column (a : addr) (key : string) : M value :=
  let* i := get_instance a in
  match inst_dict i !! key with
  | Some v => ret v
  | None =>
      if existsb (String.eqb key) (inst_expired i) && is_some (inst_key i) then
        emit (EvLoad a key) ;;;
        load_expired a ;;;
        let* i' := get_instance a in
        ret (default VNone (inst_dict i' !! key))
      else ret VNone
  end.

(** The lazy loader of a many-to-one relationship.  Nothing is loaded for
    an instance without a row.  Otherwise the instance must be attached;
    a [NULL] foreign key gives [None]; a target the identity map already
    holds is returned as it is; anything else takes a [SELECT]. *)
Definition lazy_load (a : addr) (r : Relationship) : M value :=
  let* i := get_instance a in
  match inst_key i with
  | None => ret VNone
  | Some _ =>
      match inst_session i with
      | None => raise (Exn DetachedInstanceError
                  ("Parent instance is not bound to a Session; lazy load operation of attribute '"
                   +:+ rel_key r +:+ "' cannot proceed"))
      | Some sid =>
          let* fk := get_column a (rel_fk r) in
          match fk with
          | VInt k =>
              let* s := get_session sid in
              match identity_lookup (rel_target r, k) (sess_identity s) with
              | Some c => set_attr a (rel_key r) (VRef c) ;;; ret (VRef c)
              | None =>
                  emit (EvLoad a (rel_key r)) ;;;
                  await_only ;;;
                  autobegin sid ;;;
                  let* w := get_world in
                  match lookup_row (rel_target r) k (db w) with
                  | Some row =>
                      let* c := load_instance sid (rel_target r) k row in
                      set_attr a (rel_key r) (VRef c) ;;; ret (VRef c)
                  | None => set_attr a (rel_key r) VNone ;;; ret VNone
                  end
              end
          | _ => set_attr a (rel_key r) VNone ;;; ret VNone
          end
      end
  end.

Definition type_name (v : value) : string :=
  match v with
  | VNone => "NoneType"
  | VInt _ => "int"
  | VStr _ => "str"
  | VDateTime _ => "datetime.datetime"
  | VRef _ => "object"
  end.

(** [obj.key] for the attribute names of the mapped classes: a loaded
    value is returned as it is, an unloaded one goes through its loader.
    [None], numbers, strings and timestamps have none of these names. *)
Definition getattr (v : value) (key : string) : M value :=
  match v with
  | VRef a =>
      let* i := get_instance a in
      if is_attr (inst_class i) key then
        emit (EvRead a key) ;;;
        match inst_dict i !! key with
        | Some x => ret x
        | None =>
            match find_relationship (inst_class i) key with
            | Some r => lazy_load a r
            | None => get_column a key
            end
        end
      else raise (Exn AttributeError
                    ("'" +:+ cls_name (inst_class i) +:+ "' object has no attribute '"
                     +:+ key +:+ "'"))
  | _ => raise (Exn AttributeError
                  ("'" +:+ type_name v +:+ "' object has no attribute '" +:+ key +:+ "'"))
  end.

(** ** The asyncio extension *)

Definition AsyncSession_execute (sid : nat) (sel : Select) : M (list value) :=
  greenlet_spawn (Session_execute sid sel).

Definition AsyncSession_commit (sid : nat) : M unit :=
  greenlet_spawn (Session_commit sid).

Definition AsyncSession_rollback (sid : nat) : M unit :=
  greenlet_spawn (Session_rollback sid).

Definition AsyncSession_close (sid : nat) : M unit :=
  greenlet_spawn (Session_close sid).

(** [async with session_maker() as session: body]: the session is closed
    on the way out, whatever happened in the body. *)
Definition with_session {A} (sm : SessionMaker) (body : nat -> M A) : M A :=
  let* sid := new_session sm in
  try_finally (body sid) (AsyncSession_close sid).

(** [async with session.begin(): body]: commit when the body ends
    normally, rollback when it raises. *)
Definition with_begin {A} (sid : nat) (body : M A) : M A :=
  greenlet_spawn (Session_begin sid) ;;;
  let* r := on_error body (AsyncSession_rollback sid) in
  AsyncSession_commit sid ;;;
  ret r.

(** ** Connections of the engine *)

Record TextClause := { text_sql : string }.

Definition text (sql : string) : TextClause := {| text_sql := sql |}.

Fixpoint strip_prefix (p s : string) : option string :=
  match p, s with
  | EmptyString, _ => Some s
  | String a p', String b s' => if Ascii.eqb a b then strip_prefix p' s' else None
  | String _ _, EmptyString => None
  end.

Definition is_word_char (c : ascii) : bool :=
  let n := N_of_ascii c in
  ((48 <=? n) && (n <=? 57) || (65 <=? n) && (n <=? 90)
   || (97 <=? n) && (n <=? 122) || (n =? 95))%N.

Fixpoint all_chars (f : ascii -> bool) (s : string) : bool :=
  match s with
  | EmptyString => true
  | String c s' => f c && all_chars f s'
  end.

(** The textual statements of the model: [SELECT :name], the selection
    of one bound parameter. *)
Definition bind_name (sql : string) : option string :=
  match strip_prefix "SELECT :" sql with
  | Some name =>
      if negb (String.eqb name EmptyString) && all_chars is_word_char name
      then Some name else None
  | None => None
  end.

(** [conn.execute(statement, parameters=...)]: the server answers with
    one row that holds the value of the parameter.  It refuses a text
    with a NUL character, which the caller sees as [DBAPIError]. *)
Definition Connection_execute (stmt : TextClause) (params : gmap string value)
    : M (list value) :=
  greenlet_spawn (
    match bind_name (text_sql stmt) with
    | Some name =>
        match params !! name with
        | Some v =>
            if sendable v then
              await_only ;;;
              if acceptable_text v then emit EvExecuteText ;;; ret [v]
              else raise (Exn DBAPIError "invalid byte sequence for encoding UTF8: 0x00")
            else raise (Exn StatementError "cannot adapt a mapped instance to a bound parameter")
        | None => raise (Exn StatementError
                           ("A value is required for bind parameter " +:+ repr_str name))
        end
    | None => raise (Exn ProgrammingError "statement outside the model")
    end).

(** [async with async_engine.connect() as conn: body] *)
Definition with_connect {A} (e : Engine) (body : M A) : M A :=
  greenlet_spawn (await_only ;;; emit EvConnect) ;;;
  try_finally body
    (greenlet_spawn (await_only ;;;
                     modify (fun w => set_db (end_transaction (db w)) w) ;;;
                     emit EvDisconnect)).

(** [async with async_engine.begin() as conn: body]: a connection with a
    transaction around the body. *)
Definition with_engine_begin {A} (e : Engine) (body : M A) : M A :=
  greenlet_spawn (await_only ;;; emit EvConnect) ;;;
  let* w0 := get_world in
  let* r := on_error body
              (modify (fun w => set_db (end_transaction
                         {| tables := tables (db w0); clock := clock (db w);
                            tick := tick (db w) |}) w) ;;;
               emit EvDisconnect) in
  greenlet_spawn (await_only ;;;
                  modify (fun w => set_db (end_transaction (db w)) w) ;;;
                  emit EvDisconnect) ;;;
  ret r.

(** [conn.run_sync(f)] for an [f] that changes the schema. *)
Definition Connection_run_sync (f : Database -> Database) : M unit :=
  greenlet_spawn (await_only ;;; modify (fun w => set_db (f (db w)) w)).

(** [async_engine.dispose()] *)
Definition AsyncEngine_dispose (e : Engine) : M unit :=
  greenlet_spawn (emit EvDispose).

End Sqlalchemy.

(* ===================================================================== *)
(** * models.py: [RepresentableMixin] *)
(* ===================================================================== *)

Module Representable.
Import Py Models Runtime Sqlalchemy.

Fixpoint map_r {A B} (f : A -> exn + B) (l : list A) : exn + list B :=
  match l with
  | [] => inr []
  | x :: l' =>
      match f x with
      | inl e => inl e
      | inr y => match map_r f l' with
                 | inl e => inl e
                 | inr ys => inr (y :: ys)
                 end
      end
  end.

Section Repr.
(** [repr] of an attribute value. *)
Variable repr_ : value -> exn + string.

(** One field of the representation: [key=value!r] when the attribute
    is loaded, the marker otherwise. *)
Definition format_field (i : Instance) (key : string) : exn + string :=
  if negb (existsb (String.eqb key) (unloaded i)) then
    match repr_ (default VNone (inst_dict i !! key)) with
    | inr r => inr (key +:+ "=" +:+ r)
    | inl e => inl e
    end
  else inr (key +:+ "=<NOT_LOADED>").

(** [RepresentableMixin.__repr__] *)
Definition __repr__ (i : Instance) : exn + string :=
  let cls_name := cls_name (inst_class i) in
  match map_r (format_field i) (attr_keys (inst_class i)) with
  | inr fields =>
      let formatted_fields := String.concat ", " fields in
      inr (cls_name +:+ "(" +:+ formatted_fields +:+ ")")
  | inl e => inl e
  end.
End Repr.

(** [repr(v)].  The nesting of instances inside instances is bounded by
    the interpreter's recursion limit. *)
Fixpoint repr_value (fuel : nat) (h : gmap addr Instance) (v : value) : exn + string :=
  match v with
  | VNone => inr "None"
  | VInt n => inr (str_int n)
  | VStr s => inr (repr_str s)
  | VDateTime d => inr (repr_datetime d)
  | VRef a =>
      match fuel with
      | O => inl (Exn RecursionError "maximum recursion depth exceeded")
      | S fuel' =>
          match h !! a with
          | Some i => __repr__ (repr_value fuel' h) i
          | None => inl (Exn SystemError "dangling reference")
          end
      end
  end.

Definition recursion_limit : nat := 1000.

(** [f"{v!r}"] *)
Definition py_repr (v : value) : M string :=
  let* w := get_world in lift (repr_value recursion_limit (heap w) v).

(** [f"{v}"]: the mapped classes define no [__str__], so [str] is
    [repr] for them. *)
Definition py_str (v : value) : M string :=
  match v with
  | VStr s => ret s
  | VDateTime d => ret (str_datetime d)
  | _ => py_repr v
  end.

End Representable.

(* ===================================================================== *)
(** * helpers.py *)
(* ===================================================================== *)

Module Helpers.
Import Py Models Runtime Database Sqlalchemy Representable.

Definition DIVIDER_WIDTH : Z := 80.

(** [format_divider(label, width)] *)
Definition format_divider (label : string) (width : Z) : exn + string :=
  let label := if negb (String.eqb label EmptyString) then "| " +:+ label +:+ " |" else label in
  format_center "="%char label width.

(** [get_engine_async(database_url, echo=...)] *)
Definition get_engine_async (database_url : string) (echo : bool) : Engine :=
  create_async_engine database_url echo true.

(** [get_async_sessions_maker(async_engine)] *)
Definition get_async_sessions_maker (async_engine : Engine) : SessionMaker :=
  sessionmaker async_engine false true.

(** [flush_database_async(async_engine=...)] *)
Definition flush_database_async (async_engine : Engine) : M value :=
  with_engine_begin async_engine
    (Connection_run_sync (drop_all metadata) ;;;
     Connection_run_sync (create_all metadata)) ;;;
  ret VNone.

(** [execute_verbosely_async(coroutine, label=...)] *)
Definition execute_verbosely_async (coroutine : M value) (label : string) : M value :=
  let* start := lift (format_divider ("Start Execution of " +:+ repr_str label)
                        DIVIDER_WIDTH) in
  print start newline ;;;
  let* result := coroutine in
  let* divider := lift (format_divider "Result" DIVIDER_WIDTH) in
  print divider newline ;;;
  let* shown := match result with
                | VNone => ret "(no result)"
                | _ => py_str result
                end in
  print shown newline ;;;
  let* end_ := lift (format_divider "End" DIVIDER_WIDTH) in
  print end_ (newline +:+ newline +:+ newline) ;;;
  ret result.

(** [create_orm_instance_async(orm_model, creation_kwargs, session_maker=...)] *)
Definition create_orm_instance_async (orm_model : Model)
    (creation_kwargs : gmap string value) (session_maker : SessionMaker) : M Select :=
  let* instance := construct orm_model creation_kwargs in
  with_session session_maker (fun session =>
    with_begin session (Session_add session instance)) ;;;
  let* instance_id := getattr (VRef instance) "id" in
  ret (where_ (select orm_model) "id" instance_id).

(** [access_attribute_with_server_default(orm_model, session_maker=...)] *)
Definition access_attribute_with_server_default (orm_model : Model)
    (session_maker : SessionMaker) : M value :=
  let* traveler := construct orm_model
                     {[ "name" := VStr "Sebastiaan"; "age" := VInt 35 ]} in
  with_session session_maker (fun session =>
    with_begin session (Session_add session traveler) ;;;
    let* divider := lift (format_divider "Engine activity after committing ORM-instance"
                            DIVIDER_WIDTH) in
    print divider newline ;;;
    try_except
      (let* created_at := getattr (VRef traveler) "created_at" in
       let* shown := py_str created_at in
       ret (VStr ("Traveler Sebastiaan created at: " +:+ shown)))
      MissingGreenlet
      (fun exception =>
         print ("Cannot access lazy attribute: " +:+ repr_exn exception) newline ;;;
         ret VNone)).

End Helpers.

(* ===================================================================== *)
(** * async.py *)
(* ===================================================================== *)

Module Async.
Import Py Models Runtime Database Sqlalchemy Representable Helpers.

(** [simple_statement(message, async_engine=...)] *)
Definition simple_statement (message : string) (async_engine : Engine) : M value :=
  let statement := text "SELECT :message" in
  let* result := with_connect async_engine
                   (Connection_execute statement {[ "message" := VStr message ]}) in
  ret (scalar result).

(** [lazy_loading(session_maker=...)] *)
Definition lazy_loading (session_maker : SessionMaker) : M value :=
  access_attribute_with_server_default LazyTraveler session_maker.

(** [eager_loading(session_maker=...)] *)
Definition eager_loading (session_maker : SessionMaker) : M value :=
  access_attribute_with_server_default EagerTraveler session_maker.

(** The keyword arguments the three relationship scenarios build:
    a traveler whose destination is a new [Country(name="Norway")]. *)
Definition traveler_kwargs : M (gmap string value) :=
  let* norway := construct Country {[ "name" := VStr "Norway" ]} in
  ret {[ "name" := VStr "Sebastiaan"; "age" := VInt 35; "destination" := VRef norway ]}.

(** [unloaded_relationship(session_maker=...)] *)
Definition unloaded_relationship (session_maker : SessionMaker) : M value :=
  let* creation_kwargs := traveler_kwargs in
  let* select_traveler :=
    create_orm_instance_async TravelerWithDestination creation_kwargs session_maker in
  let* traveler :=
    with_session session_maker (fun session =>
      let* result := AsyncSession_execute session select_traveler in
      ret (scalar result)) in
  let* shown := py_repr traveler in
  ret (VStr shown).

(** [_get_destination(traveler_select, session_maker=...)] *)
Definition _get_destination (traveler_select : Select) (session_maker : SessionMaker)
    : M value :=
  with_session session_maker (fun session =>
    let* result := AsyncSession_execute session traveler_select in
    let traveler := scalar result in
    let* divider := lift (format_divider "Engine activity after fetching ORM-instance"
                            DIVIDER_WIDTH) in
    print divider newline ;;;
    try_except
      (let* destination := getattr traveler "destination" in
       let* name := getattr destination "name" in
       let* shown := py_repr name in
       ret (VStr ("The traveler is traveling to " +:+ shown)))
      MissingGreenlet
      (fun exception =>
         print ("Cannot access lazy attribute: " +:+ repr_exn exception) newline ;;;
         ret VNone)).

(** [access_unloaded_relationship(session_maker=...)] *)
Definition access_unloaded_relationship (session_maker : SessionMaker) : M value :=
  let* creation_kwargs := traveler_kwargs in
  let* select_traveler :=
    create_orm_instance_async TravelerWithDestination creation_kwargs session_maker in
  _get_destination select_traveler session_maker.

(** [access_loaded_relationship(session_maker=...)] *)
Definition access_loaded_relationship (session_maker : SessionMaker) : M value :=
  let* creation_kwargs := traveler_kwargs in
  let* select_traveler :=
    create_orm_instance_async TravelerWithDestination creation_kwargs session_maker in
  let joinedload_select :=
    options select_traveler (joinedload TravelerWithDestination "destination") in
  _get_destination joinedload_select session_maker.

(** The [targets] dictionary of [main], in insertion order. *)
Definition targets (async_engine : Engine) (session_maker : SessionMaker)
    : list (string * M value) :=
  [ ("simple", simple_statement "Hello, world!" async_engine);
    ("lazy_loading", lazy_loading session_maker);
    ("eager_loading", eager_loading session_maker);
    ("unloaded_relationship", unloaded_relationship session_maker);
    ("access_unloaded_relationship", access_unloaded_relationship session_maker);
    ("access_loaded_relationship", access_loaded_relationship session_maker) ].

(** The loop of [main]: every target is awaited in turn. *)
Definition run_targets (ts : list (string * M value)) : M (list value) :=
  map_m (fun target => execute_verbosely_async (snd target) (fst target)) ts.

(** [main()] *)
Definition main : M unit :=
  let* database_url := environ_get "DATABASE_URL" in
  let async_engine := get_engine_async database_url true in
  let session_maker := get_async_sessions_maker async_engine in
  execute_verbosely_async (flush_database_async async_engine) "flush_db" ;;;
  run_targets (targets async_engine session_maker) ;;;
  AsyncEngine_dispose async_engine.

End Async.

Module Spec.
Import Py Models Runtime Database Sqlalchemy Representable Helpers Async.

(** The label as it appears in a divider. *)
Definition decorate (label : string) : string :=
  if negb (String.eqb label EmptyString) then "| " +:+ label +:+ " |" else label.

(** The divider of the default width. *)
Definition divider (label : string) : string :=
  let pad := (80 - String.length (decorate label))%nat in
  repeat_char "="%char (pad / 2) +:+ decorate label
  +:+ repeat_char "="%char (pad - pad / 2).

(** Table [m] exists, its sequence is ahead of every stored key, and it
    has room for [n] more rows. *)
Definition table_ok (n : Z) (d : Database) (m : Model) : Prop :=
  exists t, tables d !! tablename m = Some t
    /\ map_Forall (fun k _ => k < seq t) (rows t)
    /\ 1 <= seq t /\ seq t + n <= 2147483648.

(** The program runs as a coroutine, outside [greenlet_spawn], and every
    declared table is in place. *)
Definition ready (n : Z) (w : World) : Prop :=
  greenlet w = false /\ forall m, table_ok n (db w) m.

(** A schema that was just recreated: every declared table exists and is
    empty, and the program runs as a coroutine. *)
Definition fresh_schema (w : World) : Prop :=
  greenlet w = false /\ forall m, tables (db w) !! tablename m = Some empty_table.

(** What [execute_verbosely_async] prints for a result. *)
Definition result_text (r : value) (h : gmap addr Instance) : exn + string :=
  match r with
  | VNone => inr "(no result)"
  | VStr s => inr s
  | VDateTime d => inr (str_datetime d)
  | _ => repr_value recursion_limit h r
  end.

(** The world as [execute_verbosely_async] hands it to the coroutine:
    the start marker has been printed. *)
Definition started (label : string) (w : World) : World :=
  set_stdout (stdout w ++ [divider ("Start Execution of " +:+ repr_str label) +:+ newline]) w.

(** The world [execute_verbosely_async] returns: the result and the end
    marker have been printed. *)
Definition finished (shown : string) (w : World) : World :=
  set_stdout (stdout w ++ [divider "Result" +:+ newline; shown +:+ newline;
                           divider "End" +:+ (newline +:+ newline +:+ newline)]) w.

Definition is_none (v : value) : bool :=
  match v with VNone => true | _ => false end.

(** The rows the scenarios insert. *)
Definition traveler_row (pk : Z) (now : datetime) : RowT :=
  <["id" := VInt pk]> (<["created_at" := VDateTime now]>
    (<["name" := VStr "Sebastiaan"]> (<["age" := VInt 35]> ∅))).

Definition country_row (pk : Z) : RowT :=
  <["id" := VInt pk]> (<["name" := VStr "Norway"]> ∅).

Definition destination_row (pk : Z) (now : datetime) (fk : Z) : RowT :=
  <["id" := VInt pk]> (<["created_at" := VDateTime now]>
    (<["name" := VStr "Sebastiaan"]> (<["age" := VInt 35]>
      (<["destination_id" := VInt fk]> ∅)))).

(** The database once one transaction has added [row] to the table of
    [m] under the next key of its sequence. *)
Definition db_after_insert (m : Model) (t : Table) (row : RowT) (d : Database) : Database :=
  {| tables := <[tablename m := {| rows := <[seq t := row]> (rows t); seq := seq t + 1 |}]>
                 (tables d);
     clock := clock d; tick := S (tick d) |}.

(** The database once one transaction has added a country and a traveler
    bound for it. *)
Definition db_after_traveler (tc tt : Table) (d : Database) : Database :=
  {| tables :=
       <["traveler_with_destination" :=
           {| rows := <[seq tt := destination_row (seq tt) (clock d (tick d)) (seq tc)]>
                        (rows tt);
              seq := seq tt + 1 |}]>
         (<["country" := {| rows := <[seq tc := country_row (seq tc)]> (rows tc);
                            seq := seq tc + 1 |}]> (tables d));
     clock := clock d; tick := S (tick d) |}.

(** What [repr] shows for a refetched traveler whose destination was not
    loaded. *)
Definition traveler_repr (pk : Z) (now : datetime) (fk : Z) : string :=
  "TravelerWithDestination(destination=<NOT_LOADED>, id=" +:+ str_int pk
  +:+ ", created_at=" +:+ repr_datetime now
  +:+ ", name='Sebastiaan', age=35, destination_id=" +:+ str_int fk +:+ ")".

(** The keyword arguments the declarative constructor takes: a column
    with any value, or a relationship with [None] or with a new instance
    of the target class that no session holds yet. *)
Definition accepted (m : Model) (kwargs : gmap string value) (w : World) : Prop :=
  forall k v, kwargs !! k = Some v ->
    is_column m k = true
    \/ exists r, find_relationship m k = Some r
         /\ (v = VNone
             \/ exists c dc exc, v = VRef c /\ (c < next_addr w)%nat
                  /\ heap w !! c = Some {| inst_class := rel_target r; inst_dict := dc;
                                           inst_expired := exc; inst_key := None;
                                           inst_session := None |}).



(** The first half of the three relationship scenarios: the keyword
    arguments are built and handed to [create_orm_instance_async]. *)
Definition create_traveler (sm : SessionMaker) : M Select :=
  let* creation_kwargs := traveler_kwargs in
  create_orm_instance_async TravelerWithDestination creation_kwargs sm.

(** ** The state machine of a scenario, read off the trace *)

(** CREATE, INSERT (committed, session closed), SELECT in a new session. *)
Definition refetch_shape (tr : list event) : Prop :=
  exists a m sid pk sid',
    sid <> sid'
    /\ sublist [EvConstruct a m; EvInsert sid m pk; EvCommit sid; EvSessionClose sid;
                EvSessionOpen sid'; EvSelect sid' m] tr.

(** The same, followed by the read of an attribute of an instance. *)
Definition read_after_refetch_shape (tr : list event) : Prop :=
  exists a m sid pk sid' a' key,
    sid <> sid'
    /\ sublist [EvConstruct a m; EvInsert sid m pk; EvCommit sid; EvSessionClose sid;
                EvSessionOpen sid'; EvSelect sid' m; EvRead a' key] tr.

(** CREATE, INSERT (committed), then the read of an attribute of the same
    instance while the session of the insert is still open; no SELECT. *)
Definition read_in_session_shape (tr : list event) : Prop :=
  (exists a m sid pk key,
     sublist [EvConstruct a m; EvSessionOpen sid; EvInsert sid m pk; EvCommit sid;
              EvRead a key; EvSessionClose sid] tr)
  /\ forall sid m, EvSelect sid m ∉ tr.

(** [c] returns from [w], and its result and the events it adds satisfy
    [P]. *)
Definition runs_with (c : M value) (w : World) (P : value -> list event -> Prop) : Prop :=
  exists r w' tr, c w = (Ok r, w') /\ trace w' = (trace w ++ tr)%list /\ P r tr.

(** [c] returns from [w]; its result, the events it adds and the lines it
    prints satisfy [P]. *)
Definition runs_printing (c : M value) (w : World)
    (P : value -> list event -> list string -> Prop) : Prop :=
  exists r w' tr out,
    c w = (Ok r, w') /\ trace w' = (trace w ++ tr)%list
    /\ stdout w' = (stdout w ++ out)%list /\ P r tr out.

(** No attribute load was attempted. *)
Definition no_load (tr : list event) : Prop :=
  forall a key, EvLoad a key ∉ tr.

(** The line the scenarios print when the read fails. *)
Definition caught_line : string :=
  ("Cannot access lazy attribute: " +:+ repr_exn missing_greenlet) +:+ newline.

(** ** A concrete world *)

Definition demo_engine : Engine :=
  get_engine_async "postgresql+asyncpg://demo@localhost/demo" true.

Definition demo_sessions : SessionMaker := get_async_sessions_maker demo_engine.

Definition demo_clock (n : nat) : datetime :=
  Datetime 2021 5 3 12 30 (N.of_nat n) 0.

(** The world right after the schema was recreated. *)
Definition demo_world : World :=
  {| environ := {[ "DATABASE_URL" := "postgresql+asyncpg://demo@localhost/demo" ]};
     db := {| tables := {[ "lazy_traveler" := empty_table;
                           "eager_traveler" := empty_table;
                           "traveler_with_destination" := empty_table;
                           "country" := empty_table ]};
              clock := demo_clock; tick := 0%nat |};
     heap := ∅; next_addr := 0%nat; sessions := ∅; next_session := 0%nat;
     greenlet := false; stdout := []; trace := [] |}.

(** A keyword argument the declarative constructor accepts: a column, or
    a relationship given [None] or an instance of the target class. *)
Definition kwarg_ok (m : Model) (h : gmap addr Instance) (k : string) (v : value) : Prop :=
  is_column m k = true \/
  exists r, find_relationship m k = Some r /\
    (v = VNone \/ exists c ci, v = VRef c /\ h !! c = Some ci /\ inst_class ci = rel_target r).

(** The world after a successful call of the constructor. *)
Definition constructed (m : Model) (kwargs : gmap string value) (w : World) : World :=
  set_trace (trace w ++ [EvConstruct (next_addr w) m])
    (set_next_addr (S (next_addr w))
       (set_heap (<[next_addr w := {| inst_class := m; inst_dict := kwargs; inst_expired := [];
                     inst_key := None; inst_session := None |}]> (heap w)) w)).

End Spec.

(* ===================================================================== *)
(** * Further vocabulary: schema, sessions and worlds *)
(* ===================================================================== *)

Module Behaviour.
Import Py Models Runtime Database Sqlalchemy Representable Helpers Async Spec.

(** The names of the tables [Base.metadata] declares. *)
Definition declared (name : string) : bool :=
  existsb (String.eqb name) (map tablename metadata).

(** The sessions a trace leaves open, given those open before it. *)
Fixpoint open_sessions (opened : list nat) (tr : list event) : list nat :=
  match tr with
  | [] => opened
  | EvSessionOpen sid :: tr' => open_sessions (opened ++ [sid]) tr'
  | EvSessionClose sid :: tr' =>
      open_sessions (List.filter (fun s => negb (Nat.eqb s sid)) opened) tr'
  | _ :: tr' => open_sessions opened tr'
  end.

(** The connections taken from the engine itself ([engine.connect()],
    [engine.begin()]) that a trace leaves checked out.  The connection a
    session works on is not traced. *)
Fixpoint open_connections (n : nat) (tr : list event) : nat :=
  match tr with
  | [] => n
  | EvConnect :: tr' => open_connections (S n) tr'
  | EvDisconnect :: tr' => open_connections (pred n) tr'
  | _ :: tr' => open_connections n tr'
  end.

(** The marker [__repr__] shows for an attribute that is not loaded. *)
Definition not_loaded (key : string) : string := key +:+ "=<NOT_LOADED>".

(** How often a line was printed. *)
Definition count_line (line : string) (out : list string) : nat :=
  List.length (List.filter (String.eqb line) out).

(** A session factory that keeps the default [expire_on_commit=True]. *)
Definition expiring_sessions : SessionMaker := sessionmaker demo_engine true true.

(** A server on which the schema was never created. *)
Definition bare_world : World :=
  set_db {| tables := ∅; clock := demo_clock; tick := 0%nat |} demo_world.

(** A world with no [DATABASE_URL] in the environment. *)
Definition unconfigured_world : World :=
  {| environ := ∅; db := db demo_world; heap := ∅; next_addr := 0%nat;
     sessions := ∅; next_session := 0%nat; greenlet := false; stdout := [];
     trace := [] |}.

(** What [execute_verbosely_async] puts on the console for one coroutine:
    the start marker, what the coroutine prints itself, and the result
    between its two dividers. *)
Definition block (label : string) (inside : list string) (shown : string) : list string :=
  ([divider ("Start Execution of " +:+ repr_str label) +:+ newline] ++ inside
   ++ [divider "Result" +:+ newline; shown +:+ newline;
       divider "End" +:+ (newline +:+ newline +:+ newline)])%list.

(** The console of a whole run of [main], for the timestamp and the
    representation the third and the fourth scenario show. *)
Definition main_console (created shown : string) : list string :=
  (block "flush_db" [] "(no result)"
   ++ block "simple" [] "Hello, world!"
   ++ block "lazy_loading"
        [divider "Engine activity after committing ORM-instance" +:+ newline; caught_line]
        "(no result)"
   ++ block "eager_loading"
        [divider "Engine activity after committing ORM-instance" +:+ newline]
        ("Traveler Sebastiaan created at: " +:+ created)
   ++ block "unloaded_relationship" [] shown
   ++ block "access_unloaded_relationship"
        [divider "Engine activity after fetching ORM-instance" +:+ newline; caught_line]
        "(no result)"
   ++ block "access_loaded_relationship"
        [divider "Engine activity after fetching ORM-instance" +:+ newline]
        "The traveler is traveling to 'Norway'")%list.

(** A table with the given rows, the next key being [next]. *)
Definition table_of (l : list (Z * RowT)) (next : Z) : Table :=
  {| rows := list_to_map l; seq := next |}.

(** A world in which [Country(name="Norway")] was constructed and not
    yet added to a session. *)
Definition norway_world : World :=
  set_next_addr 1%nat
    (set_heap {[ 0%nat := {| inst_class := Country;
                             inst_dict := {[ "name" := VStr "Norway" ]};
                             inst_expired := []; inst_key := None;
                             inst_session := None |} ]} demo_world).

(** The row of a traveler who has no destination. *)
Definition stranded_row : RowT :=
  <["destination_id" := VNone]> (destination_row 1 (demo_clock 0) 0).

(** A world whose only traveler has no destination. *)
Definition stranded_world : World :=
  set_db {| tables := <["traveler_with_destination" :=
                          {| rows := {[ 1 := stranded_row ]}; seq := 2 |}]>
                        (tables (db demo_world));
            clock := demo_clock; tick := 1%nat |} demo_world.

End Behaviour.


(* ===================================================================== *)
(** * Basic facts about the monad, the constructor and the dividers *)
(* ===================================================================== *)

Import Py Models Runtime Database Sqlalchemy Representable Helpers Async Spec Behaviour.
Lemma bind_ok {A B} (c : M A) (k : A -> M B) w a w1 :
  c w = (Ok a, w1) -> bind c k w = k a w1.
Proof. intros H. unfold bind. by rewrite H. Qed.

Lemma for_each_ok {A} (f : A -> M unit) (l : list A) w :
  Forall (fun x => f x w = (Ok tt, w)) l -> for_each f l w = (Ok tt, w).
Proof.
  induction 1 as [|x l Hx _ IH]; simpl; [done|].
  by rewrite (bind_ok _ _ _ _ _ Hx).
Qed.

Lemma check_kwarg_ok m w k v :
  kwarg_ok m (heap w) k v -> check_kwarg m (k, v) w = (Ok tt, w).
Proof.
  intros [Hc | (r & Hr & Hv)]; unfold check_kwarg.
  - by rewrite Hc.
  - destruct (is_column m k); [done|]. rewrite Hr.
    destruct Hv as [-> | (c & ci & -> & Hci & Hcls)]; [done|].
    unfold bind, get_instance. rewrite Hci. by rewrite decide_True.
Qed.

Lemma construct_ok m kwargs w :
  map_Forall (kwarg_ok m (heap w)) kwargs ->
  construct m kwargs w = (Ok (next_addr w), constructed m kwargs w).
Proof.
  intros H. unfold construct.
  erewrite bind_ok; last first.
  { apply for_each_ok. apply Forall_forall. intros [k v] Hin.
    apply check_kwarg_ok. apply (H k v). by apply elem_of_map_to_list. }
  reflexivity.
Qed.


Lemma length_append (s1 s2 : string) :
  String.length (s1 +:+ s2) = (String.length s1 + String.length s2)%nat.
Proof. induction s1 as [|c s1 IH]; simpl; [done | by rewrite IH]. Qed.

Lemma append_assoc (s1 s2 s3 : string) :
  (s1 +:+ s2) +:+ s3 = s1 +:+ (s2 +:+ s3).
Proof.
  induction s1 as [|c s1 IH]; [done|].
  change (String c ((s1 +:+ s2) +:+ s3) = String c (s1 +:+ (s2 +:+ s3))).
  by rewrite IH.
Qed.

Lemma length_repeat_char c n : String.length (repeat_char c n) = n.
Proof. induction n as [|n IH]; simpl; [done | by rewrite IH]. Qed.

Lemma format_divider_eq label width :
  0 <= width <= MAX_STR_LENGTH ->
  let pad := (Z.to_nat width - String.length (decorate label))%nat in
  format_divider label width =
    inr (repeat_char "="%char (pad / 2) +:+ decorate label
         +:+ repeat_char "="%char (pad - pad / 2)).
Proof.
  intros [H0 H1]. unfold format_divider, format_center. fold (decorate label).
  destruct (Z.ltb_spec width 0) as [?|_]; [lia|].
  destruct (Z.ltb_spec PY_SSIZE_T_MAX width) as [?|_];
    [unfold MAX_STR_LENGTH in H1; lia|].
  destruct (Z.ltb_spec MAX_STR_LENGTH width) as [?|_]; [lia|]. done.
Qed.

Lemma format_divider_80 label :
  format_divider label DIVIDER_WIDTH = inr (divider label).
Proof. by rewrite format_divider_eq. Qed.

Lemma table_ok_fresh (t : Table) :
  map_Forall (fun k _ => k < seq t) (rows t) ->
  rows t !! seq t = None.
Proof.
  intros H. destruct (rows t !! seq t) as [r|] eqn:E; [|done].
  apply H in E. lia.
Qed.

Lemma table_ok_insert n (d : Database) m t row tbls :
  map_Forall (fun k _ => k < seq t) (rows t) ->
  1 <= seq t -> seq t + (n + 1) <= 2147483648 ->
  table_ok n {| tables := <[tablename m := {| rows := <[seq t := row]> (rows t);
                                               seq := seq t + 1 |}]> tbls;
                clock := clock d; tick := S (tick d) |} m.
Proof.
  intros Hall H1 Hn. eexists. split; [apply lookup_insert_eq|]. cbn.
  split; [|lia]. apply map_Forall_insert_2; [lia|].
  intros k r Hk. apply Hall in Hk. lia.
Qed.

Lemma table_ok_mono n n' d m : n' <= n -> table_ok n d m -> table_ok n' d m.
Proof. intros Hn (t & ? & ? & ? & ?). exists t. repeat split; try done. lia. Qed.

Lemma simple_kwargs_ok m h :
  m = LazyTraveler \/ m = EagerTraveler ->
  map_Forall (kwarg_ok m h) ({[ "name" := VStr "Sebastiaan"; "age" := VInt 35 ]} : gmap string value).
Proof.
  intros Hm k v Hkv. left.
  apply lookup_insert_Some in Hkv as [[<- _]|[_ Hkv]];
    [|apply lookup_singleton_Some in Hkv as [<- _]];
    by destruct Hm as [-> | ->].
Qed.


Lemma restore_tables_same d : restore_tables (tables d) d = d.
Proof.
  destruct d as [tbls c k]. unfold restore_tables. cbn. f_equal.
  apply map_eq. intros i. rewrite lookup_merge.
  by destruct (tbls !! i) as [[]|].
Qed.

Lemma repr_value_str f h s : repr_value f h (VStr s) = inr (repr_str s).
Proof. by destruct f. Qed.

Lemma repr_value_int f h n : repr_value f h (VInt n) = inr (str_int n).
Proof. by destruct f. Qed.

Lemma repr_value_datetime f h d : repr_value f h (VDateTime d) = inr (repr_datetime d).
Proof. by destruct f. Qed.

Lemma repr_value_none f h : repr_value f h VNone = inr "None".
Proof. by destruct f. Qed.

Lemma repr_value_ref f h a i :
  h !! a = Some i ->
  repr_value (S f) h (VRef a) = __repr__ (repr_value f h) i.
Proof. intros H. cbn. by rewrite H. Qed.

Lemma traveler_repr_not_loaded pk now fk :
  contains "destination=<NOT_LOADED>" (traveler_repr pk now fk).
Proof.
  exists "TravelerWithDestination(",
    (", id=" +:+ str_int pk +:+ ", created_at=" +:+ repr_datetime now
     +:+ ", name='Sebastiaan', age=35, destination_id=" +:+ str_int fk +:+ ")").
  reflexivity.
Qed.

(* ===================================================================== *)
(** * Symbolic evaluation of the scenarios *)
(* ===================================================================== *)

Arguments bind {A B} c k w /.
Arguments ret {A} a w /.
Arguments raise {A} e w /.
Arguments try_finally {A} c f w /.
Arguments try_except {A} c cls h w /.
Arguments on_error {A} c h w /.
Arguments modify f w /.
Arguments get_world w /.
Arguments lift {A} r w /.
Arguments emit e w /.
Arguments print s end_ w /.
Arguments environ_get name w /.
Arguments get_instance a w /.
Arguments put_instance a i w /.
Arguments alloc i w /.
Arguments get_session sid w /.
Arguments put_session sid s w /.
Arguments await_only w /.
Arguments greenlet_spawn {A} f w /.
Arguments new_session sm w /.
Arguments autobegin sid w /.
Arguments Session_begin sid w /.
Arguments attach sid a w /.
Arguments Session_add sid a w /.
Arguments sync_fk d r w /.
Arguments flush_instance sid a w /.
Arguments flush_order l w /.
Arguments Session_flush sid w /.
Arguments detach a w /.
Arguments make_transient a w /.
Arguments expire a w /.
Arguments Session_rollback sid w /.
Arguments Session_commit sid w /.
Arguments Session_close sid w /.
Arguments load_instance sid m pk row w /.
Arguments set_attr a key v w /.
Arguments load_joined sid a r w /.
Arguments apply_option sid entity a opt w /.
Arguments Session_execute sid sel w /.
Arguments load_expired a w /.
Arguments get_column a key w /.
Arguments lazy_load a r w /.
Arguments getattr v key w /.
Arguments AsyncSession_execute sid sel w /.
Arguments AsyncSession_commit sid w /.
Arguments AsyncSession_rollback sid w /.
Arguments AsyncSession_close sid w /.
Arguments with_session {A} sm body w /.
Arguments with_begin {A} sid body w /.
Arguments Connection_execute stmt params w /.
Arguments with_connect {A} e body w /.
Arguments with_engine_begin {A} e body w /.
Arguments Connection_run_sync f w /.
Arguments AsyncEngine_dispose e w /.
Arguments py_repr v w /.
Arguments py_str v w /.


Arguments set_db d w /.
Arguments set_heap h w /.
Arguments set_next_addr n w /.
Arguments set_sessions s w /.
Arguments set_next_session n w /.
Arguments set_greenlet g w /.
Arguments set_stdout o w /.
Arguments set_trace t w /.
Arguments set_inst_dict d i /.
Arguments set_inst_expired e i /.
Arguments set_inst_key k i /.
Arguments set_inst_session s i /.
Arguments set_sess_new l s /.
Arguments set_sess_tx_new l s /.
Arguments set_sess_identity l s /.
Arguments set_sess_snapshot o s /.
Arguments end_transaction d /.
Arguments present params k /.
Arguments insert_value t now params c /.
Arguments build_row t now params cols /.
Arguments column_value row k /.
Arguments fk_ok d row c /.
Arguments db_insert m params d /.
Arguments where_ok row crit /.
Arguments pk_criterion crits /.
Arguments select_rows t crits /.
Arguments postfetch_column m params row acc c /.
Arguments postfetch m params row expired /.
Arguments lookup_row m pk d /.
Arguments value_fits ty v /.
Arguments encodable ty v /.
Arguments acceptable_text v /.
Arguments sent m params /.
Arguments db_refused m params d /.
Arguments traveler_row pk now /.
Arguments country_row pk /.
Arguments destination_row pk now fk /.
Arguments db_after_insert m t row d /.
Arguments db_after_traveler tc tt d /.

Ltac run_cbn :=
  cbn -[lookup insert delete alter union map_to_list merge
        str_datetime repr_datetime format_divider divider repr_exn str_int
        repr_value restore_tables create_all drop_all Z.add Z.leb].

Ltac run_map1 :=
  match goal with
  | H : ?l !! ?k = _ |- context [?l !! ?k] => rewrite H
  | H : sm_expire_on_commit ?s = _ |- context [sm_expire_on_commit ?s] => rewrite H
  | H : greenlet ?w = _ |- context [greenlet ?w] => rewrite H
  | H : db_insert ?m ?p ?d = _ |- context [db_insert ?m ?p ?d] => rewrite H
  | H : postfetch ?m ?p ?r ?e = _ |- context [postfetch ?m ?p ?r ?e] => rewrite H
  | |- context [Z.leb ?a ?b] => rewrite (proj2 (Z.leb_le a b)) by lia
  | |- context [format_divider ?l DIVIDER_WIDTH] => rewrite (format_divider_80 l)
  | |- context [restore_tables (tables ?d) ?d] => rewrite (restore_tables_same d)
  | |- context [repr_value ?f ?h (VStr ?s)] => rewrite (repr_value_str f h s)
  | |- context [repr_value ?f ?h (VInt ?n)] => rewrite (repr_value_int f h n)
  | |- context [repr_value ?f ?h (VDateTime ?d)] => rewrite (repr_value_datetime f h d)
  | |- context [repr_value ?f ?h VNone] => rewrite (repr_value_none f h)
  | |- context [(<[?i:=?x]> ?m) !! ?j] =>
      tryif constr_eq i j then rewrite (lookup_insert_eq m i x)
      else rewrite (lookup_insert_ne m i j x) by (done || lia)
  | |- context [({[?i:=?x]} : gmap _ _) !! ?j] =>
      tryif constr_eq i j then rewrite (lookup_singleton_eq i x)
      else rewrite (lookup_singleton_ne i j x) by (done || lia)
  | |- context [(∅ : gmap _ _) !! ?j] => rewrite (lookup_empty j)
  | |- context [delete ?i ?m !! ?j] =>
      tryif constr_eq i j then rewrite (lookup_delete_eq m i)
      else rewrite (lookup_delete_ne m i j) by (done || lia)
  | |- context [alter ?f ?i ?m !! ?j] =>
      tryif constr_eq i j then rewrite (lookup_alter_eq f m i)
      else rewrite (lookup_alter_ne f m i j) by (done || lia)
  | |- context [<[?i:=?x]> (<[?i:=?y]> ?m)] => rewrite (insert_insert_eq m i x y)
  | |- context [decide ?P] =>
      first [ rewrite (decide_True (P:=P)) by done
            | rewrite (decide_False (P:=P)) by done ]
  | |- context [bool_decide ?P] =>
      first [ rewrite (bool_decide_eq_true_2 P) by done
            | rewrite (bool_decide_eq_false_2 P) by done ]
  end.

Ltac run_map := repeat run_map1.

Ltac run := run_cbn; repeat (progress run_map; run_cbn).

(** The same with the [INSERT] kept abstract: its outcome comes from a
    hypothesis. *)
Ltac run_cbn_abs :=
  cbn -[lookup insert delete alter union map_to_list merge
        str_datetime repr_datetime format_divider divider repr_exn str_int
        repr_value restore_tables create_all drop_all Z.add Z.leb
        db_insert db_refused postfetch].

Ltac run_abs := run_cbn_abs; repeat (progress run_map; run_cbn_abs).

(** Evaluate the computation on the left of [exists w', c w = (r, w') /\ _]
    and take the world it ends in. *)
Ltac run_start :=
  lazymatch goal with
  | |- ex (fun w' => ?lhs = _ /\ _) =>
      let res := fresh "res" in
      let Hres := fresh "Hres" in
      destruct (ex_intro (fun r => lhs = r) lhs eq_refl) as [res Hres];
      rewrite Hres; revert Hres
  end.

Ltac run_finish := intros <-; eexists; split; [reflexivity|].

Ltac run_to_end := run_start; run; run_finish.

(* ===================================================================== *)
(** * Invariants of the database along a run *)
(* ===================================================================== *)

Lemma tablename_inj m m' : tablename m = tablename m' -> m = m'.
Proof. by destruct m, m'. Qed.

Lemma table_ok_tables n d d' m :
  tables d' = tables d -> table_ok n d m -> table_ok n d' m.
Proof. intros E (t & ? & ?). exists t. by rewrite E. Qed.

Lemma table_ok_weaken n n' d m : n' <= n -> table_ok n d m -> table_ok n' d m.
Proof. intros Hn (t & ? & ? & ? & ?). exists t. repeat split; try done. lia. Qed.

(** One more row under the next key keeps every table in order. *)
Lemma table_ok_after_insert n d d' m t row m' :
  tables d !! tablename m = Some t ->
  tables d' = <[tablename m := {| rows := <[seq t := row]> (rows t); seq := seq t + 1 |}]>
                (tables d) ->
  table_ok (n + 1) d m' -> table_ok n d' m'.
Proof.
  intros Ht E (t' & Ht' & Hall & H1 & Hn).
  destruct (decide (m = m')) as [<- | Hne].
  - rewrite Ht in Ht'. injection Ht' as <-.
    eexists. split; [rewrite E; apply lookup_insert_eq|]. cbn.
    split; [|lia]. apply map_Forall_insert_2; [lia|].
    intros k r Hk. apply Hall in Hk. lia.
  - exists t'. split; [|repeat split; try done; lia].
    rewrite E, lookup_insert_ne; [done|]. intros Heq. by apply tablename_inj in Heq.
Qed.

Lemma ready_table n w m :
  ready n w -> 0 < n ->
  exists t, tables (db w) !! tablename m = Some t
    /\ rows t !! seq t = None /\ 1 <= seq t <= 2147483647.
Proof.
  intros [_ H] Hn. destruct (H m) as (t & Ht & Hall & H1 & Hb).
  exists t. split; [done|]. split; [by apply table_ok_fresh|lia].
Qed.

Lemma ready_after_insert n w w' m t row :
  ready (n + 1) w ->
  tables (db w) !! tablename m = Some t ->
  db w' = db_after_insert m t row (db w) ->
  greenlet w' = false ->
  ready n w'.
Proof.
  intros [_ H] Ht E Hg. split; [done|]. intros m'.
  eapply table_ok_after_insert; [exact Ht | by rewrite E | apply H].
Qed.

Lemma ready_end_transaction n w w' :
  ready n w -> db w' = end_transaction (db w) -> greenlet w' = false -> ready n w'.
Proof.
  intros [_ H] E Hg. split; [done|]. intros m.
  eapply table_ok_tables; [|apply H]. by rewrite E.
Qed.

Lemma ready_weaken n n' w : n' <= n -> ready n w -> ready n' w.
Proof. intros Hn [Hg H]. split; [done|]. intros m. eapply table_ok_weaken; eauto. Qed.

Lemma ready_after_traveler n w w' tc tt :
  ready (n + 1) w ->
  tables (db w) !! "country" = Some tc ->
  tables (db w) !! "traveler_with_destination" = Some tt ->
  tables (db w') = tables (db_after_traveler tc tt (db w)) ->
  greenlet w' = false ->
  ready n w'.
Proof.
  intros [_ H] Htc Htt E Hg. split; [done|]. intros m'.
  destruct (H m') as (t' & Ht' & Hall & H1 & Hn).
  destruct m'; cbn in Ht'.
  - exists t'. rewrite E. cbn. rewrite !lookup_insert_ne by done.
    repeat split; try done; lia.
  - exists t'. rewrite E. cbn. rewrite !lookup_insert_ne by done.
    repeat split; try done; lia.
  - rewrite Htt in Ht'. injection Ht' as <-.
    eexists. rewrite E. cbn. rewrite lookup_insert_eq. split; [done|]. cbn.
    split; [|lia]. apply map_Forall_insert_2; [lia|].
    intros k r Hk. apply Hall in Hk. lia.
  - rewrite Htc in Ht'. injection Ht' as <-.
    eexists. rewrite E. cbn. rewrite lookup_insert_ne by done.
    rewrite lookup_insert_eq. split; [done|]. cbn.
    split; [|lia]. apply map_Forall_insert_2; [lia|].
    intros k r Hk. apply Hall in Hk. lia.
Qed.

Lemma bind_assoc {A B C} (c : M A) (f : A -> M B) (g : B -> M C) w :
  bind (bind c f) g w = bind c (fun x => bind (f x) g) w.
Proof. unfold bind. by destruct (c w) as [[a|e] w1]. Qed.

(* ===================================================================== *)
(** * The server-default scenarios *)
(* ===================================================================== *)

Lemma eager_run sm w t :
  sm_expire_on_commit sm = false ->
  tables (db w) !! "eager_traveler" = Some t ->
  rows t !! seq t = None -> 1 <= seq t <= 2147483647 ->
  let now := clock (db w) (tick (db w)) in
  exists w',
    eager_loading sm w
    = (Ok (VStr ("Traveler Sebastiaan created at: " +:+ str_datetime now)), w')
    /\ db w' = db_after_insert EagerTraveler t (traveler_row (seq t) now) (db w)
    /\ greenlet w' = greenlet w
    /\ stdout w' = (stdout w
         ++ [divider "Engine activity after committing ORM-instance" +:+ newline])%list
    /\ trace w' = (trace w
         ++ [EvConstruct (next_addr w) EagerTraveler; EvSessionOpen (next_session w);
             EvBegin (next_session w); EvAdd (next_session w) (next_addr w);
             EvInsert (next_session w) EagerTraveler (seq t);
             EvCommit (next_session w); EvRead (next_addr w) "created_at";
             EvSessionClose (next_session w)])%list.
Proof.
  intros Hsm Ht Hrow Hseq now.
  unfold eager_loading, access_attribute_with_server_default.
  erewrite bind_ok; last by (apply construct_ok, simple_kwargs_ok; auto).
  unfold constructed. run_to_end.
  cbn. repeat split. by rewrite <- !app_assoc.
Qed.

Lemma lazy_run sm w t :
  sm_expire_on_commit sm = false ->
  greenlet w = false ->
  tables (db w) !! "lazy_traveler" = Some t ->
  rows t !! seq t = None -> 1 <= seq t <= 2147483647 ->
  let now := clock (db w) (tick (db w)) in
  exists w',
    lazy_loading sm w = (Ok VNone, w')
    /\ db w' = db_after_insert LazyTraveler t (traveler_row (seq t) now) (db w)
    /\ greenlet w' = false
    /\ stdout w' = (stdout w
         ++ [divider "Engine activity after committing ORM-instance" +:+ newline;
             ("Cannot access lazy attribute: " +:+ repr_exn missing_greenlet) +:+ newline])%list
    /\ trace w' = (trace w
         ++ [EvConstruct (next_addr w) LazyTraveler; EvSessionOpen (next_session w);
             EvBegin (next_session w); EvAdd (next_session w) (next_addr w);
             EvInsert (next_session w) LazyTraveler (seq t);
             EvCommit (next_session w); EvRead (next_addr w) "created_at";
             EvLoad (next_addr w) "created_at";
             EvSessionClose (next_session w)])%list.
Proof.
  intros Hsm Hg Ht Hrow Hseq now.
  unfold lazy_loading, access_attribute_with_server_default.
  erewrite bind_ok; last by (apply construct_ok, simple_kwargs_ok; auto).
  unfold constructed. run_to_end.
  cbn. repeat split; by rewrite <- !app_assoc.
Qed.

(* ===================================================================== *)
(** * Creating a traveler with a destination *)
(* ===================================================================== *)

Lemma traveler_created sm w tc tt :
  sm_expire_on_commit sm = false ->
  tables (db w) !! "country" = Some tc ->
  tables (db w) !! "traveler_with_destination" = Some tt ->
  rows tc !! seq tc = None -> 1 <= seq tc <= 2147483647 ->
  rows tt !! seq tt = None -> 1 <= seq tt <= 2147483647 ->
  exists w',
    create_traveler sm w
    = (Ok (where_ (select TravelerWithDestination) "id" (VInt (seq tt))), w')
    /\ db w' = db_after_traveler tc tt (db w)
    /\ greenlet w' = greenlet w
    /\ stdout w' = stdout w
    /\ next_session w' = S (next_session w)
    /\ next_addr w' = S (S (next_addr w))
    /\ trace w' = (trace w
         ++ [EvConstruct (next_addr w) Country;
             EvConstruct (S (next_addr w)) TravelerWithDestination;
             EvSessionOpen (next_session w);
             EvBegin (next_session w); EvAdd (next_session w) (S (next_addr w));
             EvInsert (next_session w) Country (seq tc);
             EvInsert (next_session w) TravelerWithDestination (seq tt);
             EvCommit (next_session w); EvSessionClose (next_session w);
             EvRead (S (next_addr w)) "id"])%list.
Proof.
  intros Hsm Htc Htt Hrc Hsc Hrt Hst.
  unfold create_traveler, traveler_kwargs, create_orm_instance_async.
  unfold bind at 1. unfold bind at 1.
  erewrite construct_ok; last first.
  { intros k v Hkv. left. by apply lookup_singleton_Some in Hkv as [<- _]. }
  unfold ret at 1.
  erewrite bind_ok; last first.
  { apply construct_ok. intros k v Hkv.
    apply lookup_insert_Some in Hkv as [[<- _]|[_ Hkv]]; [by left|].
    apply lookup_insert_Some in Hkv as [[<- _]|[_ Hkv]]; [by left|].
    apply lookup_singleton_Some in Hkv as [<- <-]. right.
    eexists. split; [reflexivity|]. right. do 2 eexists. split; [done|].
    unfold constructed; cbn. rewrite lookup_insert_eq. done. }
  unfold constructed. run_to_end.
  cbn. repeat split. by rewrite <- !app_assoc.
Qed.

(* ===================================================================== *)
(** * Reading the destination after a plain refetch *)
(* ===================================================================== *)

Lemma get_destination_plain sm w tt pk now fk :
  greenlet w = false ->
  tables (db w) !! "traveler_with_destination" = Some tt ->
  rows tt !! pk = Some (destination_row pk now fk) ->
  exists w',
    _get_destination (where_ (select TravelerWithDestination) "id" (VInt pk)) sm w
    = (Ok VNone, w')
    /\ db w' = end_transaction (db w)
    /\ greenlet w' = false
    /\ stdout w' = (stdout w
         ++ [divider "Engine activity after fetching ORM-instance" +:+ newline;
             ("Cannot access lazy attribute: " +:+ repr_exn missing_greenlet) +:+ newline])%list
    /\ trace w' = (trace w
         ++ [EvSessionOpen (next_session w);
             EvSelect (next_session w) TravelerWithDestination;
             EvRead (next_addr w) "destination"; EvLoad (next_addr w) "destination";
             EvSessionClose (next_session w)])%list.
Proof.
  intros Hg Htt Hrow. unfold _get_destination, where_, select.
  run_to_end. cbn. repeat split; by rewrite <- ?app_assoc.
Qed.

(* ===================================================================== *)
(** * Reading the destination after a joined refetch *)
(* ===================================================================== *)

Lemma get_destination_joined sm w tt tc pk now fk :
  tables (db w) !! "traveler_with_destination" = Some tt ->
  tables (db w) !! "country" = Some tc ->
  rows tt !! pk = Some (destination_row pk now fk) ->
  rows tc !! fk = Some (country_row fk) ->
  exists w',
    _get_destination
      (options (where_ (select TravelerWithDestination) "id" (VInt pk))
               (joinedload TravelerWithDestination "destination")) sm w
    = (Ok (VStr "The traveler is traveling to 'Norway'"), w')
    /\ db w' = end_transaction (db w)
    /\ greenlet w' = greenlet w
    /\ stdout w' = (stdout w
         ++ [divider "Engine activity after fetching ORM-instance" +:+ newline])%list
    /\ trace w' = (trace w
         ++ [EvSessionOpen (next_session w);
             EvSelect (next_session w) TravelerWithDestination;
             EvRead (next_addr w) "destination"; EvRead (S (next_addr w)) "name";
             EvSessionClose (next_session w)])%list
    /\ heap w' !! next_addr w
       = Some {| inst_class := TravelerWithDestination;
                 inst_dict := <["destination" := VRef (S (next_addr w))]>
                                (destination_row pk now fk);
                 inst_expired := []; inst_key := Some pk; inst_session := None |}
    /\ heap w' !! S (next_addr w)
       = Some {| inst_class := Country; inst_dict := country_row fk;
                 inst_expired := []; inst_key := Some fk; inst_session := None |}.
Proof.
  intros Htt Htc Hrow Hrc. unfold _get_destination, options, joinedload, where_, select.
  run_to_end. cbn.
  repeat split; try (by rewrite <- ?app_assoc); run_map; by cbn.
Qed.

Lemma refetch_unloaded sm w tt pk now fk :
  tables (db w) !! "traveler_with_destination" = Some tt ->
  rows tt !! pk = Some (destination_row pk now fk) ->
  exists w',
    (let* traveler :=
       with_session sm (fun session =>
         let* result := AsyncSession_execute session
                          (where_ (select TravelerWithDestination) "id" (VInt pk)) in
         ret (scalar result)) in
     let* shown := py_repr traveler in
     ret (VStr shown)) w
    = (Ok (VStr (traveler_repr pk now fk)), w')
    /\ db w' = end_transaction (db w)
    /\ greenlet w' = greenlet w
    /\ stdout w' = stdout w
    /\ trace w' = (trace w
         ++ [EvSessionOpen (next_session w);
             EvSelect (next_session w) TravelerWithDestination;
             EvSessionClose (next_session w)])%list.
Proof.
  intros Htt Hrow. unfold where_, select.
  run_start. run.
  unfold recursion_limit. erewrite repr_value_ref; last first.
  { rewrite lookup_alter_eq, lookup_insert_eq. reflexivity. }
  unfold __repr__, format_field, unloaded. run.
  intros <-. eexists. split.
  { apply (f_equal2 pair); [|reflexivity]. do 2 f_equal.
    unfold traveler_repr. rewrite !append_assoc. reflexivity. }
  cbn. repeat split; by rewrite <- ?app_assoc.
Qed.

(* ===================================================================== *)
(** * The six scenarios *)
(* ===================================================================== *)

Lemma simple_statement_run msg e w :
  str_mem "000"%char msg = false ->
  exists w',
    simple_statement msg e w = (Ok (VStr msg), w')
    /\ db w' = end_transaction (db w)
    /\ greenlet w' = greenlet w
    /\ stdout w' = stdout w
    /\ trace w' = (trace w ++ [EvConnect; EvExecuteText; EvDisconnect])%list.
Proof.
  intros Hnul. unfold simple_statement, text, Connection_execute. cbn [text_sql].
  change (bind_name "SELECT :message") with (Some "message"). cbv beta iota.
  rewrite lookup_singleton_eq. cbn [sendable acceptable_text]. rewrite Hnul. cbn [negb].
  run_to_end.
  cbn. repeat split; by rewrite <- ?app_assoc.
Qed.

Lemma unloaded_relationship_run sm w tc tt :
  sm_expire_on_commit sm = false ->
  tables (db w) !! "country" = Some tc ->
  tables (db w) !! "traveler_with_destination" = Some tt ->
  rows tc !! seq tc = None -> 1 <= seq tc <= 2147483647 ->
  rows tt !! seq tt = None -> 1 <= seq tt <= 2147483647 ->
  exists w',
    unloaded_relationship sm w
    = (Ok (VStr (traveler_repr (seq tt) (clock (db w) (tick (db w))) (seq tc))), w')
    /\ db w' = end_transaction (db_after_traveler tc tt (db w))
    /\ greenlet w' = greenlet w
    /\ stdout w' = stdout w
    /\ trace w' = (trace w
         ++ [EvConstruct (next_addr w) Country;
             EvConstruct (S (next_addr w)) TravelerWithDestination;
             EvSessionOpen (next_session w);
             EvBegin (next_session w); EvAdd (next_session w) (S (next_addr w));
             EvInsert (next_session w) Country (seq tc);
             EvInsert (next_session w) TravelerWithDestination (seq tt);
             EvCommit (next_session w); EvSessionClose (next_session w);
             EvRead (S (next_addr w)) "id";
             EvSessionOpen (S (next_session w));
             EvSelect (S (next_session w)) TravelerWithDestination;
             EvSessionClose (S (next_session w))])%list.
Proof.
  intros Hsm Htc Htt Hrc Hsc Hrt Hst.
  destruct (traveler_created sm w tc tt Hsm Htc Htt Hrc Hsc Hrt Hst)
    as (w1 & H1 & Hdb & Hg & Hout & Hns & Hna & Htr).
  destruct (refetch_unloaded sm w1 {| rows := <[seq tt := destination_row (seq tt)
                                         (clock (db w) (tick (db w))) (seq tc)]> (rows tt);
                                      seq := seq tt + 1 |}
              (seq tt) (clock (db w) (tick (db w))) (seq tc))
    as (w2 & H2 & Hdb2 & Hg2 & Hout2 & Htr2).
  { rewrite Hdb. cbn. by rewrite lookup_insert_eq. }
  { cbn. by rewrite lookup_insert_eq. }
  exists w2. split.
  - unfold unloaded_relationship. rewrite <- bind_assoc.
    fold create_orm_instance_async. 
    change (bind traveler_kwargs _) with (create_traveler sm).
    by rewrite (bind_ok _ _ _ _ _ H1).
  - rewrite Hdb2, Hdb, Hg2, Hg, Hout2, Hout, Htr2, Htr, Hns. repeat split.
    by rewrite <- app_assoc.
Qed.

Lemma access_unloaded_relationship_run sm w tc tt :
  sm_expire_on_commit sm = false ->
  greenlet w = false ->
  tables (db w) !! "country" = Some tc ->
  tables (db w) !! "traveler_with_destination" = Some tt ->
  rows tc !! seq tc = None -> 1 <= seq tc <= 2147483647 ->
  rows tt !! seq tt = None -> 1 <= seq tt <= 2147483647 ->
  exists w',
    access_unloaded_relationship sm w = (Ok VNone, w')
    /\ db w' = end_transaction (db_after_traveler tc tt (db w))
    /\ greenlet w' = false
    /\ stdout w' = (stdout w
         ++ [divider "Engine activity after fetching ORM-instance" +:+ newline;
             ("Cannot access lazy attribute: " +:+ repr_exn missing_greenlet) +:+ newline])%list
    /\ trace w' = (trace w
         ++ [EvConstruct (next_addr w) Country;
             EvConstruct (S (next_addr w)) TravelerWithDestination;
             EvSessionOpen (next_session w);
             EvBegin (next_session w); EvAdd (next_session w) (S (next_addr w));
             EvInsert (next_session w) Country (seq tc);
             EvInsert (next_session w) TravelerWithDestination (seq tt);
             EvCommit (next_session w); EvSessionClose (next_session w);
             EvRead (S (next_addr w)) "id";
             EvSessionOpen (S (next_session w));
             EvSelect (S (next_session w)) TravelerWithDestination;
             EvRead (S (S (next_addr w))) "destination";
             EvLoad (S (S (next_addr w))) "destination";
             EvSessionClose (S (next_session w))])%list.
Proof.
  intros Hsm Hg0 Htc Htt Hrc Hsc Hrt Hst.
  destruct (traveler_created sm w tc tt Hsm Htc Htt Hrc Hsc Hrt Hst)
    as (w1 & H1 & Hdb & Hg & Hout & Hns & Hna & Htr).
  destruct (get_destination_plain sm w1
              {| rows := <[seq tt := destination_row (seq tt)
                             (clock (db w) (tick (db w))) (seq tc)]> (rows tt);
                 seq := seq tt + 1 |}
              (seq tt) (clock (db w) (tick (db w))) (seq tc))
    as (w2 & H2 & Hdb2 & Hg2 & Hout2 & Htr2).
  { by rewrite Hg. }
  { rewrite Hdb. cbn. by rewrite lookup_insert_eq. }
  { cbn. by rewrite lookup_insert_eq. }
  exists w2. split.
  - unfold access_unloaded_relationship. rewrite <- bind_assoc.
    change (bind traveler_kwargs _) with (create_traveler sm).
    by rewrite (bind_ok _ _ _ _ _ H1).
  - rewrite Hdb2, Hdb, Hout2, Hout, Htr2, Htr, Hns, Hna. repeat split; [done|].
    by rewrite <- app_assoc.
Qed.

Lemma access_loaded_relationship_run sm w tc tt :
  sm_expire_on_commit sm = false ->
  tables (db w) !! "country" = Some tc ->
  tables (db w) !! "traveler_with_destination" = Some tt ->
  rows tc !! seq tc = None -> 1 <= seq tc <= 2147483647 ->
  rows tt !! seq tt = None -> 1 <= seq tt <= 2147483647 ->
  exists w',
    access_loaded_relationship sm w
    = (Ok (VStr "The traveler is traveling to 'Norway'"), w')
    /\ db w' = end_transaction (db_after_traveler tc tt (db w))
    /\ greenlet w' = greenlet w
    /\ stdout w' = (stdout w
         ++ [divider "Engine activity after fetching ORM-instance" +:+ newline])%list
    /\ trace w' = (trace w
         ++ [EvConstruct (next_addr w) Country;
             EvConstruct (S (next_addr w)) TravelerWithDestination;
             EvSessionOpen (next_session w);
             EvBegin (next_session w); EvAdd (next_session w) (S (next_addr w));
             EvInsert (next_session w) Country (seq tc);
             EvInsert (next_session w) TravelerWithDestination (seq tt);
             EvCommit (next_session w); EvSessionClose (next_session w);
             EvRead (S (next_addr w)) "id";
             EvSessionOpen (S (next_session w));
             EvSelect (S (next_session w)) TravelerWithDestination;
             EvRead (S (S (next_addr w))) "destination";
             EvRead (S (S (S (next_addr w)))) "name";
             EvSessionClose (S (next_session w))])%list
    /\ heap w' !! S (S (next_addr w))
       = Some {| inst_class := TravelerWithDestination;
                 inst_dict := <["destination" := VRef (S (S (S (next_addr w))))]>
                                (destination_row (seq tt) (clock (db w) (tick (db w)))
                                   (seq tc));
                 inst_expired := []; inst_key := Some (seq tt); inst_session := None |}
    /\ heap w' !! S (S (S (next_addr w)))
       = Some {| inst_class := Country; inst_dict := country_row (seq tc);
                 inst_expired := []; inst_key := Some (seq tc); inst_session := None |}.
Proof.
  intros Hsm Htc Htt Hrc Hsc Hrt Hst.
  destruct (traveler_created sm w tc tt Hsm Htc Htt Hrc Hsc Hrt Hst)
    as (w1 & H1 & Hdb & Hg & Hout & Hns & Hna & Htr).
  destruct (get_destination_joined sm w1
              {| rows := <[seq tt := destination_row (seq tt)
                             (clock (db w) (tick (db w))) (seq tc)]> (rows tt);
                 seq := seq tt + 1 |}
              {| rows := <[seq tc := country_row (seq tc)]> (rows tc);
                 seq := seq tc + 1 |}
              (seq tt) (clock (db w) (tick (db w))) (seq tc))
    as (w2 & H2 & Hdb2 & Hg2 & Hout2 & Htr2 & Hh1 & Hh2).
  { rewrite Hdb. cbn. by rewrite lookup_insert_eq. }
  { rewrite Hdb. cbn. rewrite lookup_insert_ne by done. by rewrite lookup_insert_eq. }
  { cbn. by rewrite lookup_insert_eq. }
  { cbn. by rewrite lookup_insert_eq. }
  exists w2. split.
  - unfold access_loaded_relationship. rewrite <- bind_assoc.
    change (bind traveler_kwargs _) with (create_traveler sm).
    by rewrite (bind_ok _ _ _ _ _ H1).
  - rewrite Hna in Hh1, Hh2.
    rewrite Hdb2, Hdb, Hg2, Hg, Hout2, Hout, Htr2, Htr, Hns, Hna.
    repeat split; [by rewrite <- app_assoc|exact Hh1|exact Hh2].
Qed.

(* ===================================================================== *)
(** * The verbose runner and the schema reset *)
(* ===================================================================== *)

Lemma execute_verbosely_run c label w r w1 s :
  c (started label w) = (Ok r, w1) ->
  result_text r (heap w1) = inr s ->
  execute_verbosely_async c label w = (Ok r, finished s w1).
Proof.
  intros Hc Hs. unfold execute_verbosely_async, finished.
  unfold started in Hc. cbn in Hc.
  cbn -[format_divider divider repr_str]. rewrite format_divider_80.
  cbn -[format_divider divider repr_str]. rewrite Hc.
  rewrite !format_divider_80.
  destruct r; cbn -[divider repr_value] in *.
  - injection Hs as <-. by rewrite <- !app_assoc.
  - rewrite Hs. cbn. by rewrite <- !app_assoc.
  - injection Hs as <-. by rewrite <- !app_assoc.
  - injection Hs as <-. by rewrite <- !app_assoc.
  - rewrite Hs. cbn. by rewrite <- !app_assoc.
Qed.

Lemma execute_verbosely_raise c label w e w1 :
  c (started label w) = (Raise e, w1) ->
  execute_verbosely_async c label w = (Raise e, w1).
Proof.
  intros Hc. unfold execute_verbosely_async.
  unfold started in Hc. cbn in Hc.
  cbn -[format_divider divider repr_str]. rewrite format_divider_80.
  cbn -[format_divider divider repr_str]. by rewrite Hc.
Qed.

Lemma flush_tables d m :
  tables (create_all metadata (drop_all metadata d)) !! tablename m = Some empty_table.
Proof. destruct m; cbn; run_map; cbn; by run_map. Qed.

Lemma flush_database_run e w :
  exists w',
    flush_database_async e w = (Ok VNone, w')
    /\ tables (db w') = tables (create_all metadata (drop_all metadata (db w)))
    /\ greenlet w' = greenlet w
    /\ stdout w' = stdout w
    /\ heap w' = heap w /\ next_addr w' = next_addr w
    /\ trace w' = (trace w ++ [EvConnect; EvDisconnect])%list.
Proof.
  unfold flush_database_async. run_to_end.
  cbn. repeat split; by rewrite <- ?app_assoc.
Qed.

Lemma fresh_schema_ready w n :
  fresh_schema w -> 0 <= n <= 2147483647 -> ready n w.
Proof.
  intros [Hg H] Hn. split; [done|]. intros m. exists empty_table.
  split; [apply H|]. cbn. split; [apply map_Forall_empty|lia].
Qed.

(* ===================================================================== *)
(** * Facts about the unit of work *)
(* ===================================================================== *)

Lemma db_insert_inv m params d pk row d' :
  db_insert m params d = inr (pk, row, d') ->
  exists t,
    tables d !! tablename m = Some t
    /\ row = build_row t (clock d (tick d)) params (columns m)
    /\ column_value row "id" = VInt pk
    /\ rows t !! pk = None
    /\ d' = {| tables := <[tablename m :=
                 {| rows := <[pk := row]> (rows t);
                    seq := match present params "id" with
                           | Some _ => seq t
                           | None => seq t + 1
                           end |}]> (tables d);
               clock := clock d; tick := tick d |}.
Proof.
  unfold db_insert. destruct (tables d !! tablename m) as [t|]; [|done].
  set (row0 := build_row _ _ _ _).
  destruct (negb (sent m params)); [done|].
  destruct (negb _); [done|].
  destruct (column_value row0 "id") as [|k| | |] eqn:Hid; try done.
  destruct (bool_decide (is_Some (rows t !! k))) eqn:Hk; [done|].
  destruct (negb _); [done|].
  intros [= <- <- <-]. exists t. repeat split; try done.
  apply bool_decide_eq_false in Hk.
  destruct (rows t !! k); [|done]. by destruct Hk.
Qed.

Lemma postfetch_column_keeps_id m params row acc c x :
  col_key c <> "id" -> acc.1 !! "id" = Some x ->
  (postfetch_column m params row acc c).1 !! "id" = Some x.
Proof.
  intros Hc Hx. unfold postfetch_column. destruct acc as [d ex]. cbn in Hx.
  destruct (present params (col_key c)); [done|].
  destruct (col_primary_key c); [cbn; by rewrite lookup_insert_ne|].
  destruct (col_server_default c); [|done].
  destruct (eager_defaults m); cbn.
  - by rewrite lookup_insert_ne.
  - by rewrite lookup_delete_ne.
Qed.

Lemma fold_postfetch_keeps_id m params row cols acc x :
  Forall (fun c => col_key c <> "id") cols -> acc.1 !! "id" = Some x ->
  (fold_left (postfetch_column m params row) cols acc).1 !! "id" = Some x.
Proof.
  intros H. revert acc. induction H as [|c cols Hc _ IH]; intros acc Hx; [done|].
  cbn [fold_left]. apply IH. by apply postfetch_column_keeps_id.
Qed.

Lemma columns_id_first m :
  exists rest, columns m = id_column :: rest /\ Forall (fun c => col_key c <> "id") rest.
Proof.
  destruct m; eexists; (split; [reflexivity|]);
    repeat (apply Forall_cons; split; [by cbn|]); done.
Qed.

Lemma present_Some params k v : present params k = Some v -> params !! k = Some v.
Proof. unfold present. destruct (params !! k) as [[]|]; naive_solver. Qed.

(** After the flush the instance knows the key of its row. *)
Lemma postfetch_id m params t now ex0 pk :
  column_value (build_row t now params (columns m)) "id" = VInt pk ->
  (postfetch m params (build_row t now params (columns m)) ex0).1 !! "id" = Some (VInt pk).
Proof.
  destruct (columns_id_first m) as (rest & Hcols & Hrest).
  intros Hid. unfold postfetch. rewrite Hcols in *. cbn [fold_left].
  apply fold_postfetch_keeps_id; [exact Hrest|].
  unfold build_row, column_value in Hid. cbn in Hid.
  rewrite lookup_insert_eq in Hid. cbn in Hid.
  unfold postfetch_column, build_row, column_value. cbn.
  destruct (params !! "id") as [[]|] eqn:Hp; cbn in *;
    rewrite ?lookup_insert_eq, ?Hp; cbn; congruence.
Qed.

(* ===================================================================== *)
(** * The main program *)
(* ===================================================================== *)

Lemma ready_started n label w : ready n w -> ready n (started label w).
Proof. by intros [? ?]. Qed.

Lemma ready_finished n s w : ready n w -> ready n (finished s w).
Proof. by intros [? ?]. Qed.

Lemma map_m_cons {A B} (f : A -> M B) x l w y w1 ys w2 :
  f x w = (Ok y, w1) -> map_m f l w1 = (Ok ys, w2) ->
  map_m f (x :: l) w = (Ok (y :: ys), w2).
Proof. intros H1 H2. cbn [map_m]. unfold bind. by rewrite H1, H2. Qed.

(** Every target of [main], awaited in turn from a world in which the
    tables are in place. *)
Lemma run_targets_run e w :
  ready 5 w ->
  exists created shown w',
    run_targets (targets e (get_async_sessions_maker e)) w
    = (Ok [VStr "Hello, world!"; VNone;
           VStr ("Traveler Sebastiaan created at: " +:+ created);
           VStr shown; VNone;
           VStr "The traveler is traveling to 'Norway'"], w')
    /\ contains "destination=<NOT_LOADED>" shown
    /\ ready 0 w'.
Proof.
  intros R0. set (sm := get_async_sessions_maker e).
  assert (Hsm : sm_expire_on_commit sm = false) by done.
  (* simple *)
  destruct (simple_statement_run "Hello, world!" e (started "simple" w) eq_refl)
    as (w1 & H1 & Hdb1 & Hg1 & _).
  pose proof (execute_verbosely_run _ _ _ _ _ _ H1 eq_refl) as E1.
  assert (R1 : ready 5 (finished "Hello, world!" w1)).
  { apply ready_finished.
    eapply ready_end_transaction; [apply (ready_started _ "simple"), R0|done|].
    rewrite Hg1. by destruct R0. }
  clear H1 Hdb1 Hg1. set (v1 := finished "Hello, world!" w1) in *. clearbody v1. clear w1.
  (* lazy_loading *)
  destruct (ready_table 5 (started "lazy_loading" v1) LazyTraveler)
    as (t2 & Ht & Hrow & Hseq); [by apply ready_started|lia|].
  destruct (lazy_run sm (started "lazy_loading" v1) t2 Hsm) as (w2 & H2 & Hdb2 & Hg2 & _);
    [by destruct R1|done..|].
  pose proof (execute_verbosely_run _ _ _ _ _ _ H2 eq_refl) as E2.
  assert (R2 : ready 4 (finished "(no result)" w2)).
  { apply ready_finished.
    eapply (ready_after_insert 4 (started "lazy_loading" v1) w2 LazyTraveler);
      [by apply ready_started|exact Ht|exact Hdb2|done]. }
  clear H2 Hdb2 Hg2 Ht Hrow Hseq.
  set (v2 := finished "(no result)" w2) in *. clearbody v2. clear w2 t2.
  (* eager_loading *)
  destruct (ready_table 4 (started "eager_loading" v2) EagerTraveler)
    as (t3 & Ht & Hrow & Hseq); [by apply ready_started|lia|].
  destruct (eager_run sm (started "eager_loading" v2) t3 Hsm Ht Hrow Hseq)
    as (w3 & H3 & Hdb3 & Hg3 & _).
  pose proof (execute_verbosely_run _ _ _ _ _ _ H3 eq_refl) as E3.
  match type of H3 with _ = (Ok (VStr (_ +:+ ?x)), _) => set (created := x) in * end.
  assert (R3 : ready 3 (finished ("Traveler Sebastiaan created at: " +:+ created) w3)).
  { apply ready_finished.
    eapply (ready_after_insert 3 (started "eager_loading" v2) w3 EagerTraveler);
      [by apply ready_started|exact Ht|exact Hdb3|].
    rewrite Hg3. by destruct R2. }
  exists created. clearbody created.
  clear H3 Hdb3 Hg3 Ht Hrow Hseq.
  set (v3 := finished _ w3) in *. clearbody v3. clear w3 t3.
  (* unloaded_relationship *)
  destruct (ready_table 3 (started "unloaded_relationship" v3) Country)
    as (tc & Htc & Hrc & Hsc); [by apply ready_started|lia|].
  destruct (ready_table 3 (started "unloaded_relationship" v3) TravelerWithDestination)
    as (tt & Htt & Hrt & Hst); [by apply ready_started|lia|].
  destruct (unloaded_relationship_run sm (started "unloaded_relationship" v3) tc tt
              Hsm Htc Htt Hrc Hsc Hrt Hst) as (w4 & H4 & Hdb4 & Hg4 & _).
  pose proof (execute_verbosely_run _ _ _ _ _ _ H4 eq_refl) as E4.
  match type of H4 with _ = (Ok (VStr ?x), _) => set (shown := x) in * end.
  assert (Hshown : contains "destination=<NOT_LOADED>" shown).
  { apply traveler_repr_not_loaded. }
  assert (R4 : ready 2 (finished shown w4)).
  { apply ready_finished.
    eapply (ready_after_traveler 2 (started "unloaded_relationship" v3) w4 tc tt);
      [by apply ready_started|exact Htc|exact Htt|by rewrite Hdb4|].
    rewrite Hg4. by destruct R3. }
  exists shown. clearbody shown.
  clear H4 Hdb4 Hg4 Htc Htt Hrc Hsc Hrt Hst.
  set (v4 := finished shown w4) in *. clearbody v4. clear w4 tc tt.
  (* access_unloaded_relationship *)
  destruct (ready_table 2 (started "access_unloaded_relationship" v4) Country)
    as (tc & Htc & Hrc & Hsc); [by apply ready_started|lia|].
  destruct (ready_table 2 (started "access_unloaded_relationship" v4) TravelerWithDestination)
    as (tt & Htt & Hrt & Hst); [by apply ready_started|lia|].
  destruct (access_unloaded_relationship_run sm (started "access_unloaded_relationship" v4)
              tc tt Hsm) as (w5 & H5 & Hdb5 & Hg5 & _); [by destruct R4|done..|].
  pose proof (execute_verbosely_run _ _ _ _ _ _ H5 eq_refl) as E5.
  assert (R5 : ready 1 (finished "(no result)" w5)).
  { apply ready_finished.
    eapply (ready_after_traveler 1 (started "access_unloaded_relationship" v4) w5 tc tt);
      [by apply ready_started|exact Htc|exact Htt|by rewrite Hdb5|done]. }
  clear H5 Hdb5 Hg5 Htc Htt Hrc Hsc Hrt Hst.
  set (v5 := finished "(no result)" w5) in *. clearbody v5. clear w5 tc tt.
  (* access_loaded_relationship *)
  destruct (ready_table 1 (started "access_loaded_relationship" v5) Country)
    as (tc & Htc & Hrc & Hsc); [by apply ready_started|lia|].
  destruct (ready_table 1 (started "access_loaded_relationship" v5) TravelerWithDestination)
    as (tt & Htt & Hrt & Hst); [by apply ready_started|lia|].
  destruct (access_loaded_relationship_run sm (started "access_loaded_relationship" v5)
              tc tt Hsm Htc Htt Hrc Hsc Hrt Hst) as (w6 & H6 & Hdb6 & Hg6 & _).
  pose proof (execute_verbosely_run _ _ _ _ _ _ H6 eq_refl) as E6.
  assert (R6 : ready 0 (finished "The traveler is traveling to 'Norway'" w6)).
  { apply ready_finished.
    eapply (ready_after_traveler 0 (started "access_loaded_relationship" v5) w6 tc tt);
      [by apply ready_started|exact Htc|exact Htt|by rewrite Hdb6|].
    rewrite Hg6. by destruct R5. }
  eexists. split; [|split; [exact Hshown|exact R6]].
  unfold run_targets, targets.
  repeat (eapply map_m_cons; [eassumption|]). reflexivity.
Qed.

Lemma main_run w url :
  environ w !! "DATABASE_URL" = Some url ->
  greenlet w = false ->
  exists w', main w = (Ok tt, w').
Proof.
  intros Henv Hg. unfold main.
  unfold bind at 1. unfold environ_get. rewrite Henv.
  set (e := get_engine_async url true).
  destruct (flush_database_run e (started "flush_db" w))
    as (w1 & H1 & Hdb1 & Hg1 & _).
  pose proof (execute_verbosely_run _ _ _ _ _ _ H1 eq_refl) as E1.
  rewrite (bind_ok _ _ _ _ _ E1).
  destruct (run_targets_run e (finished "(no result)" w1))
    as (created & shown & w2 & H2 & _).
  { apply ready_finished, fresh_schema_ready; [|lia]. split.
    - by rewrite Hg1.
    - intros m. rewrite Hdb1. apply flush_tables. }
  rewrite (bind_ok _ _ _ _ _ H2).
  eexists. reflexivity.
Qed.

(* ===================================================================== *)
(** * The creation helper *)
(* ===================================================================== *)





(* ===================================================================== *)
(** * Dividers, the verbose runner and the simple statement *)
(* ===================================================================== *)

(** C8 (counterexample): a label of 93 characters does not fit a divider of
    width 80; the result is longer than the requested width. *)
Lemma format_divider_long_label :
  ~ (exists s,
       format_divider
         "a label that is longer than the seventy-six characters a divider of width eighty has room for"
         DIVIDER_WIDTH = inr s
       /\ String.length s = 80%nat).
Proof.
  intros (s & H & Hlen). vm_compute in H. injection H as <-.
  vm_compute in Hlen. discriminate.
Qed.

(** C8: the divider is not cut to the width.  A label of more than 76
    characters, rendered between its bars, is longer than the default
    width; [format_divider] returns it whole, four characters longer than
    the label and so longer than the 80 characters asked for. *)
Theorem format_divider_exceeds_width label :
  (76 < String.length label)%nat ->
  exists s,
    format_divider label DIVIDER_WIDTH = inr s
    /\ s = "| " +:+ label +:+ " |"
    /\ String.length s = (String.length label + 4)%nat
    /\ (Z.to_nat DIVIDER_WIDTH < String.length s)%nat.
Proof.
  intros Hlen.
  assert (Hdec : decorate label = "| " +:+ label +:+ " |").
  { unfold decorate. destruct label; [cbn in Hlen; lia|reflexivity]. }
  assert (Hl : String.length (decorate label) = (String.length label + 4)%nat).
  { rewrite Hdec, !length_append. cbn. lia. }
  exists (decorate label). split; [|split; [exact Hdec|split; [exact Hl|]]].
  - rewrite format_divider_80. unfold divider. rewrite Hl.
    replace (80 - (String.length label + 4))%nat with 0%nat by lia.
    cbn [Nat.div Nat.divmod fst Nat.sub repeat_char].
    change (EmptyString +:+ decorate label +:+ EmptyString)
      with (decorate label +:+ EmptyString).
    clear. induction (decorate label) as [|c s IH]; [reflexivity|].
    change (inr (String c (s +:+ EmptyString)) = (inr (String c s) : exn + string)).
    injection IH as ->. reflexivity.
  - rewrite Hl. change (Z.to_nat DIVIDER_WIDTH) with 80%nat. lia.
Qed.

Lemma format_divider_exceeds_width_witness :
  exists s,
    format_divider
      "a label that is longer than the seventy-six characters a divider of width eighty has room for"
      DIVIDER_WIDTH = inr s
    /\ String.length s = 97%nat.
Proof.
  destruct (format_divider_exceeds_width
    "a label that is longer than the seventy-six characters a divider of width eighty has room for")
    as (s & H & _ & Hlen & _).
  - cbn. lia.
  - exists s. split; [exact H|]. rewrite Hlen. reflexivity.
Defined.

(** C9: the executor prints the start marker with the label, awaits the
    coroutine, prints the result divider, the result (the placeholder for
    [None]) and the end marker, and returns the coroutine's result as it
    is. *)
Theorem execute_verbosely_async_passes_result coroutine label w r w1 shown :
  coroutine (started label w) = (Ok r, w1) ->
  result_text r (heap w1) = inr shown ->
  execute_verbosely_async coroutine label w = (Ok r, finished shown w1)
  /\ stdout (started label w)
     = (stdout w ++ [divider ("Start Execution of " +:+ repr_str label) +:+ newline])%list
  /\ stdout (finished shown w1)
     = (stdout w1 ++ [divider "Result" +:+ newline; shown +:+ newline;
                      divider "End" +:+ (newline +:+ newline +:+ newline)])%list
  /\ (r = VNone -> shown = "(no result)")
  /\ (forall s, r = VStr s -> shown = s).
Proof.
  intros Hc Hs. split; [by apply execute_verbosely_run|].
  repeat split.
  - intros ->. by injection Hs.
  - intros s ->. by injection Hs.
Qed.

Lemma execute_verbosely_async_passes_result_witness :
  exists w',
    execute_verbosely_async (simple_statement "Hello, world!" demo_engine) "simple" demo_world
    = (Ok (VStr "Hello, world!"), w')
    /\ stdout w'
       = [divider "Start Execution of 'simple'" +:+ newline;
          divider "Result" +:+ newline; "Hello, world!" +:+ newline;
          divider "End" +:+ (newline +:+ newline +:+ newline)].
Proof.
  set (w1 := snd (simple_statement "Hello, world!" demo_engine
                     (started "simple" demo_world))).
  assert (H1 : simple_statement "Hello, world!" demo_engine (started "simple" demo_world)
               = (Ok (VStr "Hello, world!"), w1)) by (vm_compute; reflexivity).
  exists (finished "Hello, world!" w1). split.
  - apply (proj1 (execute_verbosely_async_passes_result _ "simple" demo_world
                    (VStr "Hello, world!") w1 "Hello, world!" H1 eq_refl)).
  - vm_compute. reflexivity.
Defined.

(** An empty string is a result like any other: the placeholder stands
    for [None] only. *)
Lemma empty_string_is_shown h : result_text (VStr EmptyString) h = inr EmptyString.
Proof. reflexivity. Qed.

(** When the coroutine raises, the exception goes through the executor
    and nothing more is printed. *)
Lemma execute_verbosely_async_propagates coroutine label w e w1 :
  coroutine (started label w) = (Raise e, w1) ->
  execute_verbosely_async coroutine label w = (Raise e, w1).
Proof. apply execute_verbosely_raise. Qed.

(** C10: [simple_statement] returns the message it was given, here
    ["Hello, world!"], whatever the world it runs in. *)
Theorem simple_statement_echo e w :
  exists w',
    simple_statement "Hello, world!" e w = (Ok (VStr "Hello, world!"), w')
    /\ tables (db w') = tables (db w).
Proof.
  destruct (simple_statement_run "Hello, world!" e w eq_refl) as (w' & H & Hdb & _).
  exists w'. split; [done|]. by rewrite Hdb.
Qed.

(* ===================================================================== *)
(** * The whole run; server defaults *)
(* ===================================================================== *)

Lemma demo_world_fresh : fresh_schema demo_world.
Proof. split; [reflexivity|]. intros []; vm_compute; reflexivity. Qed.

Lemma demo_world_ready n : 0 <= n <= 2147483647 -> ready n demo_world.
Proof. apply fresh_schema_ready, demo_world_fresh. Qed.

Lemma append_empty_r (s : string) : s +:+ EmptyString = s.
Proof.
  induction s as [|c s IH]; [done|].
  change (String c (s +:+ EmptyString) = String c s). by rewrite IH.
Qed.

Lemma contains_suffix pre s : contains s (pre +:+ s).
Proof. exists pre, EmptyString. by rewrite append_empty_r. Qed.

(** C1: from a schema that was just recreated, the six targets of [main],
    awaited in their fixed order, give four results and two [None]; the two
    [None] are those of [lazy_loading] and [access_unloaded_relationship]. *)
Theorem targets_four_results_two_failures e w :
  fresh_schema w ->
  exists results w',
    run_targets (targets e (get_async_sessions_maker e)) w = (Ok results, w')
    /\ map fst (targets e (get_async_sessions_maker e))
       = ["simple"; "lazy_loading"; "eager_loading"; "unloaded_relationship";
          "access_unloaded_relationship"; "access_loaded_relationship"]
    /\ map is_none results = [false; true; false; false; true; false]
    /\ List.length (List.filter (fun v => negb (is_none v)) results) = 4%nat
    /\ List.length (List.filter is_none results) = 2%nat.
Proof.
  intros F.
  destruct (run_targets_run e w) as (created & shown & w' & H & _ & _).
  { apply fresh_schema_ready; [done|lia]. }
  eexists _, w'. split; [exact H|]. repeat split.
Qed.

Lemma targets_four_results_two_failures_witness :
  fresh_schema demo_world
  /\ exists results w',
       run_targets (targets demo_engine demo_sessions) demo_world = (Ok results, w')
       /\ map is_none results = [false; true; false; false; true; false].
Proof.
  split; [split; [reflexivity | intros []; vm_compute; reflexivity]|].
  destruct (targets_four_results_two_failures demo_engine demo_world)
    as (results & w' & H & _ & Hn & _).
  - split; [reflexivity | intros []; vm_compute; reflexivity].
  - exists results, w'. split; [exact H | exact Hn].
Defined.

(** C2: in [lazy_loading] and in [access_unloaded_relationship] the read
    attempts a load, which raises [MissingGreenlet] outside
    [greenlet_spawn]; the handler around the read catches it, prints it and
    the scenario returns [None]. *)
Theorem unloaded_reads_are_caught sm w :
  sm_expire_on_commit sm = false ->
  ready 1 w ->
  (exists w' a,
     lazy_loading sm w = (Ok VNone, w')
     /\ stdout w' = (stdout w
          ++ [divider "Engine activity after committing ORM-instance" +:+ newline;
              caught_line])%list
     /\ sublist [EvRead a "created_at"; EvLoad a "created_at"] (drop (List.length (trace w)) (trace w')))
  /\ (exists w' a,
        access_unloaded_relationship sm w = (Ok VNone, w')
        /\ stdout w' = (stdout w
             ++ [divider "Engine activity after fetching ORM-instance" +:+ newline;
                 caught_line])%list
        /\ sublist [EvRead a "destination"; EvLoad a "destination"]
                   (drop (List.length (trace w)) (trace w')))
  /\ exn_cls missing_greenlet = MissingGreenlet.
Proof.
  intros Hsm R. pose proof R as [Hg _].
  destruct (ready_table 1 w LazyTraveler R) as (tl & Htl & Hrl & Hsl); [lia|].
  destruct (ready_table 1 w Country R) as (tc & Htc & Hrc & Hsc); [lia|].
  destruct (ready_table 1 w TravelerWithDestination R) as (tt & Htt & Hrt & Hst); [lia|].
  split; [|split; [|reflexivity]].
  - destruct (lazy_run sm w tl Hsm Hg Htl Hrl Hsl) as (w' & H & _ & _ & Hout & Htr).
    exists w', (next_addr w). split; [exact H|]. split; [exact Hout|].
    rewrite Htr, drop_app_length.
    repeat first [apply sublist_nil_l | apply sublist_skip | apply sublist_cons].
  - destruct (access_unloaded_relationship_run sm w tc tt Hsm Hg Htc Htt Hrc Hsc Hrt Hst)
      as (w' & H & _ & _ & Hout & Htr).
    exists w', (S (S (next_addr w))). split; [exact H|]. split; [exact Hout|].
    rewrite Htr, drop_app_length.
    repeat first [apply sublist_nil_l | apply sublist_skip | apply sublist_cons].
Qed.

Lemma unloaded_reads_are_caught_witness :
  sm_expire_on_commit demo_sessions = false
  /\ (exists w', lazy_loading demo_sessions demo_world = (Ok VNone, w'))
  /\ (exists w', access_unloaded_relationship demo_sessions demo_world = (Ok VNone, w')).
Proof.
  split; [reflexivity|].
  destruct (unloaded_reads_are_caught demo_sessions demo_world)
    as ((w1 & a1 & H1 & _) & (w2 & a2 & H2 & _) & _).
  - reflexivity.
  - split; [reflexivity|]. intros []; exists empty_table;
      (split; [vm_compute; reflexivity|]); (split; [apply map_Forall_empty|cbn; lia]).
  - split; [exists w1; exact H1 | exists w2; exact H2].
Defined.

(** C3 (counterexample): [eager_loading] fetches nothing again.  Its run
    executes no selector, so it does not read the timestamp after an
    insert and a refetch: the shape CREATE, INSERT (committed, session
    closed), SELECT in a new session, READ is not the shape of its run. *)
Lemma eager_loading_has_no_refetch :
  ~ runs_with (eager_loading demo_sessions) demo_world
      (fun _ tr => read_after_refetch_shape tr).
Proof.
  intros (r & w' & tr & Hrun & Htr & (a & m & sid & pk & sid' & a' & key & _ & Hsub)).
  vm_compute in Hrun. injection Hrun as _ <-. cbn in Htr. subst tr.
  assert (Hin : EvSelect sid' m ∈ [EvConstruct 0%nat EagerTraveler; EvSessionOpen 0;
            EvBegin 0; EvAdd 0 0%nat; EvInsert 0 EagerTraveler 1; EvCommit 0;
            EvRead 0%nat "created_at"; EvSessionClose 0]).
  { eapply elem_of_sublist; [|exact Hsub]. set_solver. }
  repeat (apply elem_of_cons in Hin as [Hin|Hin]; [discriminate Hin|]).
  by apply elem_of_nil in Hin.
Qed.

(** C3 (amended): [eager_loading] inserts one [EagerTraveler] and commits
    it; the [created_at] the server computed comes back with the [INSERT],
    and the scenario reads it on the instance it inserted, in the session
    of the insert, without a load and without a [SELECT].  The read
    succeeds: the function returns the text that ends with the timestamp
    stored in the row, after the divider and without a failure message. *)
Theorem eager_loading_returns_timestamp sm w :
  sm_expire_on_commit sm = false ->
  ready 1 w ->
  let now := clock (db w) (tick (db w)) in
  exists pk shown w',
    eager_loading sm w = (Ok (VStr shown), w')
    /\ lookup_row EagerTraveler pk (db w) = None
    /\ lookup_row EagerTraveler pk (db w') = Some (traveler_row pk now)
    /\ shown = "Traveler Sebastiaan created at: " +:+ str_datetime now
    /\ shown <> EmptyString
    /\ contains (str_datetime now) shown
    /\ stdout w' = (stdout w
         ++ [divider "Engine activity after committing ORM-instance" +:+ newline])%list
    /\ drop (List.length (trace w)) (trace w')
       = [EvConstruct (next_addr w) EagerTraveler; EvSessionOpen (next_session w);
          EvBegin (next_session w); EvAdd (next_session w) (next_addr w);
          EvInsert (next_session w) EagerTraveler pk; EvCommit (next_session w);
          EvRead (next_addr w) "created_at"; EvSessionClose (next_session w)]
    /\ no_load (drop (List.length (trace w)) (trace w'))
    /\ (forall sid m, EvSelect sid m ∉ drop (List.length (trace w)) (trace w')).
Proof.
  intros Hsm R now.
  destruct (ready_table 1 w EagerTraveler R) as (t & Ht & Hr & Hs); [lia|].
  destruct (eager_run sm w t Hsm Ht Hr Hs) as (w' & H & Hdb & _ & Hout & Htr).
  exists (seq t). eexists. exists w'. split; [exact H|]. clear H.
  rewrite Htr, drop_app_length.
  split; [unfold lookup_row; cbn; cbn in Ht; rewrite Ht; exact Hr|].
  split.
  { rewrite Hdb. unfold lookup_row, db_after_insert. cbn.
    rewrite lookup_insert_eq. cbn. apply lookup_insert_eq. }
  split; [reflexivity|].
  split; [discriminate|]. split; [apply contains_suffix|].
  split; [exact Hout|]. split; [reflexivity|]. split.
  - intros a key Hin.
    repeat (apply elem_of_cons in Hin as [Hin|Hin]; [discriminate Hin|]).
    by apply elem_of_nil in Hin.
  - intros sid m Hin.
    repeat (apply elem_of_cons in Hin as [Hin|Hin]; [discriminate Hin|]).
    by apply elem_of_nil in Hin.
Qed.

Lemma eager_loading_returns_timestamp_witness :
  sm_expire_on_commit demo_sessions = false
  /\ exists pk w',
       eager_loading demo_sessions demo_world
       = (Ok (VStr "Traveler Sebastiaan created at: 2021-05-03 12:30:00"), w')
       /\ lookup_row EagerTraveler pk (db w') = Some (traveler_row pk (demo_clock 0)).
Proof.
  split; [reflexivity|].
  destruct (eager_loading_returns_timestamp demo_sessions demo_world)
    as (pk & shown & w' & H & _ & Hrow & -> & _).
  - reflexivity.
  - split; [reflexivity|]. intros []; exists empty_table;
      (split; [vm_compute; reflexivity|]); (split; [apply map_Forall_empty|cbn; lia]).
  - exists pk, w'. split; [exact H|exact Hrow].
Defined.

(* ===================================================================== *)
(** * Relationships *)
(* ===================================================================== *)

Ltac find_sublist :=
  repeat first [apply sublist_nil_l | apply sublist_skip | apply sublist_cons].

Ltac absent_event Hin :=
  repeat (apply elem_of_cons in Hin as [Hin|Hin]; [discriminate Hin|]);
  by apply elem_of_nil in Hin.

Lemma demo_world_ready_1 : ready 1 demo_world.
Proof.
  split; [reflexivity|]. intros []; exists empty_table;
    (split; [vm_compute; reflexivity|]); (split; [apply map_Forall_empty|cbn; lia]).
Qed.

(** C4: [unloaded_relationship] inserts a country and a traveler bound
    for it, fetches the traveler again in a new session with a selector
    that does not ask for the destination, and returns the representation
    of that instance.  Taking the representation raises nothing, reads no
    attribute of the instance through its loader and attempts no load; the
    relationship that was not requested is shown as not loaded, the other
    fields show the row that was inserted. *)
Theorem unloaded_relationship_marks_not_loaded sm w :
  sm_expire_on_commit sm = false ->
  ready 1 w ->
  let now := clock (db w) (tick (db w)) in
  exists pk fk shown w',
    unloaded_relationship sm w = (Ok (VStr shown), w')
    /\ lookup_row Country fk (db w) = None
    /\ lookup_row TravelerWithDestination pk (db w) = None
    /\ lookup_row Country fk (db w') = Some (country_row fk)
    /\ lookup_row TravelerWithDestination pk (db w') = Some (destination_row pk now fk)
    /\ shown = traveler_repr pk now fk
    /\ contains "destination=<NOT_LOADED>" shown
    /\ stdout w' = stdout w
    /\ drop (List.length (trace w)) (trace w')
       = [EvConstruct (next_addr w) Country;
          EvConstruct (S (next_addr w)) TravelerWithDestination;
          EvSessionOpen (next_session w);
          EvBegin (next_session w); EvAdd (next_session w) (S (next_addr w));
          EvInsert (next_session w) Country fk;
          EvInsert (next_session w) TravelerWithDestination pk;
          EvCommit (next_session w); EvSessionClose (next_session w);
          EvRead (S (next_addr w)) "id";
          EvSessionOpen (S (next_session w));
          EvSelect (S (next_session w)) TravelerWithDestination;
          EvSessionClose (S (next_session w))]
    /\ no_load (drop (List.length (trace w)) (trace w'))
    /\ (forall a, EvRead a "destination" ∉ drop (List.length (trace w)) (trace w')).
Proof.
  intros Hsm R now.
  destruct (ready_table 1 w Country R) as (tc & Htc & Hrc & Hsc); [lia|].
  destruct (ready_table 1 w TravelerWithDestination R) as (tt & Htt & Hrt & Hst); [lia|].
  destruct (unloaded_relationship_run sm w tc tt Hsm Htc Htt Hrc Hsc Hrt Hst)
    as (w' & H & Hdb & _ & Hout & Htr).
  exists (seq tt), (seq tc). eexists. exists w'. split; [exact H|]. clear H.
  cbn in Htc, Htt.
  rewrite Htr, drop_app_length. unfold lookup_row. rewrite Hdb. cbn. rewrite Htc, Htt.
  split; [exact Hrc|]. split; [exact Hrt|].
  split; [rewrite lookup_insert_ne by done; rewrite lookup_insert_eq; cbn;
          apply lookup_insert_eq|].
  split; [rewrite lookup_insert_eq; cbn; apply lookup_insert_eq|].
  split; [reflexivity|]. split; [apply traveler_repr_not_loaded|].
  split; [exact Hout|]. split; [reflexivity|]. split.
  - intros a key Hin. absent_event Hin.
  - intros a Hin. absent_event Hin.
Qed.

Lemma unloaded_relationship_marks_not_loaded_witness :
  sm_expire_on_commit demo_sessions = false
  /\ exists pk fk shown w',
       unloaded_relationship demo_sessions demo_world = (Ok (VStr shown), w')
       /\ shown = traveler_repr pk (demo_clock 0) fk
       /\ contains "destination=<NOT_LOADED>" shown
       /\ lookup_row TravelerWithDestination pk (db w')
          = Some (destination_row pk (demo_clock 0) fk).
Proof.
  split; [reflexivity|].
  destruct (unloaded_relationship_marks_not_loaded demo_sessions demo_world eq_refl
              demo_world_ready_1)
    as (pk & fk & shown & w' & H & _ & _ & _ & Hrow & Hs & Hc & _).
  exists pk, fk, shown, w'. split; [exact H|]. split; [exact Hs|].
  split; [exact Hc|exact Hrow].
Defined.

(** The representation reads the state of the instance and leaves the
    world as it is. *)
Lemma py_repr_pure v w : snd (py_repr v w) = w.
Proof. unfold py_repr, bind, get_world, lift. by destruct (repr_value _ _ _). Qed.

(** C5: [access_loaded_relationship] inserts a country and a traveler
    bound for it and closes the session of the insert; the selector, with
    the joined eager load of the destination, runs in a new session and
    brings the country with the traveler: the instance it yields refers to
    the instance of the country.  The scenario then reads
    [traveler.destination] and [.name] on it, without a load, and returns
    the text with the name stored in the row of the country,
    ['Norway']; the divider is printed and no failure message. *)
Theorem access_loaded_relationship_returns_norway sm w :
  sm_expire_on_commit sm = false ->
  ready 1 w ->
  let now := clock (db w) (tick (db w)) in
  exists pk fk name shown w',
    access_loaded_relationship sm w = (Ok (VStr shown), w')
    /\ lookup_row Country fk (db w) = None
    /\ lookup_row TravelerWithDestination pk (db w) = None
    /\ lookup_row Country fk (db w') = Some (country_row fk)
    /\ lookup_row TravelerWithDestination pk (db w') = Some (destination_row pk now fk)
    /\ country_row fk !! "name" = Some (VStr name)
    /\ shown = "The traveler is traveling to " +:+ repr_str name
    /\ shown = "The traveler is traveling to 'Norway'"
    /\ contains "Norway" shown
    /\ stdout w' = (stdout w
         ++ [divider "Engine activity after fetching ORM-instance" +:+ newline])%list
    /\ drop (List.length (trace w)) (trace w')
       = [EvConstruct (next_addr w) Country;
          EvConstruct (S (next_addr w)) TravelerWithDestination;
          EvSessionOpen (next_session w);
          EvBegin (next_session w); EvAdd (next_session w) (S (next_addr w));
          EvInsert (next_session w) Country fk;
          EvInsert (next_session w) TravelerWithDestination pk;
          EvCommit (next_session w); EvSessionClose (next_session w);
          EvRead (S (next_addr w)) "id";
          EvSessionOpen (S (next_session w));
          EvSelect (S (next_session w)) TravelerWithDestination;
          EvRead (S (S (next_addr w))) "destination";
          EvRead (S (S (S (next_addr w)))) "name";
          EvSessionClose (S (next_session w))]
    /\ no_load (drop (List.length (trace w)) (trace w'))
    /\ heap w' !! S (S (next_addr w))
       = Some {| inst_class := TravelerWithDestination;
                 inst_dict := <["destination" := VRef (S (S (S (next_addr w))))]>
                                (destination_row pk now fk);
                 inst_expired := []; inst_key := Some pk; inst_session := None |}
    /\ heap w' !! S (S (S (next_addr w)))
       = Some {| inst_class := Country; inst_dict := country_row fk;
                 inst_expired := []; inst_key := Some fk; inst_session := None |}.
Proof.
  intros Hsm R now.
  destruct (ready_table 1 w Country R) as (tc & Htc & Hrc & Hsc); [lia|].
  destruct (ready_table 1 w TravelerWithDestination R) as (tt & Htt & Hrt & Hst); [lia|].
  destruct (access_loaded_relationship_run sm w tc tt Hsm Htc Htt Hrc Hsc Hrt Hst)
    as (w' & H & Hdb & _ & Hout & Htr & Hh1 & Hh2).
  exists (seq tt), (seq tc), "Norway". eexists. exists w'. split; [exact H|]. clear H.
  cbn in Htc, Htt.
  rewrite Htr, drop_app_length. unfold lookup_row. rewrite Hdb. cbn. rewrite Htc, Htt.
  split; [exact Hrc|]. split; [exact Hrt|].
  split; [rewrite lookup_insert_ne by done; rewrite lookup_insert_eq; cbn;
          apply lookup_insert_eq|].
  split; [rewrite lookup_insert_eq; cbn; apply lookup_insert_eq|].
  split; [unfold country_row; rewrite lookup_insert_ne by done; apply lookup_insert_eq|].
  split; [reflexivity|]. split; [reflexivity|].
  split; [by exists "The traveler is traveling to '", "'"|].
  split; [exact Hout|]. split; [reflexivity|]. split.
  - intros a key Hin. absent_event Hin.
  - split; [exact Hh1|exact Hh2].
Qed.

Lemma access_loaded_relationship_returns_norway_witness :
  sm_expire_on_commit demo_sessions = false
  /\ exists pk fk w',
       access_loaded_relationship demo_sessions demo_world
       = (Ok (VStr "The traveler is traveling to 'Norway'"), w')
       /\ lookup_row Country fk (db w') = Some (country_row fk)
       /\ lookup_row TravelerWithDestination pk (db w')
          = Some (destination_row pk (demo_clock 0) fk).
Proof.
  split; [reflexivity|].
  destruct (access_loaded_relationship_returns_norway demo_sessions demo_world eq_refl
              demo_world_ready_1)
    as (pk & fk & name & shown & w' & H & _ & _ & Hc & Ht & _ & _ & -> & _).
  exists pk, fk, w'. split; [exact H|]. split; [exact Hc|exact Ht].
Defined.

(* ===================================================================== *)
(** * The creation helper refetches by key *)
(* ===================================================================== *)






(* ===================================================================== *)
(** * Shapes of the scenarios *)
(* ===================================================================== *)

(** C7 (counterexample): [lazy_loading] executes no selector, so its run
    does not have the shape CREATE, INSERT, SELECT in a new session, READ. *)
Lemma lazy_loading_has_no_select :
  ~ runs_with (lazy_loading demo_sessions) demo_world
      (fun _ tr => read_after_refetch_shape tr).
Proof.
  intros (r & w' & tr & Hrun & Htr & (a & m & sid & pk & sid' & a' & key & _ & Hsub)).
  vm_compute in Hrun. injection Hrun as _ <-. cbn in Htr. subst tr.
  assert (Hin : EvSelect sid' m ∈ [EvConstruct 0%nat LazyTraveler; EvSessionOpen 0;
            EvBegin 0; EvAdd 0 0%nat; EvInsert 0 LazyTraveler 1; EvCommit 0;
            EvRead 0%nat "created_at"; EvLoad 0%nat "created_at"; EvSessionClose 0]).
  { eapply elem_of_sublist; [|exact Hsub]. set_solver. }
  absent_event Hin.
Qed.

(** C7 (amended): the two scenarios that read the destination follow
    CREATE, INSERT (committed, session closed), SELECT in a new session, READ;
    [unloaded_relationship] follows it up to the SELECT and then takes the
    representation; [lazy_loading] and [eager_loading] read the attribute of
    the instance they inserted while the session of the insert is still open,
    without a SELECT; [simple_statement] only executes its statement.  A
    scenario ends with SUCCESS, a text returned and no failure message
    printed, or with CAUGHT-FAILURE, [None] returned and the message of the
    caught exception printed after the divider. *)
Theorem scenario_shapes sm e w :
  sm_expire_on_commit sm = false ->
  ready 1 w ->
  runs_printing (access_unloaded_relationship sm) w
    (fun r tr out =>
       r = VNone /\ read_after_refetch_shape tr
       /\ out = [divider "Engine activity after fetching ORM-instance" +:+ newline;
                 caught_line])
  /\ runs_printing (access_loaded_relationship sm) w
       (fun r tr out =>
          r = VStr "The traveler is traveling to 'Norway'" /\ read_after_refetch_shape tr
          /\ out = [divider "Engine activity after fetching ORM-instance" +:+ newline])
  /\ runs_printing (unloaded_relationship sm) w
       (fun r tr out =>
          (exists shown, r = VStr shown) /\ refetch_shape tr
          /\ (forall a key, key <> "id" -> EvRead a key ∉ tr)
          /\ out = [])
  /\ runs_printing (lazy_loading sm) w
       (fun r tr out =>
          r = VNone /\ read_in_session_shape tr
          /\ out = [divider "Engine activity after committing ORM-instance" +:+ newline;
                    caught_line])
  /\ runs_printing (eager_loading sm) w
       (fun r tr out =>
          (exists shown, r = VStr shown) /\ read_in_session_shape tr
          /\ out = [divider "Engine activity after committing ORM-instance" +:+ newline])
  /\ runs_printing (simple_statement "Hello, world!" e) w
       (fun r tr out =>
          r = VStr "Hello, world!" /\ tr = [EvConnect; EvExecuteText; EvDisconnect]
          /\ out = []).
Proof.
  intros Hsm R. pose proof R as [Hg _].
  destruct (ready_table 1 w LazyTraveler R) as (tl & Htl & Hrl & Hsl); [lia|].
  destruct (ready_table 1 w EagerTraveler R) as (te & Hte & Hre & Hse); [lia|].
  destruct (ready_table 1 w Country R) as (tc & Htc & Hrc & Hsc); [lia|].
  destruct (ready_table 1 w TravelerWithDestination R) as (tt & Htt & Hrt & Hst); [lia|].
  split; [|split; [|split; [|split; [|split]]]].
  - destruct (access_unloaded_relationship_run sm w tc tt Hsm Hg Htc Htt Hrc Hsc Hrt Hst)
      as (w' & H & _ & _ & Hout & Htr).
    eexists _, w', _, _. split; [exact H|]. split; [exact Htr|]. split; [exact Hout|].
    clear H. split; [reflexivity|]. split; [|reflexivity].
    exists (S (next_addr w)), TravelerWithDestination, (next_session w), (seq tt),
      (S (next_session w)), (S (S (next_addr w))), "destination".
    split; [lia|]. find_sublist.
  - destruct (access_loaded_relationship_run sm w tc tt Hsm Htc Htt Hrc Hsc Hrt Hst)
      as (w' & H & _ & _ & Hout & Htr & _).
    eexists _, w', _, _. split; [exact H|]. split; [exact Htr|]. split; [exact Hout|].
    clear H. split; [reflexivity|]. split; [|reflexivity].
    exists (S (next_addr w)), TravelerWithDestination, (next_session w), (seq tt),
      (S (next_session w)), (S (S (next_addr w))), "destination".
    split; [lia|]. find_sublist.
  - destruct (unloaded_relationship_run sm w tc tt Hsm Htc Htt Hrc Hsc Hrt Hst)
      as (w' & H & _ & _ & Hout & Htr).
    eexists _, w', _, []. split; [exact H|]. split; [exact Htr|].
    split; [rewrite Hout; symmetry; apply app_nil_r|].
    clear H. split; [eexists; reflexivity|]. split; [|split; [|reflexivity]].
    + exists (S (next_addr w)), TravelerWithDestination, (next_session w), (seq tt),
        (S (next_session w)).
      split; [lia|]. find_sublist.
    + intros a key Hkey Hin.
      repeat (apply elem_of_cons in Hin as [Hin|Hin];
              [first [discriminate Hin | injection Hin as _ Hk; exact (Hkey Hk)]|]).
      by apply elem_of_nil in Hin.
  - destruct (lazy_run sm w tl Hsm Hg Htl Hrl Hsl) as (w' & H & _ & _ & Hout & Htr).
    eexists _, w', _, _. split; [exact H|]. split; [exact Htr|]. split; [exact Hout|].
    clear H. split; [reflexivity|]. split; [|reflexivity]. split.
    + exists (next_addr w), LazyTraveler, (next_session w), (seq tl), "created_at".
      find_sublist.
    + intros sid m Hin. absent_event Hin.
  - destruct (eager_run sm w te Hsm Hte Hre Hse) as (w' & H & _ & _ & Hout & Htr).
    eexists _, w', _, _. split; [exact H|]. split; [exact Htr|]. split; [exact Hout|].
    clear H. split; [eexists; reflexivity|]. split; [|reflexivity]. split.
    + exists (next_addr w), EagerTraveler, (next_session w), (seq te), "created_at".
      find_sublist.
    + intros sid m Hin. absent_event Hin.
  - destruct (simple_statement_run "Hello, world!" e w eq_refl)
      as (w' & H & _ & _ & Hout & Htr).
    eexists _, w', _, []. split; [exact H|]. split; [exact Htr|].
    split; [rewrite Hout; symmetry; apply app_nil_r|].
    clear H. split; [reflexivity|]. split; reflexivity.
Qed.

Lemma scenario_shapes_witness :
  sm_expire_on_commit demo_sessions = false
  /\ runs_printing (access_loaded_relationship demo_sessions) demo_world
       (fun r tr out =>
          r = VStr "The traveler is traveling to 'Norway'" /\ read_after_refetch_shape tr
          /\ out = [divider "Engine activity after fetching ORM-instance" +:+ newline])
  /\ runs_printing (lazy_loading demo_sessions) demo_world
       (fun r tr out =>
          r = VNone /\ read_in_session_shape tr
          /\ out = [divider "Engine activity after committing ORM-instance" +:+ newline;
                    caught_line]).
Proof.
  split; [reflexivity|].
  destruct (scenario_shapes demo_sessions demo_engine demo_world eq_refl demo_world_ready_1)
    as (_ & H2 & _ & H4 & _).
  split; [exact H2 | exact H4].
Defined.

(* ===================================================================== *)
(** * Edge cases of the dividers, the runner, the schema reset and the simple statement *)
(* ===================================================================== *)

Lemma repeat_char_app c (n m : nat) :
  repeat_char c n +:+ repeat_char c m = repeat_char c (n + m).
Proof.
  induction n as [|n IH]; [done|].
  change (String c (repeat_char c n +:+ repeat_char c m) = String c (repeat_char c (n + m))).
  by rewrite IH.
Qed.

(** X1: a negative width is refused by the formatter: [format_divider]
    raises [ValueError], whatever the label. *)
Theorem format_divider_rejects_negative_width label width :
  width < 0 ->
  format_divider label width
  = inl (Exn ValueError "Sign not allowed in string format specifier").
Proof.
  intros Hw. unfold format_divider, format_center.
  by destruct (Z.ltb_spec width 0); [|lia].
Qed.

Lemma format_divider_rejects_negative_width_witness :
  format_divider "End" (-1)
  = inl (Exn ValueError "Sign not allowed in string format specifier").
Proof. apply format_divider_rejects_negative_width. lia. Defined.

(** X2: without a label the divider is a plain run of [=]: the empty
    label is not decorated.  Whenever [format_divider] returns for the
    empty label, the result is exactly [width] characters [=]; and it does
    return for every width from 0 to the default one. *)
Theorem format_divider_empty_label width :
  (0 <= width <= DIVIDER_WIDTH -> exists s, format_divider EmptyString width = inr s)
  /\ (forall s, format_divider EmptyString width = inr s ->
        s = repeat_char "="%char (Z.to_nat width)
        /\ 0 <= width /\ Z.of_nat (String.length s) = width).
Proof.
  assert (Hgen : 0 <= width <= MAX_STR_LENGTH ->
            format_divider EmptyString width = inr (repeat_char "="%char (Z.to_nat width))).
  { intros Hw. rewrite (format_divider_eq EmptyString width Hw).
    change (decorate EmptyString) with EmptyString.
    change (String.length EmptyString) with 0%nat.
    rewrite Nat.sub_0_r.
    set (n := Z.to_nat width).
    change (repeat_char "=" (n / 2) +:+ EmptyString +:+ repeat_char "=" (n - n / 2))
      with (repeat_char "=" (n / 2) +:+ repeat_char "=" (n - n / 2)).
    rewrite repeat_char_app. do 2 f_equal.
    assert ((n / 2 <= n)%nat) by (apply Nat.Div0.div_le_upper_bound; lia). lia. }
  split.
  - intros Hw. eexists. apply Hgen.
    unfold DIVIDER_WIDTH in Hw. unfold MAX_STR_LENGTH, PY_SSIZE_T_MAX. lia.
  - intros s Hs.
    assert (Hw : 0 <= width <= MAX_STR_LENGTH).
    { unfold format_divider, format_center in Hs. cbn [String.eqb negb] in Hs.
      destruct (Z.ltb_spec width 0); [discriminate Hs|].
      destruct (Z.ltb_spec PY_SSIZE_T_MAX width); [discriminate Hs|].
      destruct (Z.ltb_spec MAX_STR_LENGTH width); [discriminate Hs|]. lia. }
    rewrite (Hgen Hw) in Hs. injection Hs as <-.
    rewrite length_repeat_char. split; [reflexivity|]. lia.
Qed.

Lemma format_divider_empty_label_witness :
  format_divider EmptyString 80 = inr (repeat_char "="%char 80).
Proof.
  destruct (format_divider_empty_label 80) as [Hret Hres].
  destruct Hret as [s Hs]; [unfold DIVIDER_WIDTH; lia|].
  rewrite Hs. f_equal. exact (proj1 (Hres s Hs)).
Defined.

(** X3: when the awaited coroutine raises, [execute_verbosely_async]
    raises the same exception and leaves the world as the coroutine left
    it: the start marker was printed before the coroutine ran, and neither
    the result nor the end marker follows. *)
Theorem execute_verbosely_async_lets_exceptions_through coroutine label w e w1 :
  coroutine
    (set_stdout (stdout w ++ [divider ("Start Execution of " +:+ repr_str label) +:+ newline]) w)
  = (Raise e, w1) ->
  execute_verbosely_async coroutine label w = (Raise e, w1).
Proof. intros H. by apply execute_verbosely_raise. Qed.

Lemma execute_verbosely_async_lets_exceptions_through_witness :
  exists e w1,
    execute_verbosely_async (lazy_loading demo_sessions) "lazy_loading" bare_world
    = (Raise e, w1)
    /\ exn_cls e = ProgrammingError
    /\ stdout w1 = [divider "Start Execution of 'lazy_loading'" +:+ newline].
Proof.
  set (w0 := set_stdout (stdout bare_world
               ++ [divider ("Start Execution of " +:+ repr_str "lazy_loading") +:+ newline])
               bare_world).
  set (r := lazy_loading demo_sessions w0).
  assert (Hr : lazy_loading demo_sessions w0 = (Raise (Exn ProgrammingError
                 "relation does not exist: lazy_traveler"), snd r))
    by (vm_compute; reflexivity).
  exists (Exn ProgrammingError "relation does not exist: lazy_traveler"), (snd r).
  split; [|split].
  - exact (execute_verbosely_async_lets_exceptions_through _ "lazy_loading" bare_world _ _ Hr).
  - reflexivity.
  - vm_compute. reflexivity.
Defined.

(** X4: without [DATABASE_URL] in the environment [main] raises
    [KeyError] at once: nothing is printed, no connection is made and the
    database is left alone. *)
Theorem main_requires_database_url w :
  environ w !! "DATABASE_URL" = None ->
  main w = (Raise (Exn KeyError "DATABASE_URL"), w).
Proof.
  intros H. unfold main, bind, environ_get. by rewrite H.
Qed.

Lemma main_requires_database_url_witness :
  main unconfigured_world = (Raise (Exn KeyError "DATABASE_URL"), unconfigured_world).
Proof. apply main_requires_database_url. reflexivity. Defined.

Lemma flush_tables_other d name :
  declared name = false ->
  tables (create_all metadata (drop_all metadata d)) !! name = tables d !! name.
Proof.
  intros H. unfold declared in H. cbn in H.
  repeat (apply orb_false_elim in H as [?%String.eqb_neq H]).
  cbn. run_map. cbn. run_map. cbn. run_map. cbn. run_map.
  rewrite ?lookup_insert_ne, ?lookup_delete_ne by done. done.
Qed.

Lemma declared_tablename name :
  declared name = true -> exists m, name = tablename m.
Proof.
  unfold declared. cbn. intros H.
  apply orb_prop in H as [H%String.eqb_eq|H]; [by exists LazyTraveler|].
  apply orb_prop in H as [H%String.eqb_eq|H]; [by exists EagerTraveler|].
  apply orb_prop in H as [H%String.eqb_eq|H]; [by exists TravelerWithDestination|].
  apply orb_prop in H as [H%String.eqb_eq|H]; [by exists Country|].
  discriminate.
Qed.

(** X5: [flush_database_async] returns [None] and leaves every declared
    table empty, with its key sequence restarted, whatever the tables held;
    a table the metadata does not declare is not touched, nothing is
    printed and no object changes. *)
Theorem flush_database_async_resets_declared_tables e w :
  exists w',
    flush_database_async e w = (Ok VNone, w')
    /\ (forall name,
          tables (db w') !! name
          = if declared name then Some empty_table else tables (db w) !! name)
    /\ heap w' = heap w
    /\ stdout w' = stdout w
    /\ open_connections 0 (drop (List.length (trace w)) (trace w')) = 0%nat.
Proof.
  destruct (flush_database_run e w) as (w' & H & Hdb & _ & Hout & Hheap & _ & Htr).
  exists w'. split; [done|]. split; [|split; [done|split; [done|]]].
  - intros name. rewrite Hdb. destruct (declared name) eqn:Hd.
    + destruct (declared_tablename _ Hd) as [m ->]. apply flush_tables.
    + by apply flush_tables_other.
  - rewrite Htr, drop_app_length. reflexivity.
Qed.

Lemma simple_statement_nul_run message e w :
  str_mem "000"%char message = true ->
  exists w',
    simple_statement message e w
    = (Raise (Exn DBAPIError "invalid byte sequence for encoding UTF8: 0x00"), w')
    /\ db w' = end_transaction (db w)
    /\ stdout w' = stdout w
    /\ trace w' = (trace w ++ [EvConnect; EvDisconnect])%list.
Proof.
  intros Hnul. unfold simple_statement, text, Connection_execute. cbn [text_sql].
  change (bind_name "SELECT :message") with (Some "message"). cbv beta iota.
  rewrite lookup_singleton_eq. cbn [sendable acceptable_text]. rewrite Hnul. cbn [negb].
  run_to_end.
  cbn. repeat split; by rewrite <- ?app_assoc.
Qed.

(** X6: [simple_statement] returns the message it is given, for every
    message the server takes as a text, that is, every message without a
    NUL character; it uses one connection, which it gives back, prints
    nothing and changes no table.  A message with a NUL character is
    refused by the server: the call raises [DBAPIError], and the connection
    is given back all the same. *)
Theorem simple_statement_echoes_every_message message e w :
  (str_mem "000"%char message = false ->
   exists w',
     simple_statement message e w = (Ok (VStr message), w')
     /\ tables (db w') = tables (db w)
     /\ stdout w' = stdout w
     /\ trace w' = (trace w ++ [EvConnect; EvExecuteText; EvDisconnect])%list)
  /\ (str_mem "000"%char message = true ->
      exists err w',
        simple_statement message e w = (Raise err, w')
        /\ exn_cls err = DBAPIError
        /\ tables (db w') = tables (db w)
        /\ stdout w' = stdout w
        /\ open_connections 0 (drop (List.length (trace w)) (trace w')) = 0%nat).
Proof.
  split; intros Hnul.
  - destruct (simple_statement_run message e w Hnul) as (w' & H & Hdb & _ & Hout & Htr).
    exists w'. rewrite Hdb. done.
  - destruct (simple_statement_nul_run message e w Hnul) as (w' & H & Hdb & Hout & Htr).
    eexists _, w'. split; [exact H|]. split; [reflexivity|]. rewrite Hdb, Htr, drop_app_length.
    done.
Qed.

Lemma simple_statement_echoes_every_message_witness :
  exists w',
    simple_statement "It's a long way to Tipperary" demo_engine demo_world
    = (Ok (VStr "It's a long way to Tipperary"), w').
Proof.
  destruct (proj1 (simple_statement_echoes_every_message "It's a long way to Tipperary"
                     demo_engine demo_world) eq_refl) as (w' & H & _).
  exists w'. exact H.
Defined.

(* ===================================================================== *)
(** * Runs that end in an exception *)
(* ===================================================================== *)

Lemma create_rejected_run m kwargs sm w e :
  (forall k v, kwargs !! k = Some v -> is_column m k = true) ->
  db_insert m kwargs (db w) = inl e ->
  exists w',
    create_orm_instance_async m kwargs sm w = (Raise e, w')
    /\ db w' = end_transaction
                 (restore_tables (tables (db w)) (db_refused m kwargs (db w)))
    /\ heap w' = <[next_addr w := {| inst_class := m; inst_dict := kwargs;
                                     inst_expired := []; inst_key := None;
                                     inst_session := None |}]> (heap w)
    /\ greenlet w' = greenlet w
    /\ stdout w' = stdout w
    /\ trace w' = (trace w
         ++ [EvConstruct (next_addr w) m; EvSessionOpen (next_session w);
             EvBegin (next_session w); EvAdd (next_session w) (next_addr w);
             EvRollback (next_session w); EvSessionClose (next_session w)])%list.
Proof.
  intros Hcols Hins.
  assert (Hrel : forall r, In r (relationships m) -> kwargs !! rel_key r = None).
  { intros r Hr. destruct (kwargs !! rel_key r) as [v|] eqn:E; [|done].
    apply Hcols in E. destruct m; cbn in Hr; try done.
    destruct Hr as [<-|[]]. done. }
  unfold create_orm_instance_async.
  erewrite bind_ok; last first.
  { apply construct_ok. intros k v Hkv. left. eauto. }
  unfold constructed.
  destruct m.
  - run_start. run_abs. run_finish. cbn.
    rewrite alter_insert_eq. repeat split; by rewrite <- ?app_assoc.
  - run_start. run_abs. run_finish. cbn.
    rewrite alter_insert_eq. repeat split; by rewrite <- ?app_assoc.
  - pose proof (Hrel destination_relationship (or_introl eq_refl)) as Hdest. cbn in Hdest.
    run_start. run_abs. run_finish. cbn.
    rewrite alter_insert_eq. repeat split; by rewrite <- ?app_assoc.
  - run_start. run_abs. run_finish. cbn.
    rewrite alter_insert_eq. repeat split; by rewrite <- ?app_assoc.
Qed.

Ltac run_cbn_sel :=
  cbn -[lookup insert delete alter union map_to_list merge
        str_datetime repr_datetime format_divider divider repr_exn str_int
        repr_value restore_tables create_all drop_all Z.add Z.leb
        select_rows forallb].

Ltac run_sel := run_cbn_sel; repeat (progress run_map; run_cbn_sel).

Lemma get_destination_empty_run sel sm w t :
  tables (db w) !! tablename (sel_entity sel) = Some t ->
  forallb (fun c => sendable (snd c)) (sel_where sel) = true ->
  select_rows t (sel_where sel) = [] ->
  exists w',
    _get_destination sel sm w
    = (Raise (Exn AttributeError "'NoneType' object has no attribute 'destination'"), w')
    /\ tables (db w') = tables (db w)
    /\ heap w' = heap w
    /\ greenlet w' = greenlet w
    /\ stdout w' = (stdout w
         ++ [divider "Engine activity after fetching ORM-instance" +:+ newline])%list
    /\ trace w' = (trace w
         ++ [EvSessionOpen (next_session w); EvSelect (next_session w) (sel_entity sel);
             EvSessionClose (next_session w)])%list.
Proof.
  intros Ht Hs Hrows. unfold _get_destination.
  run_start. run_sel. rewrite Hs. run_sel. rewrite Hrows. run_sel. run_finish. cbn.
  repeat split; by rewrite <- ?app_assoc.
Qed.

Lemma eager_expired_run sm w t :
  sm_expire_on_commit sm = true ->
  greenlet w = false ->
  tables (db w) !! "eager_traveler" = Some t ->
  rows t !! seq t = None -> 1 <= seq t <= 2147483647 ->
  let now := clock (db w) (tick (db w)) in
  exists w',
    eager_loading sm w = (Ok VNone, w')
    /\ db w' = db_after_insert EagerTraveler t (traveler_row (seq t) now) (db w)
    /\ stdout w' = (stdout w
         ++ [divider "Engine activity after committing ORM-instance" +:+ newline;
             caught_line])%list
    /\ trace w' = (trace w
         ++ [EvConstruct (next_addr w) EagerTraveler; EvSessionOpen (next_session w);
             EvBegin (next_session w); EvAdd (next_session w) (next_addr w);
             EvInsert (next_session w) EagerTraveler (seq t);
             EvCommit (next_session w); EvRead (next_addr w) "created_at";
             EvLoad (next_addr w) "created_at";
             EvSessionClose (next_session w)])%list.
Proof.
  intros Hsm Hg Ht Hrow Hseq now.
  unfold eager_loading, access_attribute_with_server_default.
  erewrite bind_ok; last by (apply construct_ok, simple_kwargs_ok; auto).
  unfold constructed. run_to_end.
  cbn. repeat split; by rewrite <- ?app_assoc.
Qed.

Lemma create_expired_run m kwargs sm w pk row d' :
  sm_expire_on_commit sm = true ->
  (forall k v, kwargs !! k = Some v -> is_column m k = true) ->
  db_insert m kwargs (db w) = inr (pk, row, d') ->
  exists w',
    create_orm_instance_async m kwargs sm w
    = (Raise (Exn DetachedInstanceError
         "Instance is not bound to a Session; attribute refresh operation cannot proceed"), w')
    /\ db w' = end_transaction d'
    /\ stdout w' = stdout w
    /\ trace w' = (trace w
         ++ [EvConstruct (next_addr w) m; EvSessionOpen (next_session w);
             EvBegin (next_session w); EvAdd (next_session w) (next_addr w);
             EvInsert (next_session w) m pk;
             EvCommit (next_session w); EvSessionClose (next_session w);
             EvRead (next_addr w) "id"; EvLoad (next_addr w) "id"])%list.
Proof.
  intros Hsm Hcols Hins.
  destruct (postfetch m kwargs row []) as [d ex] eqn:Hpf.
  assert (Hrel : forall r, In r (relationships m) -> kwargs !! rel_key r = None).
  { intros r Hr. destruct (kwargs !! rel_key r) as [v|] eqn:E; [|done].
    apply Hcols in E. destruct m; cbn in Hr; try done.
    destruct Hr as [<-|[]]. done. }
  unfold create_orm_instance_async.
  erewrite bind_ok; last first.
  { apply construct_ok. intros k v Hkv. left. eauto. }
  unfold constructed.
  destruct m.
  - run_start. run_abs. run_finish. cbn. repeat split; by rewrite <- ?app_assoc.
  - run_start. run_abs. run_finish. cbn. repeat split; by rewrite <- ?app_assoc.
  - pose proof (Hrel destination_relationship (or_introl eq_refl)) as Hdest. cbn in Hdest.
    run_start. run_abs. run_finish. cbn. repeat split; by rewrite <- ?app_assoc.
  - run_start. run_abs. run_finish. cbn. repeat split; by rewrite <- ?app_assoc.
Qed.

(** A refused [INSERT] and a successful one leave every table in place. *)
Lemma refused_same_tables m params d name :
  tables (db_refused m params d) !! name = None <-> tables d !! name = None.
Proof.
  unfold db_refused. destruct (tables d !! tablename m) as [t|] eqn:Ht; [|done].
  destruct (sent m params); [|done].
  destruct (present params "id"); [done|]. cbn.
  destruct (decide (name = tablename m)) as [->|Hne].
  - rewrite lookup_insert_eq, Ht. split; discriminate.
  - by rewrite lookup_insert_ne.
Qed.

Lemma insert_same_tables m params d pk row d1 name :
  db_insert m params d = inr (pk, row, d1) ->
  tables d1 !! name = None <-> tables d !! name = None.
Proof.
  intros H. destruct (db_insert_inv _ _ _ _ _ _ H) as (t & Ht & _ & _ & _ & ->). cbn.
  destruct (decide (name = tablename m)) as [->|Hne].
  - rewrite lookup_insert_eq, Ht. split; discriminate.
  - by rewrite lookup_insert_ne.
Qed.

(** A rollback gives every table the rows it had when the transaction
    began. *)
Lemma restore_rows d d1 m pk :
  (forall name, tables d1 !! name = None <-> tables d !! name = None) ->
  lookup_row m pk (end_transaction (restore_tables (tables d) d1)) = lookup_row m pk d.
Proof.
  intros Hsame. unfold lookup_row, restore_tables. cbn. rewrite lookup_merge.
  specialize (Hsame (tablename m)).
  destruct (tables d1 !! tablename m) as [c|], (tables d !! tablename m) as [o|]; cbn;
    try reflexivity.
  - destruct Hsame as [_ Hs]. by specialize (Hs eq_refl).
  - destruct Hsame as [Hs _]. by specialize (Hs eq_refl).
Qed.

(* ===================================================================== *)
(** * What failures leave behind *)
(* ===================================================================== *)

Lemma simple_columns (v : value) :
  forall k x, ({[ "name" := VStr "Sebastiaan"; "age" := v ]} : gmap string value) !! k = Some x ->
    is_column LazyTraveler k = true.
Proof.
  intros k x H.
  apply lookup_insert_Some in H as [[<- _]|[_ H]];
    [|apply lookup_singleton_Some in H as [<- _]]; reflexivity.
Qed.

(** X7: when the database refuses the [INSERT],
    [create_orm_instance_async] raises the error of the database instead
    of returning a selector; the transaction is rolled back and the
    session closed on the way out, every table has the rows it had before,
    and the instance is left without key and without session. *)
Theorem create_orm_instance_async_rolls_back m kwargs sm w e :
  (forall k v, kwargs !! k = Some v -> is_column m k = true) ->
  db_insert m kwargs (db w) = inl e ->
  exists w' i,
    create_orm_instance_async m kwargs sm w = (Raise e, w')
    /\ (forall m' pk, lookup_row m' pk (db w') = lookup_row m' pk (db w))
    /\ heap w' !! next_addr w = Some i
    /\ inst_key i = None /\ inst_session i = None /\ inst_dict i = kwargs
    /\ sublist [EvBegin (next_session w); EvRollback (next_session w);
                EvSessionClose (next_session w)]
               (drop (List.length (trace w)) (trace w'))
    /\ open_sessions [] (drop (List.length (trace w)) (trace w')) = []
    /\ (forall sid m' pk, EvInsert sid m' pk ∉ drop (List.length (trace w)) (trace w'))
    /\ (forall sid, EvCommit sid ∉ drop (List.length (trace w)) (trace w')).
Proof.
  intros Hcols Hins.
  destruct (create_rejected_run m kwargs sm w e Hcols Hins)
    as (w' & H & Hdb & Hheap & _ & _ & Htr).
  exists w'; eexists. split; [exact H|]. clear H. split.
  { intros m' pk. rewrite Hdb. apply restore_rows. intros name.
    apply refused_same_tables. }
  split; [rewrite Hheap; apply lookup_insert_eq|]. cbn.
  rewrite Htr, drop_app_length.
  repeat split.
  - find_sublist.
  - cbn. by rewrite Nat.eqb_refl.
  - intros sid m' pk Hin. absent_event Hin.
  - intros sid Hin. absent_event Hin.
Qed.

Lemma create_orm_instance_async_rolls_back_witness :
  exists e w',
    create_orm_instance_async LazyTraveler
      {[ "name" := VStr "Sebastiaan"; "age" := VInt 2147483648 ]} demo_sessions demo_world
    = (Raise e, w')
    /\ lookup_row LazyTraveler 1 (db w') = None.
Proof.
  destruct (create_orm_instance_async_rolls_back LazyTraveler
              {[ "name" := VStr "Sebastiaan"; "age" := VInt 2147483648 ]}
              demo_sessions demo_world
              (Exn DBAPIError "invalid input for query argument"))
    as (w' & i & H & Hrows & _).
  - apply simple_columns.
  - vm_compute. reflexivity.
  - eexists _, w'. split; [exact H|]. rewrite Hrows. vm_compute. reflexivity.
Defined.

(** X8: when the selector finds no row, [result.scalar()] is [None] and
    the read of [traveler.destination] raises [AttributeError]; the handler
    of [_get_destination] catches [MissingGreenlet] only, so the error goes
    to the caller, after the divider was printed and with the session
    closed. *)
Theorem get_destination_without_row_raises sel sm w t :
  tables (db w) !! tablename (sel_entity sel) = Some t ->
  forallb (fun c => sendable (snd c)) (sel_where sel) = true ->
  select_rows t (sel_where sel) = [] ->
  exists w',
    _get_destination sel sm w
    = (Raise (Exn AttributeError "'NoneType' object has no attribute 'destination'"), w')
    /\ stdout w' = (stdout w
         ++ [divider "Engine activity after fetching ORM-instance" +:+ newline])%list
    /\ tables (db w') = tables (db w)
    /\ heap w' = heap w
    /\ open_sessions [] (drop (List.length (trace w)) (trace w')) = [].
Proof.
  intros Ht Hs Hrows.
  destruct (get_destination_empty_run sel sm w t Ht Hs Hrows)
    as (w' & H & Hdb & Hheap & _ & Hout & Htr).
  exists w'. repeat split; try done.
  rewrite Htr, drop_app_length. cbn. by rewrite Nat.eqb_refl.
Qed.

Lemma get_destination_without_row_raises_witness :
  exists w',
    _get_destination (where_ (select TravelerWithDestination) "id" (VInt 7))
      demo_sessions demo_world
    = (Raise (Exn AttributeError "'NoneType' object has no attribute 'destination'"), w')
    /\ heap w' = heap demo_world.
Proof.
  destruct (get_destination_without_row_raises
              (where_ (select TravelerWithDestination) "id" (VInt 7))
              demo_sessions demo_world empty_table)
    as (w' & H & _ & _ & Hheap & _).
  - vm_compute. reflexivity.
  - reflexivity.
  - reflexivity.
  - exists w'. split; [exact H|exact Hheap].
Defined.

(** X9: the eager default does not help a session that expires its
    instances on commit: with [expire_on_commit=True] the read of
    [created_at] in [eager_loading] attempts a load as well, the
    [MissingGreenlet] is caught and the scenario returns [None], with the
    row committed.  [get_async_sessions_maker] turns the expiry off. *)
Theorem eager_loading_fails_with_expiring_sessions sm w :
  sm_expire_on_commit sm = true ->
  ready 1 w ->
  exists pk w',
    eager_loading sm w = (Ok VNone, w')
    /\ lookup_row EagerTraveler pk (db w')
       = Some (traveler_row pk (clock (db w) (tick (db w))))
    /\ stdout w' = (stdout w
         ++ [divider "Engine activity after committing ORM-instance" +:+ newline;
             caught_line])%list
    /\ (exists a, sublist [EvCommit (next_session w); EvRead a "created_at";
                           EvLoad a "created_at"]
                          (drop (List.length (trace w)) (trace w')))
    /\ sm_expire_on_commit (get_async_sessions_maker (sm_bind sm)) = false.
Proof.
  intros Hsm R.
  destruct (ready_table 1 w EagerTraveler R) as (t & Ht & Hrow & Hseq); [lia|].
  destruct R as [Hg _].
  destruct (eager_expired_run sm w t Hsm Hg Ht Hrow Hseq) as (w' & H & Hdb & Hout & Htr).
  exists (seq t), w'. split; [exact H|]. clear H.
  split; [|split; [exact Hout|split; [|reflexivity]]].
  - rewrite Hdb. unfold lookup_row, db_after_insert. cbn.
    rewrite lookup_insert_eq. cbn. by rewrite lookup_insert_eq.
  - exists (next_addr w). rewrite Htr, drop_app_length. find_sublist.
Qed.

Lemma eager_loading_fails_with_expiring_sessions_witness :
  exists w', eager_loading expiring_sessions demo_world = (Ok VNone, w').
Proof.
  destruct (eager_loading_fails_with_expiring_sessions expiring_sessions demo_world)
    as (pk & w' & H & _).
  - reflexivity.
  - apply demo_world_ready_1.
  - exists w'. exact H.
Defined.

(** X10: the selector of [create_orm_instance_async] is built from
    [instance.id], read after the session was closed.  With
    [expire_on_commit=True] the commit has expired that attribute and the
    instance is detached, so the helper raises [DetachedInstanceError]
    although the row was committed. *)
Theorem create_orm_instance_async_needs_unexpired_key m kwargs sm w pk row d' :
  sm_expire_on_commit sm = true ->
  (forall k v, kwargs !! k = Some v -> is_column m k = true) ->
  db_insert m kwargs (db w) = inr (pk, row, d') ->
  exists e w',
    create_orm_instance_async m kwargs sm w = (Raise e, w')
    /\ exn_cls e = DetachedInstanceError
    /\ lookup_row m pk (db w') = Some row
    /\ sublist [EvInsert (next_session w) m pk; EvCommit (next_session w);
                EvSessionClose (next_session w); EvRead (next_addr w) "id"]
               (drop (List.length (trace w)) (trace w')).
Proof.
  intros Hsm Hcols Hins.
  destruct (create_expired_run m kwargs sm w pk row d' Hsm Hcols Hins)
    as (w' & H & Hdb & _ & Htr).
  eexists _, w'. split; [exact H|]. split; [reflexivity|]. split.
  - rewrite Hdb.
    destruct (db_insert_inv _ _ _ _ _ _ Hins) as (t & _ & _ & _ & _ & ->).
    unfold lookup_row. cbn. rewrite lookup_insert_eq. cbn. apply lookup_insert_eq.
  - rewrite Htr, drop_app_length. find_sublist.
Qed.

Lemma create_orm_instance_async_needs_unexpired_key_witness :
  exists e w',
    create_orm_instance_async Country {[ "name" := VStr "Norway" ]} expiring_sessions
      demo_world = (Raise e, w')
    /\ exn_cls e = DetachedInstanceError
    /\ lookup_row Country 1 (db w') = Some (country_row 1).
Proof.
  destruct (create_orm_instance_async_needs_unexpired_key Country
              {[ "name" := VStr "Norway" ]} expiring_sessions demo_world 1 (country_row 1)
              (snd (match db_insert Country {[ "name" := VStr "Norway" ]} (db demo_world) with
                    | inr x => x
                    | inl _ => (0, ∅, db demo_world)
                    end)))
    as (e & w' & H & He & Hrow & _).
  - reflexivity.
  - intros k v Hkv. apply lookup_singleton_Some in Hkv as [<- _]. reflexivity.
  - vm_compute. reflexivity.
  - exists e, w'. repeat split; assumption.
Defined.

(** X11: the failure [lazy_loading] catches is a failure of the read
    only: the scenario returns [None], yet the traveler was committed and
    its row holds the timestamp the server computed. *)
Theorem lazy_loading_keeps_the_inserted_row sm w :
  sm_expire_on_commit sm = false ->
  ready 1 w ->
  exists pk w',
    lazy_loading sm w = (Ok VNone, w')
    /\ lookup_row LazyTraveler pk (db w) = None
    /\ lookup_row LazyTraveler pk (db w')
       = Some (traveler_row pk (clock (db w) (tick (db w)))).
Proof.
  intros Hsm R.
  destruct (ready_table 1 w LazyTraveler R) as (t & Ht & Hrow & Hseq); [lia|].
  destruct R as [Hg _].
  destruct (lazy_run sm w t Hsm Hg Ht Hrow Hseq) as (w' & H & Hdb & _).
  exists (seq t), w'. split; [exact H|]. clear H. split.
  - unfold lookup_row. cbn. cbn in Ht. rewrite Ht. exact Hrow.
  - rewrite Hdb. unfold lookup_row, db_after_insert. cbn.
    rewrite lookup_insert_eq. cbn. by rewrite lookup_insert_eq.
Qed.

Lemma lazy_loading_keeps_the_inserted_row_witness :
  exists pk w',
    lazy_loading demo_sessions demo_world = (Ok VNone, w')
    /\ lookup_row LazyTraveler pk (db w') = Some (traveler_row pk (demo_clock 0)).
Proof.
  destruct (lazy_loading_keeps_the_inserted_row demo_sessions demo_world)
    as (pk & w' & H & _ & Hrow).
  - reflexivity.
  - apply demo_world_ready_1.
  - exists pk, w'. split; [exact H|exact Hrow].
Defined.

(** X12: [session.add] is called on the traveler only, yet the unit of
    work saves the country it refers to as well: after
    [access_unloaded_relationship], which returns [None], both rows are
    committed and the traveler's [destination_id] is the key the country
    got. *)
Theorem access_unloaded_relationship_keeps_both_rows sm w :
  sm_expire_on_commit sm = false ->
  ready 1 w ->
  exists pk fk w',
    access_unloaded_relationship sm w = (Ok VNone, w')
    /\ lookup_row Country fk (db w) = None
    /\ lookup_row TravelerWithDestination pk (db w) = None
    /\ lookup_row Country fk (db w') = Some (country_row fk)
    /\ lookup_row TravelerWithDestination pk (db w')
       = Some (destination_row pk (clock (db w) (tick (db w))) fk)
    /\ destination_row pk (clock (db w) (tick (db w))) fk !! "destination_id"
       = Some (VInt fk).
Proof.
  intros Hsm R.
  destruct (ready_table 1 w Country R) as (tc & Htc & Hrc & Hsc); [lia|].
  destruct (ready_table 1 w TravelerWithDestination R) as (tt & Htt & Hrt & Hst); [lia|].
  destruct R as [Hg _].
  destruct (access_unloaded_relationship_run sm w tc tt Hsm Hg Htc Htt Hrc Hsc Hrt Hst)
    as (w' & H & Hdb & _).
  cbn in Htc, Htt.
  exists (seq tt), (seq tc), w'. split; [exact H|]. clear H.
  unfold lookup_row. rewrite Hdb. cbn. rewrite Htc, Htt.
  split; [exact Hrc|]. split; [exact Hrt|]. split; [|split; [|reflexivity]].
  - rewrite lookup_insert_ne by done. rewrite lookup_insert_eq. cbn.
    by rewrite lookup_insert_eq.
  - rewrite lookup_insert_eq. cbn. by rewrite lookup_insert_eq.
Qed.

Lemma access_unloaded_relationship_keeps_both_rows_witness :
  exists pk fk w',
    access_unloaded_relationship demo_sessions demo_world = (Ok VNone, w')
    /\ lookup_row Country fk (db w') = Some (country_row fk)
    /\ lookup_row TravelerWithDestination pk (db w')
       = Some (destination_row pk (demo_clock 0) fk).
Proof.
  destruct (access_unloaded_relationship_keeps_both_rows demo_sessions demo_world)
    as (pk & fk & w' & H & _ & _ & Hc & Ht & _).
  - reflexivity.
  - apply demo_world_ready_1.
  - exists pk, fk, w'. repeat split; assumption.
Defined.

(* ===================================================================== *)
(** * The representation and the release of sessions *)
(* ===================================================================== *)

Lemma unloaded_mem i key :
  In key (attr_keys (inst_class i)) ->
  existsb (String.eqb key) (unloaded i) = negb (is_some (inst_dict i !! key)).
Proof.
  intros Hin. unfold unloaded.
  destruct (inst_dict i !! key) as [v|] eqn:E; cbn.
  - apply not_true_is_false. intros (k & Hk & Heq)%existsb_exists.
    apply String.eqb_eq in Heq. subst k.
    apply filter_In in Hk as [_ Hk]. by rewrite E in Hk.
  - apply existsb_exists. exists key. split; [|apply String.eqb_refl].
    apply filter_In. split; [exact Hin|]. by rewrite E.
Qed.

Lemma map_r_format_field (repr_ : value -> exn + string) i keys :
  incl keys (attr_keys (inst_class i)) ->
  (forall k v, In k keys -> inst_dict i !! k = Some v -> exists s, repr_ v = inr s) ->
  exists fields,
    map_r (format_field repr_ i) keys = inr fields
    /\ Forall2 (fun k f => match inst_dict i !! k with
                           | Some v => exists s, repr_ v = inr s /\ f = k +:+ "=" +:+ s
                           | None => f = not_loaded k
                           end) keys fields.
Proof.
  induction keys as [|k keys IH]; intros Hincl Hrepr.
  - exists []. split; [reflexivity|constructor].
  - destruct IH as (fields & Hmap & Hall).
    { intros x Hx. apply Hincl. by right. }
    { intros x v Hx. apply Hrepr. by right. }
    cbn [map_r]. rewrite Hmap. unfold format_field at 1.
    rewrite unloaded_mem by (apply Hincl; by left).
    destruct (inst_dict i !! k) as [v|] eqn:E; cbn.
    + destruct (Hrepr k v (or_introl eq_refl) E) as [s Hs]. rewrite Hs.
      eexists. split; [reflexivity|]. constructor; [|exact Hall].
      rewrite E. eauto.
    + eexists. split; [reflexivity|]. constructor; [|exact Hall].
      by rewrite E.
Qed.

(** X13: [__repr__] never reads an attribute that is not loaded: when
    the loaded attributes can be represented it returns, and its fields
    are, in the order of the mapper, [key=repr(value)] for a loaded
    attribute and [key=<NOT_LOADED>] for any other, whatever the state of
    the instance (transient, expired, detached). *)
Theorem repr_never_reads_unloaded_attributes (repr_ : value -> exn + string) i :
  (forall k v, In k (attr_keys (inst_class i)) -> inst_dict i !! k = Some v ->
     exists s, repr_ v = inr s) ->
  exists fields,
    __repr__ repr_ i
    = inr (cls_name (inst_class i) +:+ "(" +:+ String.concat ", " fields +:+ ")")
    /\ Forall2 (fun k f => match inst_dict i !! k with
                           | Some v => exists s, repr_ v = inr s /\ f = k +:+ "=" +:+ s
                           | None => f = not_loaded k
                           end) (attr_keys (inst_class i)) fields.
Proof.
  intros Hrepr.
  destruct (map_r_format_field repr_ i (attr_keys (inst_class i))) as (fields & Hmap & Hall).
  { intros x Hx. exact Hx. }
  { exact Hrepr. }
  exists fields. split; [|exact Hall].
  unfold __repr__. by rewrite Hmap.
Qed.

Lemma repr_never_reads_unloaded_attributes_witness :
  exists fields,
    __repr__ (repr_value 0 ∅)
      {| inst_class := Country; inst_dict := {[ "name" := VStr "Norway" ]};
         inst_expired := []; inst_key := None; inst_session := None |}
    = inr ("Country" +:+ "(" +:+ String.concat ", " fields +:+ ")").
Proof.
  destruct (repr_never_reads_unloaded_attributes (repr_value 0 ∅)
              {| inst_class := Country; inst_dict := {[ "name" := VStr "Norway" ]};
                 inst_expired := []; inst_key := None; inst_session := None |})
    as (fields & H & _).
  - intros k v _ Hkv. cbn in Hkv. apply lookup_singleton_Some in Hkv as [_ <-].
    eexists. reflexivity.
  - exists fields. exact H.
Defined.

Ltac closed_trace Htr :=
  eexists _, _, _; split; [eassumption|]; split; [exact Htr|];
  cbn; repeat (rewrite Nat.eqb_refl; cbn); reflexivity.

(** X14: each of the six targets of [main] closes every session it
    opens by the time it ends, also in the two scenarios whose read fails;
    [simple_statement], which works on a connection of the engine, gives
    that connection back. *)
Theorem targets_release_sessions_and_connections e sm w :
  sm_expire_on_commit sm = false ->
  ready 1 w ->
  Forall (fun c => runs_with c w (fun _ tr => open_sessions [] tr = []))
         (map snd (targets e sm))
  /\ runs_with (simple_statement "Hello, world!" e) w
       (fun _ tr => open_connections 0 tr = 0%nat /\ In EvConnect tr).
Proof.
  intros Hsm R.
  destruct (ready_table 1 w Country R) as (tc & Htc & Hrc & Hsc); [lia|].
  destruct (ready_table 1 w TravelerWithDestination R) as (tt & Htt & Hrt & Hst); [lia|].
  destruct (ready_table 1 w LazyTraveler R) as (tl & Htl & Hrl & Hsl); [lia|].
  destruct (ready_table 1 w EagerTraveler R) as (te & Hte & Hre & Hse); [lia|].
  destruct R as [Hg _].
  split.
  - unfold targets. cbn [map snd].
    repeat apply Forall_cons_2; [..|apply Forall_nil_2].
    + destruct (simple_statement_run "Hello, world!" e w eq_refl)
        as (w' & H & _ & _ & _ & Htr).
      closed_trace Htr.
    + destruct (lazy_run sm w tl Hsm Hg Htl Hrl Hsl) as (w' & H & _ & _ & _ & Htr).
      closed_trace Htr.
    + destruct (eager_run sm w te Hsm Hte Hre Hse) as (w' & H & _ & _ & _ & Htr).
      closed_trace Htr.
    + destruct (unloaded_relationship_run sm w tc tt Hsm Htc Htt Hrc Hsc Hrt Hst)
        as (w' & H & _ & _ & _ & Htr).
      closed_trace Htr.
    + destruct (access_unloaded_relationship_run sm w tc tt Hsm Hg Htc Htt Hrc Hsc Hrt Hst)
        as (w' & H & _ & _ & _ & Htr).
      closed_trace Htr.
    + destruct (access_loaded_relationship_run sm w tc tt Hsm Htc Htt Hrc Hsc Hrt Hst)
        as (w' & H & _ & _ & _ & Htr & _).
      closed_trace Htr.
  - destruct (simple_statement_run "Hello, world!" e w eq_refl)
      as (w' & H & _ & _ & _ & Htr).
    eexists _, _, _. split; [exact H|]. split; [exact Htr|]. clear H.
    split; [reflexivity|]. by left.
Qed.

Lemma targets_release_sessions_and_connections_witness :
  Forall (fun c => runs_with c demo_world (fun _ tr => open_sessions [] tr = []))
         (map snd (targets demo_engine demo_sessions)).
Proof.
  apply (proj1 (targets_release_sessions_and_connections demo_engine demo_sessions
                  demo_world eq_refl demo_world_ready_1)).
Defined.

(* ===================================================================== *)
(** * A whole run of the main program *)
(* ===================================================================== *)

Lemma started_db label w : db (started label w) = db w.
Proof. reflexivity. Qed.

Lemma finished_db s w : db (finished s w) = db w.
Proof. reflexivity. Qed.

Ltac table_lookup HT :=
  rewrite ?started_db, ?finished_db; rewrite HT;
  rewrite ?lookup_insert_ne by (apply String.eqb_neq; reflexivity);
  first [ rewrite lookup_insert_eq; reflexivity
        | apply (flush_tables _ LazyTraveler)
        | apply (flush_tables _ EagerTraveler)
        | apply (flush_tables _ TravelerWithDestination)
        | apply (flush_tables _ Country) ].

Ltac fresh_key :=
  cbn [rows seq empty_table]; rewrite ?lookup_insert_ne by lia; apply lookup_empty.

Ltac key_range := cbn [seq empty_table]; lia.

Lemma dispose_run e w :
  AsyncEngine_dispose e w = (Ok tt, set_trace (trace w ++ [EvDispose]) w).
Proof. reflexivity. Qed.

Lemma rows_in_order {A} (a b c : A) :
  <[1 + 1 + 1 := c]> (<[1 + 1 := b]> (<[1 := a]> (∅ : gmap Z A)))
  = list_to_map [(1, a); (2, b); (3, c)].
Proof.
  change (list_to_map [(1, a); (2, b); (3, c)])
    with (<[1 := a]> (<[2 := b]> (<[3 := c]> (∅ : gmap Z A)))).
  change (1 + 1 + 1) with 3. change (1 + 1) with 2.
  rewrite (insert_insert_ne _ 3 2) by lia.
  rewrite (insert_insert_ne _ 3 1) by lia.
  by rewrite (insert_insert_ne _ 2 1) by lia.
Qed.

Lemma not_declared name :
  declared name = false ->
  name <> "lazy_traveler" /\ name <> "eager_traveler"
  /\ name <> "traveler_with_destination" /\ name <> "country".
Proof.
  unfold declared. cbn. intros H.
  repeat (apply orb_false_elim in H as [?%String.eqb_neq H]). done.
Qed.

Lemma main_effects w url :
  environ w !! "DATABASE_URL" = Some url ->
  greenlet w = false ->
  exists n1 n2 n3 n4 n5 w',
    main w = (Ok tt, w')
    /\ tables (db w') !! "lazy_traveler" = Some (table_of [(1, traveler_row 1 n1)] 2)
    /\ tables (db w') !! "eager_traveler" = Some (table_of [(1, traveler_row 1 n2)] 2)
    /\ tables (db w') !! "country"
       = Some (table_of [(1, country_row 1); (2, country_row 2); (3, country_row 3)] 4)
    /\ tables (db w') !! "traveler_with_destination"
       = Some (table_of [(1, destination_row 1 n3 1); (2, destination_row 2 n4 2);
                         (3, destination_row 3 n5 3)] 4)
    /\ (forall name, declared name = false -> tables (db w') !! name = tables (db w) !! name)
    /\ stdout w' = (stdout w ++ main_console (str_datetime n2) (traveler_repr 1 n3 1))%list
    /\ greenlet w' = false
    /\ last (trace w') = Some EvDispose.
Proof.
  intros Henv Hg0. unfold main.
  unfold bind at 1. unfold environ_get. rewrite Henv.
  set (e := get_engine_async url true).
  set (sm := get_async_sessions_maker e).
  assert (Hsm : sm_expire_on_commit sm = false) by reflexivity.
  (* flush_db *)
  destruct (flush_database_run e (started "flush_db" w))
    as (w0 & H0 & HT0 & G0 & O0 & _).
  pose proof (execute_verbosely_run _ _ _ _ _ _ H0 eq_refl) as E0.
  rewrite (bind_ok _ _ _ _ _ E0). clear H0 E0.
  set (v0 := finished "(no result)" w0).
  assert (HT : tables (db v0) = tables (create_all metadata (drop_all metadata (db w))))
    by exact HT0.
  assert (G : greenlet v0 = false) by (rewrite <- Hg0; exact G0).
  assert (O : stdout v0 = (stdout w ++ block "flush_db" [] "(no result)")%list).
  { unfold v0, finished, block. cbn. rewrite O0. unfold started. cbn.
    by rewrite <- app_assoc. }
  clearbody v0. clear HT0 G0 O0 w0.
  (* simple *)
  destruct (simple_statement_run "Hello, world!" e (started "simple" v0) eq_refl)
    as (w1 & H1 & D1 & G1 & O1 & _).
  pose proof (execute_verbosely_run _ _ _ _ _ _ H1 eq_refl) as E1. clear H1.
  set (v1 := finished "Hello, world!" w1) in *.
  assert (HT1 : tables (db v1) = tables (create_all metadata (drop_all metadata (db w)))).
  { rewrite <- HT. unfold v1. rewrite finished_db, D1. reflexivity. }
  assert (G1' : greenlet v1 = false) by (rewrite <- G; exact G1).
  assert (O1' : stdout v1
                = (stdout w ++ block "flush_db" [] "(no result)"
                   ++ block "simple" [] "Hello, world!")%list).
  { unfold v1, finished. cbn. rewrite O1. unfold started. cbn. rewrite O.
    unfold block. cbn. by rewrite <- !app_assoc. }
  clearbody v1. clear D1 G1 O1 w1 HT G O.
  (* lazy_loading *)
  destruct (lazy_run sm (started "lazy_loading" v1) empty_table Hsm)
    as (w2 & H2 & D2 & G2 & O2 & _);
    [exact G1'|table_lookup HT1|fresh_key|key_range|].
  pose proof (execute_verbosely_run _ _ _ _ _ _ H2 eq_refl) as E2. clear H2.
  set (n1 := clock (db (started "lazy_loading" v1)) (tick (db (started "lazy_loading" v1)))) in *.
  clearbody n1.
  set (v2 := finished "(no result)" w2) in *.
  assert (HT2 : tables (db v2)
                = <["lazy_traveler" := {| rows := <[1 := traveler_row 1 n1]> ∅; seq := 1 + 1 |}]>
                    (tables (create_all metadata (drop_all metadata (db w))))).
  { unfold v2. rewrite finished_db, D2. unfold db_after_insert. cbn.
    rewrite HT1. reflexivity. }
  assert (G2' : greenlet v2 = false) by exact G2.
  assert (O2' : stdout v2
                = (stdout w ++ block "flush_db" [] "(no result)"
                   ++ block "simple" [] "Hello, world!"
                   ++ block "lazy_loading"
                        [divider "Engine activity after committing ORM-instance" +:+ newline;
                         caught_line] "(no result)")%list).
  { unfold v2, finished. cbn. rewrite O2. unfold started. cbn. rewrite O1'.
    unfold block, caught_line. cbn. by rewrite <- !app_assoc. }
  clearbody v2. clear D2 G2 O2 w2 HT1 G1' O1'.
  (* eager_loading *)
  destruct (eager_run sm (started "eager_loading" v2) empty_table Hsm)
    as (w3 & H3 & D3 & G3 & O3 & _);
    [table_lookup HT2|fresh_key|key_range|].
  set (n2 := clock (db (started "eager_loading" v2)) (tick (db (started "eager_loading" v2)))) in *.
  clearbody n2.
  pose proof (execute_verbosely_run _ _ _ _ _ _ H3 eq_refl) as E3. clear H3.
  set (v3 := finished ("Traveler Sebastiaan created at: " +:+ str_datetime n2) w3) in *.
  assert (HT3 : tables (db v3)
                = <["eager_traveler" := {| rows := <[1 := traveler_row 1 n2]> ∅; seq := 1 + 1 |}]>
                    (<["lazy_traveler" := {| rows := <[1 := traveler_row 1 n1]> ∅; seq := 1 + 1 |}]>
                       (tables (create_all metadata (drop_all metadata (db w)))))).
  { unfold v3. rewrite finished_db, D3. unfold db_after_insert. cbn.
    rewrite HT2. reflexivity. }
  assert (G3' : greenlet v3 = false) by (rewrite <- G2'; exact G3).
  assert (O3' : stdout v3
                = (stdout w ++ block "flush_db" [] "(no result)"
                   ++ block "simple" [] "Hello, world!"
                   ++ block "lazy_loading"
                        [divider "Engine activity after committing ORM-instance" +:+ newline;
                         caught_line] "(no result)"
                   ++ block "eager_loading"
                        [divider "Engine activity after committing ORM-instance" +:+ newline]
                        ("Traveler Sebastiaan created at: " +:+ str_datetime n2))%list).
  { unfold v3, finished. cbn. rewrite O3. unfold started. cbn. rewrite O2'.
    unfold block. cbn. by rewrite <- !app_assoc. }
  clearbody v3. clear D3 G3 O3 w3 HT2 G2' O2'.
  (* unloaded_relationship *)
  pose (C1 := {| rows := <[1 := country_row 1]> ∅; seq := 1 + 1 |}).
  pose (C2 := {| rows := <[1 + 1 := country_row (1 + 1)]> (rows C1); seq := 1 + 1 + 1 |}).
  pose (C3 := {| rows := <[1 + 1 + 1 := country_row (1 + 1 + 1)]> (rows C2);
                 seq := 1 + 1 + 1 + 1 |}).
  destruct (unloaded_relationship_run sm (started "unloaded_relationship" v3)
              empty_table empty_table Hsm)
    as (w4 & H4 & D4 & G4 & O4 & _);
    [table_lookup HT3|table_lookup HT3|fresh_key|key_range|fresh_key|key_range|].
  unfold db_after_traveler in D4.
  set (n3 := clock (db (started "unloaded_relationship" v3))
                   (tick (db (started "unloaded_relationship" v3)))) in *.
  clearbody n3.
  pose proof (execute_verbosely_run _ _ _ _ _ _ H4 eq_refl) as E4. clear H4.
  change (seq empty_table) with 1 in E4.
  pose (T1 := {| rows := <[1 := destination_row 1 n3 1]> ∅; seq := 1 + 1 |}).
  set (v4 := finished (traveler_repr 1 n3 1) w4) in *.
  assert (HT4 : tables (db v4)
                = <["traveler_with_destination" := T1]> (<["country" := C1]>
                  (<["eager_traveler" := {| rows := <[1 := traveler_row 1 n2]> ∅; seq := 1 + 1 |}]>
                    (<["lazy_traveler" := {| rows := <[1 := traveler_row 1 n1]> ∅; seq := 1 + 1 |}]>
                       (tables (create_all metadata (drop_all metadata (db w)))))))).
  { unfold v4. rewrite finished_db, D4. unfold db_after_traveler. cbn.
    rewrite HT3. reflexivity. }
  assert (G4' : greenlet v4 = false) by (rewrite <- G3'; exact G4).
  assert (O4' : stdout v4
                = (stdout w ++ block "flush_db" [] "(no result)"
                   ++ block "simple" [] "Hello, world!"
                   ++ block "lazy_loading"
                        [divider "Engine activity after committing ORM-instance" +:+ newline;
                         caught_line] "(no result)"
                   ++ block "eager_loading"
                        [divider "Engine activity after committing ORM-instance" +:+ newline]
                        ("Traveler Sebastiaan created at: " +:+ str_datetime n2)
                   ++ block "unloaded_relationship" [] (traveler_repr 1 n3 1))%list).
  { unfold v4, finished. cbn. rewrite O4. unfold started. cbn. rewrite O3'.
    unfold block. cbn. by rewrite <- !app_assoc. }
  clearbody v4. clear D4 G4 O4 w4 HT3 G3' O3'.
  (* access_unloaded_relationship *)
  destruct (access_unloaded_relationship_run sm (started "access_unloaded_relationship" v4)
              C1 T1 Hsm)
    as (w5 & H5 & D5 & G5 & O5 & _);
    [exact G4'|table_lookup HT4|table_lookup HT4|unfold C1; fresh_key|unfold C1; key_range
    |unfold T1; fresh_key|unfold T1; key_range|].
  unfold db_after_traveler in D5.
  set (n4 := clock (db (started "access_unloaded_relationship" v4))
                   (tick (db (started "access_unloaded_relationship" v4)))) in *.
  clearbody n4.
  pose proof (execute_verbosely_run _ _ _ _ _ _ H5 eq_refl) as E5. clear H5.
  pose (T2 := {| rows := <[1 + 1 := destination_row (1 + 1) n4 (1 + 1)]> (rows T1);
                 seq := 1 + 1 + 1 |}).
  set (v5 := finished "(no result)" w5) in *.
  assert (HT5 : tables (db v5)
                = <["traveler_with_destination" := T2]> (<["country" := C2]>
                  (<["traveler_with_destination" := T1]> (<["country" := C1]>
                  (<["eager_traveler" := {| rows := <[1 := traveler_row 1 n2]> ∅; seq := 1 + 1 |}]>
                    (<["lazy_traveler" := {| rows := <[1 := traveler_row 1 n1]> ∅; seq := 1 + 1 |}]>
                       (tables (create_all metadata (drop_all metadata (db w)))))))))).
  { unfold v5. rewrite finished_db, D5. unfold db_after_traveler. cbn.
    rewrite HT4. reflexivity. }
  assert (G5' : greenlet v5 = false) by exact G5.
  assert (O5' : stdout v5
                = (stdout w ++ block "flush_db" [] "(no result)"
                   ++ block "simple" [] "Hello, world!"
                   ++ block "lazy_loading"
                        [divider "Engine activity after committing ORM-instance" +:+ newline;
                         caught_line] "(no result)"
                   ++ block "eager_loading"
                        [divider "Engine activity after committing ORM-instance" +:+ newline]
                        ("Traveler Sebastiaan created at: " +:+ str_datetime n2)
                   ++ block "unloaded_relationship" [] (traveler_repr 1 n3 1)
                   ++ block "access_unloaded_relationship"
                        [divider "Engine activity after fetching ORM-instance" +:+ newline;
                         caught_line] "(no result)")%list).
  { unfold v5, finished. cbn. rewrite O5. unfold started. cbn. rewrite O4'.
    unfold block, caught_line. cbn. by rewrite <- !app_assoc. }
  clearbody v5. clear D5 G5 O5 w5 HT4 G4' O4'.
  (* access_loaded_relationship *)
  destruct (access_loaded_relationship_run sm (started "access_loaded_relationship" v5)
              C2 T2 Hsm)
    as (w6 & H6 & D6 & G6 & O6 & _);
    [table_lookup HT5|table_lookup HT5|unfold C2, C1; fresh_key|unfold C2; key_range
    |unfold T2, T1; fresh_key|unfold T2; key_range|].
  unfold db_after_traveler in D6.
  set (n5 := clock (db (started "access_loaded_relationship" v5))
                   (tick (db (started "access_loaded_relationship" v5)))) in *.
  clearbody n5.
  pose proof (execute_verbosely_run _ _ _ _ _ _ H6 eq_refl) as E6. clear H6.
  pose (T3 := {| rows := <[1 + 1 + 1 := destination_row (1 + 1 + 1) n5 (1 + 1 + 1)]> (rows T2);
                 seq := 1 + 1 + 1 + 1 |}).
  set (v6 := finished "The traveler is traveling to 'Norway'" w6) in *.
  assert (HT6 : tables (db v6)
                = <["traveler_with_destination" := T3]> (<["country" := C3]>
                  (<["traveler_with_destination" := T2]> (<["country" := C2]>
                  (<["traveler_with_destination" := T1]> (<["country" := C1]>
                  (<["eager_traveler" := {| rows := <[1 := traveler_row 1 n2]> ∅; seq := 1 + 1 |}]>
                    (<["lazy_traveler" := {| rows := <[1 := traveler_row 1 n1]> ∅; seq := 1 + 1 |}]>
                       (tables (create_all metadata (drop_all metadata (db w)))))))))))).
  { unfold v6. rewrite finished_db, D6. unfold db_after_traveler. cbn.
    rewrite HT5. reflexivity. }
  assert (G6' : greenlet v6 = false) by (rewrite <- G5'; exact G6).
  assert (O6' : stdout v6
                = (stdout w ++ main_console (str_datetime n2) (traveler_repr 1 n3 1))%list).
  { unfold v6, finished. cbn. rewrite O6. unfold started. cbn. rewrite O5'.
    unfold main_console, block. cbn. by rewrite <- !app_assoc. }
  clearbody v6. clear D6 G6 O6 w6 HT5 G5' O5'.
  assert (R : run_targets (targets e sm) v0
              = (Ok [VStr "Hello, world!"; VNone;
                     VStr ("Traveler Sebastiaan created at: " +:+ str_datetime n2);
                     VStr (traveler_repr 1 n3 1); VNone;
                     VStr "The traveler is traveling to 'Norway'"], v6)).
  { unfold run_targets, targets.
    repeat (eapply map_m_cons; [eassumption|]). reflexivity. }
  clear E1 E2 E3 E4 E5 E6.
  rewrite (bind_ok _ _ _ _ _ R). clear R.
  exists n1, n2, n3, n4, n5, (set_trace (trace v6 ++ [EvDispose]) v6).
  split; [apply dispose_run|].
  change (db (set_trace (trace v6 ++ [EvDispose]) v6)) with (db v6).
  change (stdout (set_trace (trace v6 ++ [EvDispose]) v6)) with (stdout v6).
  change (greenlet (set_trace (trace v6 ++ [EvDispose]) v6)) with (greenlet v6).
  change (trace (set_trace (trace v6 ++ [EvDispose]) v6)) with (trace v6 ++ [EvDispose])%list.
  rewrite HT6.
  split; [|split; [|split; [|split; [|split; [|split; [exact O6'|split; [exact G6'|]]]]]]].
  - rewrite !lookup_insert_ne by (apply String.eqb_neq; reflexivity).
    rewrite lookup_insert_eq. reflexivity.
  - rewrite !lookup_insert_ne by (apply String.eqb_neq; reflexivity).
    rewrite lookup_insert_eq. reflexivity.
  - rewrite !lookup_insert_ne by (apply String.eqb_neq; reflexivity).
    rewrite lookup_insert_eq. unfold C3, C2, C1, table_of. cbn [rows].
    by rewrite rows_in_order.
  - rewrite lookup_insert_eq. unfold T3, T2, T1, table_of. cbn [rows].
    by rewrite rows_in_order.
  - intros name Hd. destruct (not_declared _ Hd) as (? & ? & ? & ?).
    rewrite !lookup_insert_ne by congruence. by apply flush_tables_other.
  - apply last_snoc.
Qed.

(* ===================================================================== *)
(** * The database and the console after the main program *)
(* ===================================================================== *)

(** X15: whatever the database held before, [main] leaves one row in
    each of the two traveler tables of the server-default scenarios and
    three travelers with a destination, each bound for a country of its
    own: the three relationship scenarios insert three rows named Norway,
    with keys 1 to 3.  Tables the metadata does not declare keep their
    content. *)
Theorem main_leaves_a_country_per_traveler w url :
  environ w !! "DATABASE_URL" = Some url ->
  greenlet w = false ->
  exists n1 n2 n3 n4 n5 w',
    main w = (Ok tt, w')
    /\ tables (db w') !! "lazy_traveler" = Some (table_of [(1, traveler_row 1 n1)] 2)
    /\ tables (db w') !! "eager_traveler" = Some (table_of [(1, traveler_row 1 n2)] 2)
    /\ tables (db w') !! "country"
       = Some (table_of [(1, country_row 1); (2, country_row 2); (3, country_row 3)] 4)
    /\ tables (db w') !! "traveler_with_destination"
       = Some (table_of [(1, destination_row 1 n3 1); (2, destination_row 2 n4 2);
                         (3, destination_row 3 n5 3)] 4)
    /\ (forall name, declared name = false -> tables (db w') !! name = tables (db w) !! name).
Proof.
  intros Henv Hg.
  destruct (main_effects w url Henv Hg)
    as (n1 & n2 & n3 & n4 & n5 & w' & H & Hl & He & Hc & Ht & Ho & _).
  exists n1, n2, n3, n4, n5, w'. split; [exact H|]. clear H.
  split; [exact Hl|]. split; [exact He|]. split; [exact Hc|]. split; [exact Ht|exact Ho].
Qed.

Lemma main_leaves_a_country_per_traveler_witness :
  exists w' tc,
    main demo_world = (Ok tt, w')
    /\ tables (db w') !! "country" = Some tc
    /\ seq tc = 4.
Proof.
  destruct (main_leaves_a_country_per_traveler demo_world
              "postgresql+asyncpg://demo@localhost/demo")
    as (n1 & n2 & n3 & n4 & n5 & w' & H & _ & _ & Hc & _).
  - vm_compute. reflexivity.
  - reflexivity.
  - exists w'. eexists. split; [exact H|]. split; [exact Hc|reflexivity].
Defined.

(** X16: the console of a whole run of [main]: seven blocks in the order
    [flush_db], [simple], then the five ORM targets, each made of the start
    marker, what the coroutine prints, and the result between its dividers;
    the placeholder [(no result)] stands in three of them, those of the
    schema reset and of the two scenarios whose read fails.  The engine is
    disposed last. *)
Theorem main_prints_seven_blocks w url :
  environ w !! "DATABASE_URL" = Some url ->
  greenlet w = false ->
  exists created shown w',
    main w = (Ok tt, w')
    /\ stdout w' = (stdout w ++ main_console created shown)%list
    /\ contains "destination=<NOT_LOADED>" shown
    /\ count_line ("(no result)" +:+ newline) (main_console created shown) = 3%nat
    /\ last (trace w') = Some EvDispose.
Proof.
  intros Henv Hg.
  destruct (main_effects w url Henv Hg)
    as (n1 & n2 & n3 & n4 & n5 & w' & H & _ & _ & _ & _ & _ & Hout & _ & Hlast).
  exists (str_datetime n2), (traveler_repr 1 n3 1), w'. split; [exact H|]. clear H.
  split; [exact Hout|]. split; [|split; [|exact Hlast]].
  - apply traveler_repr_not_loaded.
  - vm_compute. reflexivity.
Qed.

Lemma main_prints_seven_blocks_witness :
  exists created shown w',
    main demo_world = (Ok tt, w')
    /\ stdout w' = main_console created shown.
Proof.
  destruct (main_prints_seven_blocks demo_world "postgresql+asyncpg://demo@localhost/demo")
    as (created & shown & w' & H & Hout & _).
  - vm_compute. reflexivity.
  - reflexivity.
  - exists created, shown, w'. split; [exact H|exact Hout].
Defined.

(* ===================================================================== *)
(** * Atomicity of the unit of work; a traveler without destination *)
(* ===================================================================== *)

Lemma create_ref_rejected_run kwargs sm w c dc exc pkc rowc d1 e :
  accepted TravelerWithDestination kwargs w ->
  kwargs !! "destination" = Some (VRef c) ->
  (c < next_addr w)%nat ->
  heap w !! c = Some {| inst_class := Country; inst_dict := dc; inst_expired := exc;
                        inst_key := None; inst_session := None |} ->
  db_insert Country dc (db w) = inr (pkc, rowc, d1) ->
  db_insert TravelerWithDestination (<["destination_id" := VInt pkc]> kwargs) d1 = inl e ->
  exists w',
    create_orm_instance_async TravelerWithDestination kwargs sm w = (Raise e, w')
    /\ db w' = end_transaction
                 (restore_tables (tables (db w))
                    (db_refused TravelerWithDestination
                       (<["destination_id" := VInt pkc]> kwargs) d1))
    /\ stdout w' = stdout w
    /\ trace w' = (trace w
         ++ [EvConstruct (next_addr w) TravelerWithDestination;
             EvSessionOpen (next_session w);
             EvBegin (next_session w); EvAdd (next_session w) (next_addr w);
             EvInsert (next_session w) Country pkc;
             EvRollback (next_session w); EvSessionClose (next_session w)])%list.
Proof.
  intros Hacc Hdest Hlt Hc Hinsc Hins.
  destruct (db_insert_inv _ _ _ _ _ _ Hinsc) as (tc & _ & Hrowc & Hidc & _ & _).
  assert (Hcid : (postfetch Country dc rowc exc).1 !! "id" = Some (VInt pkc)).
  { rewrite Hrowc. apply postfetch_id. by rewrite <- Hrowc. }
  destruct (postfetch Country dc rowc exc) as [dcc excc] eqn:Hpfc. cbn in Hcid.
  clear Hrowc Hidc.
  unfold create_orm_instance_async.
  erewrite bind_ok; last first.
  { apply construct_ok. intros k v Hkv.
    destruct (Hacc k v Hkv) as [?|(r & Hr & [->|(c' & dc' & exc' & -> & _ & Hc')])];
      [by left|right; eauto|].
    right. exists r. split; [done|]. right. eauto. }
  unfold constructed.
  run_start. run_abs. rewrite Nat.eqb_refl. run_abs. run_finish. cbn.
  repeat split; by rewrite <- ?app_assoc.
Qed.

Lemma get_destination_null_run sm w tt pk row :
  tables (db w) !! "traveler_with_destination" = Some tt ->
  rows tt !! pk = Some row ->
  row !! "id" = Some (VInt pk) ->
  row !! "destination_id" = Some VNone ->
  row !! "destination" = None ->
  exists w',
    _get_destination (where_ (select TravelerWithDestination) "id" (VInt pk)) sm w
    = (Raise (Exn AttributeError "'NoneType' object has no attribute 'name'"), w')
    /\ stdout w' = (stdout w
         ++ [divider "Engine activity after fetching ORM-instance" +:+ newline])%list
    /\ trace w' = (trace w
         ++ [EvSessionOpen (next_session w);
             EvSelect (next_session w) TravelerWithDestination;
             EvRead (next_addr w) "destination";
             EvSessionClose (next_session w)])%list.
Proof.
  intros Ht Hrow Hid Hfk Hdest. unfold _get_destination.
  run_to_end. cbn. repeat split; by rewrite <- ?app_assoc.
Qed.

(** X17: the unit of work is all or nothing.  When the traveler is
    refused after the country it refers to was inserted,
    [create_orm_instance_async] raises the error of the database, the
    transaction is rolled back and no table keeps a row of it: the country
    is gone as well. *)
Theorem create_orm_instance_async_is_atomic kwargs sm w c dc exc pkc rowc d1 e :
  accepted TravelerWithDestination kwargs w ->
  kwargs !! "destination" = Some (VRef c) ->
  (c < next_addr w)%nat ->
  heap w !! c = Some {| inst_class := Country; inst_dict := dc; inst_expired := exc;
                        inst_key := None; inst_session := None |} ->
  db_insert Country dc (db w) = inr (pkc, rowc, d1) ->
  db_insert TravelerWithDestination (<["destination_id" := VInt pkc]> kwargs) d1 = inl e ->
  exists w',
    create_orm_instance_async TravelerWithDestination kwargs sm w = (Raise e, w')
    /\ (forall m pk, lookup_row m pk (db w') = lookup_row m pk (db w))
    /\ sublist [EvInsert (next_session w) Country pkc; EvRollback (next_session w);
                EvSessionClose (next_session w)]
               (drop (List.length (trace w)) (trace w'))
    /\ forall sid, EvCommit sid ∉ drop (List.length (trace w)) (trace w').
Proof.
  intros Hacc Hdest Hlt Hc Hinsc Hins.
  destruct (create_ref_rejected_run kwargs sm w c dc exc pkc rowc d1 e
              Hacc Hdest Hlt Hc Hinsc Hins) as (w' & H & Hdb & _ & Htr).
  exists w'. split; [exact H|]. clear H.
  rewrite Htr, drop_app_length. split; [|split].
  - intros m pk. rewrite Hdb. apply restore_rows. intros name.
    rewrite refused_same_tables. by eapply insert_same_tables.
  - find_sublist.
  - intros sid Hin. absent_event Hin.
Qed.

Lemma create_orm_instance_async_is_atomic_witness :
  exists e w',
    create_orm_instance_async TravelerWithDestination
      {[ "name" := VStr "Sebastiaan"; "age" := VInt 2147483648; "destination" := VRef 0%nat ]}
      demo_sessions norway_world = (Raise e, w')
    /\ lookup_row Country 1 (db w') = None.
Proof.
  destruct (create_orm_instance_async_is_atomic
              {[ "name" := VStr "Sebastiaan"; "age" := VInt 2147483648;
                 "destination" := VRef 0%nat ]}
              demo_sessions norway_world 0%nat {[ "name" := VStr "Norway" ]} [] 1
              (country_row 1)
              (snd (match db_insert Country {[ "name" := VStr "Norway" ]} (db norway_world) with
                    | inr x => x
                    | inl _ => (0, ∅, db norway_world)
                    end))
              (Exn DBAPIError "invalid input for query argument"))
    as (w' & H & Hrows & _).
  - intros k v Hkv.
    apply lookup_insert_Some in Hkv as [[<- _]|[_ Hkv]]; [by left|].
    apply lookup_insert_Some in Hkv as [[<- _]|[_ Hkv]]; [by left|].
    apply lookup_singleton_Some in Hkv as [<- <-].
    right. exists destination_relationship. split; [reflexivity|]. right.
    exists 0%nat, {[ "name" := VStr "Norway" ]}, []. split; [reflexivity|].
    split; [cbn; lia|]. vm_compute. reflexivity.
  - vm_compute. reflexivity.
  - cbn. lia.
  - vm_compute. reflexivity.
  - vm_compute. reflexivity.
  - vm_compute. reflexivity.
  - eexists _, w'. split; [exact H|]. rewrite Hrows. vm_compute. reflexivity.
Defined.

(** X18: for a traveler without destination the read of
    [traveler.destination] needs no load and gives [None]; the read of
    [.name] on it raises [AttributeError], which the handler of
    [_get_destination] does not catch: the caller gets the exception, after
    the divider and with the session closed. *)
Theorem get_destination_without_destination_raises sm w tt pk row :
  tables (db w) !! "traveler_with_destination" = Some tt ->
  rows tt !! pk = Some row ->
  row !! "id" = Some (VInt pk) ->
  row !! "destination_id" = Some VNone ->
  row !! "destination" = None ->
  exists w',
    _get_destination (where_ (select TravelerWithDestination) "id" (VInt pk)) sm w
    = (Raise (Exn AttributeError "'NoneType' object has no attribute 'name'"), w')
    /\ stdout w' = (stdout w
         ++ [divider "Engine activity after fetching ORM-instance" +:+ newline])%list
    /\ no_load (drop (List.length (trace w)) (trace w'))
    /\ open_sessions [] (drop (List.length (trace w)) (trace w')) = [].
Proof.
  intros Ht Hrow Hid Hfk Hdest.
  destruct (get_destination_null_run sm w tt pk row Ht Hrow Hid Hfk Hdest)
    as (w' & H & Hout & Htr).
  exists w'. split; [exact H|]. clear H. split; [exact Hout|].
  rewrite Htr, drop_app_length. split.
  - intros a key Hin. absent_event Hin.
  - cbn. by rewrite Nat.eqb_refl.
Qed.

Lemma get_destination_without_destination_raises_witness :
  exists w',
    _get_destination (where_ (select TravelerWithDestination) "id" (VInt 1))
      demo_sessions stranded_world
    = (Raise (Exn AttributeError "'NoneType' object has no attribute 'name'"), w').
Proof.
  destruct (get_destination_without_destination_raises demo_sessions stranded_world
              {| rows := {[ 1 := stranded_row ]}; seq := 2 |} 1 stranded_row)
    as (w' & H & _).
  - vm_compute. reflexivity.
  - vm_compute. reflexivity.
  - vm_compute. reflexivity.
  - vm_compute. reflexivity.
  - vm_compute. reflexivity.
  - exists w'. exact H.
Defined.
